(** * Appointment intake: validation, normalisation and schedule policy

    A shallow embedding of [backend/src/validation/appointments.ts] and of the
    [POST /appointments] handler of [backend/src/app.ts], together with the
    part of the JavaScript platform (strings, regular expressions, [Date])
    these functions call. *)

From Stdlib Require Import ZArith NArith QArith_base List Ascii String Bool Lia.
From stdpp Require Import base option list gmap strings.

Local Open Scope Z_scope.

(** ** JavaScript strings

    A JavaScript string is a sequence of UTF-16 code units; [length],
    [slice], [trim] and the regular expressions below all work on code
    units. *)
Module Str.
Local Open Scope N_scope.

Definition codeunit := N.
Definition jsstring := list codeunit.

(** A string literal of the source (all of them are ASCII). *)
Definition js (s : string) : jsstring := map N_of_ascii (list_ascii_of_string s).

Definition ceq (a b : codeunit) : bool := N.eqb a b.
Definition in_range (lo hi c : codeunit) : bool := (N.leb lo c && N.leb c hi)%bool.

(** [\d]: the ASCII digits only. *)
Definition is_digit (c : codeunit) : bool := in_range 48 57 c.

(** [\s] and the code units removed by [trim]: WhiteSpace and LineTerminator
    of ECMAScript (TAB, LF, VT, FF, CR, SP, NBSP, U+1680, U+2000-U+200A,
    LS, PS, U+202F, U+205F, U+3000, U+FEFF). *)
Definition is_white_space (c : codeunit) : bool :=
  (in_range 9 13 c || ceq c 32 || ceq c 160 || ceq c 5760 || in_range 8192 8202 c
   || ceq c 8232 || ceq c 8233 || ceq c 8239 || ceq c 8287 || ceq c 12288
   || ceq c 65279)%bool.

Fixpoint drop_while (p : codeunit -> bool) (s : jsstring) : jsstring :=
  match s with
  | [] => []
  | c :: s' => if p c then drop_while p s' else s
  end.

Definition trimStart (s : jsstring) : jsstring := drop_while is_white_space s.
Definition trimEnd (s : jsstring) : jsstring := rev (drop_while is_white_space (rev s)).

(** [s.trim()] *)
Definition trim (s : jsstring) : jsstring := trimEnd (trimStart s).

(** [s.slice(from, to)] for non-negative [from <= to]. *)
Definition slice (s : jsstring) (from to : nat) : jsstring :=
  firstn (to - from) (skipn from s).

Fixpoint jsstring_eqb (a b : jsstring) : bool :=
  match a, b with
  | [], [] => true
  | x :: a', y :: b' => (ceq x y && jsstring_eqb a' b')%bool
  | _, _ => false
  end.

Fixpoint starts_with (pat s : jsstring) : bool :=
  match pat, s with
  | [], _ => true
  | p :: pat', c :: s' => (ceq p c && starts_with pat' s')%bool
  | _ :: _, [] => false
  end.

(** [s.replace(pat, rep)] for a string pattern: the first occurrence only.
    ([rep] holds no [$] in the source, so it is inserted as it is.) *)
Fixpoint replace (pat rep s : jsstring) : jsstring :=
  if starts_with pat s then rep ++ skipn (List.length pat) s
  else match s with
       | [] => []
       | c :: s' => c :: replace pat rep s'
       end.

End Str.
Export Str.

(** ** Regular expressions

    The fragment used by the source: character classes, concatenation,
    alternation, bounded repetition and [+].  Both expressions are anchored
    with [^] and [$] and carry no flags, so [re.test(s)] holds exactly when
    the whole of [s] is in the language; it is decided by derivatives. *)
Module Regex.

Inductive regex : Type :=
| Rnone
| Reps
| Rclass (p : codeunit -> bool)
| Rcat (r1 r2 : regex)
| Ralt (r1 r2 : regex)
| Rstar (r : regex).

Definition Rchar (c : codeunit) : regex := Rclass (ceq c).
Definition Rplus (r : regex) : regex := Rcat r (Rstar r).

Fixpoint Rrepeat (n : nat) (r : regex) : regex :=
  match n with
  | O => Reps
  | S n' => Rcat r (Rrepeat n' r)
  end.

Fixpoint nullable (r : regex) : bool :=
  match r with
  | Rnone => false
  | Reps => true
  | Rclass _ => false
  | Rcat r1 r2 => (nullable r1 && nullable r2)%bool
  | Ralt r1 r2 => (nullable r1 || nullable r2)%bool
  | Rstar _ => true
  end.

Fixpoint deriv (c : codeunit) (r : regex) : regex :=
  match r with
  | Rnone => Rnone
  | Reps => Rnone
  | Rclass p => if p c then Reps else Rnone
  | Rcat r1 r2 =>
      if nullable r1 then Ralt (Rcat (deriv c r1) r2) (deriv c r2)
      else Rcat (deriv c r1) r2
  | Ralt r1 r2 => Ralt (deriv c r1) (deriv c r2)
  | Rstar r' => Rcat (deriv c r') (Rstar r')
  end.

Fixpoint derivs (s : jsstring) (r : regex) : regex :=
  match s with
  | [] => r
  | c :: s' => derivs s' (deriv c r)
  end.

(** [re.test(s)] for an anchored expression. *)
Definition test (r : regex) (s : jsstring) : bool := nullable (derivs s r).

(** The language of an expression. *)
Inductive Matches : regex -> jsstring -> Prop :=
| M_eps : Matches Reps []
| M_class p c : p c = true -> Matches (Rclass p) [c]
| M_cat r1 r2 s1 s2 : Matches r1 s1 -> Matches r2 s2 -> Matches (Rcat r1 r2) (s1 ++ s2)
| M_alt_l r1 r2 s : Matches r1 s -> Matches (Ralt r1 r2) s
| M_alt_r r1 r2 s : Matches r2 s -> Matches (Ralt r1 r2) s
| M_star_nil r : Matches (Rstar r) []
| M_star_app r s1 s2 : Matches r s1 -> Matches (Rstar r) s2 -> Matches (Rstar r) (s1 ++ s2).

End Regex.
Export Regex.

(** ** JavaScript values

    The request body is what [express.json()] hands over: an object whose
    properties hold JSON values. *)
Module Value.

(** Numbers.  [NumInt z] is a finite number of integral value [z] ([+0] for
    [z = 0]) and [NumFrac q] a finite number whose value [q] is not
    integral; every arithmetic done by the source is on integral values in
    the range where double arithmetic is exact. *)
Inductive number : Type :=
| NumInt (z : Z)
| NumNegZero
| NumFrac (q : Q)
| NumInf (negative : bool)
| NumNaN.

(** A nested array or object is carried with the outcome of its conversion
    to a primitive: [Some s] when the conversion yields the string [s],
    [None] when it throws a TypeError (an object with an own [toString]
    property, which JSON can only make non-callable). For values built by
    [JSON.parse] both conversion hints give this same outcome. *)
Inductive jsval : Type :=
| VUndefined
| VNull
| VBool (b : bool)
| VNumber (n : number)
| VString (s : jsstring)
| VObject (prim : option jsstring).

(** The results of [typeof] that JSON values can have. *)
Inductive jstype : Type := TyUndefined | TyObject | TyBoolean | TyNumber | TyString.

Definition typeof (v : jsval) : jstype :=
  match v with
  | VUndefined => TyUndefined
  | VNull => TyObject
  | VBool _ => TyBoolean
  | VNumber _ => TyNumber
  | VString _ => TyString
  | VObject _ => TyObject
  end.

Definition jstype_eqb (a b : jstype) : bool :=
  match a, b with
  | TyUndefined, TyUndefined | TyObject, TyObject | TyBoolean, TyBoolean
  | TyNumber, TyNumber | TyString, TyString => true
  | _, _ => false
  end.

(** ToBoolean: what [if (v)] and [!v] test. *)
Definition ToBoolean (v : jsval) : bool :=
  match v with
  | VUndefined | VNull => false
  | VBool b => b
  | VNumber (NumInt z) => negb (z =? 0)
  | VNumber NumNegZero | VNumber NumNaN => false
  | VNumber _ => true
  | VString s => match s with [] => false | _ => true end
  | VObject _ => true
  end.

(** [Number.isInteger(v)] *)
Definition Number_isInteger (v : jsval) : bool :=
  match v with
  | VNumber (NumInt _) | VNumber NumNegZero => true
  | _ => false
  end.

(** [v <= 0]; the source evaluates it on numbers only (it stands behind
    [typeof v !== "number" ||]). *)
Definition le_zero (v : jsval) : bool :=
  match v with
  | VNumber (NumInt z) => z <=? 0
  | VNumber NumNegZero => true
  | VNumber (NumFrac q) => Qnum q <=? 0
  | VNumber (NumInf negative) => negative
  | _ => false
  end.

(** [s.length] *)
Definition strlen (s : jsstring) : Z := Z.of_nat (List.length s).

Inductive exn : Type := TypeError | RangeError.

Inductive result (A : Type) : Type :=
| Ok (a : A)
| Throw (e : exn).
Arguments Ok {A} a.
Arguments Throw {A} e.

(** Library functions whose results the source passes on without looking
    into them, and [Date.parse] outside the date-time format written out in
    [JSDate] below. *)
Class Platform : Type := {
  toLowerCase : jsstring -> jsstring;
  Number_toString : number -> jsstring;
  StringToNumber : jsstring -> number;
  Date_parse_other : jsstring -> option Z
}.

Section Conversions.
Context `{Platform}.

(** [String(v)] *)
Definition ToString (v : jsval) : result jsstring :=
  match v with
  | VUndefined => Ok (js "undefined")
  | VNull => Ok (js "null")
  | VBool true => Ok (js "true")
  | VBool false => Ok (js "false")
  | VNumber n => Ok (Number_toString n)
  | VString s => Ok s
  | VObject (Some s) => Ok s
  | VObject None => Throw TypeError
  end.

(** [Number(v)] *)
Definition ToNumber (v : jsval) : result number :=
  match v with
  | VUndefined => Ok NumNaN
  | VNull => Ok (NumInt 0)
  | VBool true => Ok (NumInt 1)
  | VBool false => Ok (NumInt 0)
  | VNumber n => Ok n
  | VString s => Ok (StringToNumber s)
  | VObject (Some s) => Ok (StringToNumber s)
  | VObject None => Throw TypeError
  end.

End Conversions.

End Value.
Export Value.

(** ** Dates

    Time values are integral milliseconds since the epoch, [None] standing
    for NaN; the day and year arithmetic is that of ECMAScript. *)
Module JSDate.

Definition msPerDay : Z := 86400000.
Definition msPerHour : Z := 3600000.
Definition msPerMinute : Z := 60000.
Definition msPerSecond : Z := 1000.

Definition Day (t : Z) : Z := t / msPerDay.
Definition TimeWithinDay (t : Z) : Z := t mod msPerDay.

Definition DaysInYear (y : Z) : Z :=
  if negb (y mod 4 =? 0) then 365
  else if negb (y mod 100 =? 0) then 366
  else if negb (y mod 400 =? 0) then 365
  else 366.

Definition DayFromYear (y : Z) : Z :=
  365 * (y - 1970) + (y - 1969) / 4 - (y - 1901) / 100 + (y - 1601) / 400.

(** The year of day number [d]: the largest [y] with [DayFromYear y <= d],
    found from an estimate that is off by one year at most. *)
Definition YearFromDay (d : Z) : Z :=
  let y := 1970 + (d * 400) / 146097 in
  if d <? DayFromYear y then y - 1
  else if DayFromYear (y + 1) <=? d then y + 1
  else y.

Definition YearFromTime (t : Z) : Z := YearFromDay (Day t).
Definition InLeapYear (t : Z) : Z := if DaysInYear (YearFromTime t) =? 366 then 1 else 0.
Definition DayWithinYear (t : Z) : Z := Day t - DayFromYear (YearFromTime t).

(** Day within the year on which month [m] (0-based) starts. *)
Definition month_start (leap m : Z) : Z :=
  match m with
  | 0 => 0
  | 1 => 31
  | 2 => 59 + leap
  | 3 => 90 + leap
  | 4 => 120 + leap
  | 5 => 151 + leap
  | 6 => 181 + leap
  | 7 => 212 + leap
  | 8 => 243 + leap
  | 9 => 273 + leap
  | 10 => 304 + leap
  | 11 => 334 + leap
  | _ => 365 + leap
  end.

Definition month_of_day (leap d : Z) : Z :=
  if d <? 31 then 0
  else if d <? 59 + leap then 1
  else if d <? 90 + leap then 2
  else if d <? 120 + leap then 3
  else if d <? 151 + leap then 4
  else if d <? 181 + leap then 5
  else if d <? 212 + leap then 6
  else if d <? 243 + leap then 7
  else if d <? 273 + leap then 8
  else if d <? 304 + leap then 9
  else if d <? 334 + leap then 10
  else 11.

Definition MonthFromTime (t : Z) : Z := month_of_day (InLeapYear t) (DayWithinYear t).
Definition DateFromTime (t : Z) : Z :=
  DayWithinYear t - month_start (InLeapYear t) (MonthFromTime t) + 1.

Definition HourFromTime (t : Z) : Z := (t / msPerHour) mod 24.
Definition MinFromTime (t : Z) : Z := (t / msPerMinute) mod 60.
Definition SecFromTime (t : Z) : Z := (t / msPerSecond) mod 60.
Definition msFromTime (t : Z) : Z := t mod msPerSecond.

Definition MakeTime (hour min sec ms : Z) : Z :=
  hour * msPerHour + min * msPerMinute + sec * msPerSecond + ms.

Definition MakeDay (year month date : Z) : Z :=
  let ym := year + month / 12 in
  let mn := month mod 12 in
  let leap := if DaysInYear ym =? 366 then 1 else 0 in
  DayFromYear ym + month_start leap mn + date - 1.

Definition MakeDate (day time : Z) : Z := day * msPerDay + time.

Definition TimeClip (t : Z) : option Z :=
  if Z.abs t <=? 8640000000000000 then Some t else None.

(** *** Rendering: [Date.prototype.toISOString] *)

Definition digit_char (d : Z) : codeunit := Z.to_N (48 + d mod 10).

Fixpoint pad_onto (n : nat) (z : Z) (acc : jsstring) : jsstring :=
  match n with
  | O => acc
  | S n' => pad_onto n' (z / 10) (digit_char z :: acc)
  end.

(** [z] in [n] decimal digits, zero-padded. *)
Definition pad (n : nat) (z : Z) : jsstring := pad_onto n z [].

Definition year_string (y : Z) : jsstring :=
  if (0 <=? y) && (y <=? 9999) then pad 4 y
  else (if 0 <=? y then js "+" else js "-") ++ pad 6 (Z.abs y).

Definition iso_string (t : Z) : jsstring :=
  year_string (YearFromTime t) ++ js "-" ++ pad 2 (MonthFromTime t + 1) ++ js "-"
  ++ pad 2 (DateFromTime t) ++ js "T" ++ pad 2 (HourFromTime t) ++ js ":"
  ++ pad 2 (MinFromTime t) ++ js ":" ++ pad 2 (SecFromTime t) ++ js "."
  ++ pad 3 (msFromTime t) ++ js "Z".

(** [d.toISOString()] for a date of time value [tv]: a RangeError on an
    invalid date. *)
Definition toISOString (tv : option Z) : result jsstring :=
  match tv with
  | None => Throw RangeError
  | Some t => Ok (iso_string t)
  end.

(** [d.getUTCMinutes()]: NaN on an invalid date. *)
Definition getUTCMinutes (tv : option Z) : option Z :=
  match tv with
  | None => None
  | Some t => Some (MinFromTime t)
  end.

(** *** Parsing: [Date.parse]

    The date-time strings with a 'T', a time of minute or second precision
    and an explicit offset are parsed here, the way Node's engine does: a
    four-digit or signed six-digit year, month 01-12, day 01-31 (a day past
    the end of its month rolls over), time up to 23:59:59 or exactly
    24:00:00, and an offset of two digits each for an hour up to 23 and a
    minute up to 59 (a string with an offset field past these is an invalid
    date). Every other string is left to the platform. *)

Record iso_fields : Type := {
  f_year : Z; f_month : Z; f_day : Z;
  f_hour : Z; f_minute : Z; f_second : Z;
  f_offset_sign : Z; f_offset_hour : Z; f_offset_minute : Z
}.

(** The offset from UTC, in minutes. *)
Definition f_offset_minutes (f : iso_fields) : Z :=
  f_offset_sign f * (f_offset_hour f * 60 + f_offset_minute f).

Definition digit_value (c : codeunit) : Z := Z.of_N c - 48.

Fixpoint read_digits (n : nat) (acc : Z) (s : jsstring) : option (Z * jsstring) :=
  match n with
  | O => Some (acc, s)
  | S n' =>
      match s with
      | c :: s' => if is_digit c then read_digits n' (10 * acc + digit_value c) s' else None
      | [] => None
      end
  end.

Definition expect (c : codeunit) (s : jsstring) : option jsstring :=
  match s with
  | c' :: s' => if ceq c c' then Some s' else None
  | [] => None
  end.

Definition read_year (s : jsstring) : option (Z * jsstring) :=
  match s with
  | c :: s' =>
      if ceq c 43%N then read_digits 6 0 s'
      else if ceq c 45%N then
        '(y, rest) ← read_digits 6 0 s';
        if y =? 0 then None else Some (- y, rest)
      else read_digits 4 0 s
  | [] => None
  end.

Definition read_seconds (s : jsstring) : option (Z * jsstring) :=
  match s with
  | c :: s' => if ceq c 58%N then read_digits 2 0 s' else Some (0, s)
  | [] => Some (0, s)
  end.

(** [Z], or a sign with the hour and the minute of the offset. *)
Definition read_offset (s : jsstring) : option (Z * Z * Z) :=
  match s with
  | c :: s' =>
      if ceq c 90%N then
        match s' with
        | [] => Some (1, 0, 0)
        | _ => None
        end
      else if ceq c 43%N || ceq c 45%N then
        '(h, s1) ← read_digits 2 0 s';
        s2 ← expect 58%N s1;
        '(m, s3) ← read_digits 2 0 s2;
        match s3 with
        | [] => Some (if ceq c 43%N then 1 else -1, h, m)
        | _ => None
        end
      else None
  | [] => None
  end.

Definition parse_iso (s : jsstring) : option iso_fields :=
  '(year, s) ← read_year s;
  s ← expect 45%N s;
  '(month, s) ← read_digits 2 0 s;
  s ← expect 45%N s;
  '(day, s) ← read_digits 2 0 s;
  s ← expect 84%N s;
  '(hour, s) ← read_digits 2 0 s;
  s ← expect 58%N s;
  '(minute, s) ← read_digits 2 0 s;
  '(second, s) ← read_seconds s;
  '(sign, offset_hour, offset_minute) ← read_offset s;
  Some {| f_year := year; f_month := month; f_day := day;
          f_hour := hour; f_minute := minute; f_second := second;
          f_offset_sign := sign; f_offset_hour := offset_hour;
          f_offset_minute := offset_minute |}.

Definition fields_in_bounds (f : iso_fields) : bool :=
  (1 <=? f_month f) && (f_month f <=? 12) && (1 <=? f_day f) && (f_day f <=? 31)
  && (((f_hour f <=? 23) && (f_minute f <=? 59) && (f_second f <=? 59))
      || ((f_hour f =? 24) && (f_minute f =? 0) && (f_second f =? 0)))
  && (f_offset_hour f <=? 23) && (f_offset_minute f <=? 59).

Definition time_of_fields (f : iso_fields) : option Z :=
  if fields_in_bounds f then
    TimeClip (MakeDate (MakeDay (f_year f) (f_month f - 1) (f_day f))
                       (MakeTime (f_hour f) (f_minute f) (f_second f) 0)
              - f_offset_minutes f * msPerMinute)
  else None.

Section Parse.
Context `{Platform}.

(** [Date.parse(s)], which is also the time value of [new Date(s)]. *)
Definition Date_parse (s : jsstring) : option Z :=
  match parse_iso s with
  | Some f => time_of_fields f
  | None => t ← Date_parse_other s; TimeClip t
  end.

End Parse.

End JSDate.
Export JSDate.

(** ** The world the handler runs in

    Objects live in a heap and are passed by reference; the clock and the
    source of random identifiers are read through the same state. *)
Module World.

Definition loc := positive.

Record world : Type := {
  w_heap : gmap loc (gmap string jsval);
  w_clock : Z;
  w_uuid : nat -> jsstring;
  w_drawn : nat
}.

Definition with_heap (w : world) (h : gmap loc (gmap string jsval)) : world :=
  {| w_heap := h; w_clock := w_clock w; w_uuid := w_uuid w; w_drawn := w_drawn w |}.

(** Computations that read and write the world and may throw. *)
Definition M (A : Type) : Type := world -> world * result A.

#[export] Instance M_ret : MRet M := fun A a w => (w, Ok a).
#[export] Instance M_bind : MBind M := fun A B f m w =>
  match m w with
  | (w', Ok a) => f a w'
  | (w', Throw e) => (w', Throw e)
  end.

#[export] Instance result_ret : MRet result := fun A a => Ok a.
#[export] Instance result_bind : MBind result := fun A B f r =>
  match r with
  | Ok a => f a
  | Throw e => Throw e
  end.

(** A pure computation that may throw, run inside [M]. *)
Definition lift {A : Type} (r : result A) : M A := fun w => (w, r).

(** [o.k]: an absent property reads as [undefined]. *)
Definition prop (o : gmap string jsval) (k : string) : jsval := default VUndefined (o !! k).

(** The object a reference points to. *)
Definition deref (l : loc) : M (gmap string jsval) :=
  fun w => (w, Ok (default ∅ (w_heap w !! l))).

(** [l.k] *)
Definition get (l : loc) (k : string) : M jsval :=
  o ← deref l; mret (prop o k).

(** [l.k = v] *)
Definition set (l : loc) (k : string) (v : jsval) : M unit :=
  fun w => (with_heap w (<[l := <[k := v]> (default ∅ (w_heap w !! l))]> (w_heap w)), Ok tt).

(** [{ ...l }]: a new object with the own properties of [l]. *)
Definition spread (l : loc) : M loc :=
  fun w =>
    let d := fresh (dom (w_heap w)) in
    (with_heap w (<[d := default ∅ (w_heap w !! l)]> (w_heap w)), Ok d).

(** [Date.now()] *)
Definition Date_now : M Z := fun w => (w, Ok (w_clock w)).

(** [crypto.randomUUID()] *)
Definition randomUUID : M jsstring :=
  fun w => ({| w_heap := w_heap w; w_clock := w_clock w; w_uuid := w_uuid w;
               w_drawn := S (w_drawn w) |}, Ok (w_uuid w (w_drawn w))).

(** [try { m } catch (err) { h(err) }] *)
Definition try_catch {A : Type} (m : M A) (h : exn -> M A) : M A :=
  fun w =>
    match m w with
    | (w', Ok a) => (w', Ok a)
    | (w', Throw e) => h e w'
    end.

End World.
Export World.

(** ** backend/src/validation/appointments.ts *)
Module Appointments.

(** [/^\d{4}-\d{2}-\d{2}T\d{2}:\d{2}(?:Z|[+-]\d{2}:\d{2})$/] *)
Definition ISO_MINUTE_NO_SECONDS : regex :=
  let d := Rclass is_digit in
  Rcat (Rrepeat 4 d) (Rcat (Rchar 45) (Rcat (Rrepeat 2 d) (Rcat (Rchar 45)
  (Rcat (Rrepeat 2 d) (Rcat (Rchar 84) (Rcat (Rrepeat 2 d) (Rcat (Rchar 58)
  (Rcat (Rrepeat 2 d)
     (Ralt (Rchar 90)
           (Rcat (Rclass (fun c => ceq c 43 || ceq c 45))
                 (Rcat (Rrepeat 2 d) (Rcat (Rchar 58) (Rrepeat 2 d)))))))))))))%N.

(** [[^\s@]] *)
Definition not_space_at (c : codeunit) : bool := negb (is_white_space c || ceq c 64%N).

(** [/^[^\s@]+@[^\s@]+\.[^\s@]+$/] *)
Definition EMAIL_SHAPE : regex :=
  Rcat (Rplus (Rclass not_space_at)) (Rcat (Rchar 64%N)
  (Rcat (Rplus (Rclass not_space_at)) (Rcat (Rchar 46%N) (Rplus (Rclass not_space_at))))).

Definition msg_start_not_string : jsstring := js "startAt must be a string".
Definition msg_start_not_iso : jsstring :=
  js "startAt must be ISO 8601 without seconds/milliseconds (e.g., 2025-09-20T18:00Z)".
Definition msg_start_not_date : jsstring := js "startAt is not a valid datetime".
Definition msg_grid : jsstring := js "startAt must align to 15-minute increments".
Definition msg_service_id : jsstring := js "serviceId must be a positive integer".
Definition msg_name_required : jsstring := js "clientName is required".
Definition msg_contact : jsstring := js "Either clientEmail or clientPhone must be provided".
Definition msg_email_shape : jsstring := js "clientEmail must be a valid email address".
Definition msg_email_long : jsstring := js "clientEmail is too long".
Definition msg_phone_short : jsstring := js "clientPhone must be at least 7 digits long".
Definition msg_phone_long : jsstring := js "clientPhone is too long".
Definition msg_name_long : jsstring := js "clientName is too long".
Definition msg_future : jsstring := js "startAt must be in the future".

(** [errors.push(m)] *)
Definition push (errors : list jsstring) (m : jsstring) : list jsstring := errors ++ [m].

Section WithPlatform.
Context `{Platform}.

Definition validateStartAtMinuteOnly (s : jsval) : option jsstring :=
  match s with
  | VString str =>
      if negb (test ISO_MINUTE_NO_SECONDS str) then Some msg_start_not_iso
      else
        let d := Date_parse str in
        match d with
        | None => Some msg_start_not_date
        | Some _ => None
        end
  | _ => Some msg_start_not_string
  end.

(** [Math.floor(ms / 60_000) * 60_000] is written with the floor division
    of [Z]: on a time value the double quotient never rounds up to the next
    integer, and the product is exact. *)
Definition normalizeToIsoMinuteZ (s : jsstring) : result jsstring :=
  let d := Date_parse s in
  let ms := d in
  let minuteFloor := (fun ms => ms / 60000 * 60000) <$> ms in
  iso ← toISOString (minuteFloor ≫= TimeClip);
  mret (replace (js ".000Z") (js "Z") iso).

Definition enforceFifteenMinuteGrid (isoMinuteZ : jsstring) : option jsstring :=
  let d := Date_parse isoMinuteZ in
  let m := getUTCMinutes d in
  match m with
  | Some m => if Z.rem m 15 =? 0 then None else Some msg_grid
  | None => Some msg_grid
  end.

Definition validateAppointment (data : gmap string jsval) : list jsstring :=
  let errors : list jsstring := [] in
  let errors :=
    if negb (jstype_eqb (typeof (prop data "serviceId")) TyNumber)
       || negb (Number_isInteger (prop data "serviceId"))
       || le_zero (prop data "serviceId")
    then push errors msg_service_id else errors in
  let startErr := validateStartAtMinuteOnly (prop data "startAt") in
  let errors :=
    match startErr with
    | Some e => push errors e
    | None => errors
    end in
  let errors :=
    if match prop data "clientName" with
       | VString s => strlen (trim s) =? 0
       | _ => true
       end
    then push errors msg_name_required else errors in
  let errors :=
    if negb (ToBoolean (prop data "clientEmail")) && negb (ToBoolean (prop data "clientPhone"))
    then push errors msg_contact else errors in
  let errors :=
    match prop data "clientEmail" with
    | VString email =>
        if 0 <? strlen email then
          let errors :=
            if negb (test EMAIL_SHAPE email) then push errors msg_email_shape else errors in
          let errors :=
            if 255 <? strlen email then push errors msg_email_long else errors in
          errors
        else errors
    | _ => errors
    end in
  let errors :=
    match prop data "clientPhone" with
    | VString phone =>
        if 0 <? strlen phone then
          let errors :=
            if strlen phone <? 7 then push errors msg_phone_short else errors in
          let errors :=
            if 40 <? strlen phone then push errors msg_phone_long else errors in
          errors
        else errors
    | _ => errors
    end in
  let errors :=
    if match prop data "clientName" with
       | VString s => 120 <? strlen (trim s)
       | _ => false
       end
    then push errors msg_name_long else errors in
  errors.

Definition normalizeAppointment (data : loc) : M loc :=
  d ← spread data;
  v ← get d "clientName";
  s ← lift (ToString v);
  set d "clientName" (VString (slice (trim s) 0 120));;
  v ← get d "clientEmail";
  (if ToBoolean v then
     v ← get d "clientEmail";
     s ← lift (ToString v);
     set d "clientEmail" (VString (slice (toLowerCase (trim s)) 0 255))
   else mret tt);;
  v ← get d "clientPhone";
  (if ToBoolean v then
     v ← get d "clientPhone";
     s ← lift (ToString v);
     set d "clientPhone" (VString (slice (trim s) 0 40))
   else mret tt);;
  v ← get d "serviceId";
  n ← lift (ToNumber v);
  set d "serviceId" (VNumber n);;
  v ← get d "startAt";
  s ← lift (ToString v);
  iso ← lift (normalizeToIsoMinuteZ s);
  set d "startAt" (VString iso);;
  mret d.

(** [durationMin] ranges over the integral numbers; on them, and on time
    values, the sum below is exact in double arithmetic whenever it lands in
    the range of [TimeClip], and lands outside it otherwise. *)
Definition computeEndAt (startIso : jsstring) (durationMin : Z) : result jsstring :=
  let ms := (fun t => t + durationMin * 60000) <$> Date_parse startIso in
  iso ← toISOString (ms ≫= TimeClip);
  mret (replace (js ".000Z") (js "Z") iso).

End WithPlatform.

End Appointments.
Export Appointments.

(** ** backend/src/app.ts: [POST /appointments] *)
Module App.

(** What the handler sends: [res.status(n).json(...)] with an error list or
    with the acceptance message and its debug identifiers, or the error it
    hands to [next]. *)
Inductive body : Type :=
| Errors (errors : list jsstring)
| Received (message : jsstring) (id confirmToken cancelToken : jsstring).

Inductive reply : Type :=
| Json (status : Z) (b : body)
| Next (err : exn).

(** Modelled from the spec: the AppointmentRecord handed to persistence. The
    source binds every value of it (steps 4 and 5 of the handler) but keeps
    the INSERT that takes them commented out; the fields below are that
    statement's parameters in its order, with its literal status. *)
Record AppointmentRecord : Type := {
  r_id : jsstring;
  r_serviceId : jsval;
  r_startAt : jsstring;
  r_endAt : jsstring;
  r_clientName : jsval;
  r_clientEmail : jsval;
  r_clientPhone : jsval;
  r_status : jsstring;
  r_confirmToken : jsstring;
  r_cancelToken : jsstring
}.

(** [v ?? null] *)
Definition or_null (v : jsval) : jsval :=
  match v with
  | VUndefined | VNull => VNull
  | _ => v
  end.

(** A property that [normalizeAppointment] has set to a string, read at its
    declared type. *)
Definition as_string (v : jsval) : jsstring :=
  match v with
  | VString s => s
  | _ => []
  end.

Definition msg_received : jsstring :=
  js "Appointment received. Please check your email to confirm.".

Section WithPlatform.
Context `{Platform}.

(** The handler proper. [grid] is the imported [enforceFifteenMinuteGrid]
    binding, [None] when the import is left out (the handler tests
    [typeof enforceFifteenMinuteGrid === "function"]). Beside the reply it
    yields the record prepared for the insert, when it gets that far. *)
Definition post_appointments (grid : option (jsstring -> option jsstring)) (req_body : loc)
  : M (reply * option AppointmentRecord) :=
  try_catch
    (o ← deref req_body;
     let errors := validateAppointment o in
     if 0 <? Z.of_nat (List.length errors) then mret (Json 400 (Errors errors), None)
     else
       data ← normalizeAppointment req_body;
       v ← get data "startAt";
       let startAt := as_string v in
       match match grid with
             | Some enforce => enforce startAt
             | None => None
             end with
       | Some gridErr => mret (Json 400 (Errors [gridErr]), None)
       | None =>
           now ← Date_now;
           let startMs := Date_parse startAt in
           if match startMs with
              | None => true
              | Some ms => ms <=? now
              end
           then mret (Json 400 (Errors [msg_future]), None)
           else
             endAt ← lift (computeEndAt startAt 60);
             id ← randomUUID;
             confirmToken ← randomUUID;
             cancelToken ← randomUUID;
             serviceId ← get data "serviceId";
             clientName ← get data "clientName";
             clientEmail ← get data "clientEmail";
             clientPhone ← get data "clientPhone";
             mret (Json 202 (Received msg_received id confirmToken cancelToken),
                   Some {| r_id := id; r_serviceId := serviceId; r_startAt := startAt;
                           r_endAt := endAt; r_clientName := clientName;
                           r_clientEmail := or_null clientEmail;
                           r_clientPhone := or_null clientPhone;
                           r_status := js "pending";
                           r_confirmToken := confirmToken;
                           r_cancelToken := cancelToken |})
       end)
    (fun err => mret (Next err, None)).

End WithPlatform.

End App.
Export App.

(** ** The shapes of timestamps the specification speaks of *)
Module Shapes.

(** [n] decimal digits. *)
Definition digits (n : nat) (ds : jsstring) : Prop :=
  List.length ds = n /\ forallb is_digit ds = true.

(** [Z] or [+HH:MM] or [-HH:MM]. *)
Inductive utc_offset : jsstring -> Prop :=
| offset_Z : utc_offset (js "Z")
| offset_hm sign hh mm :
    sign = 43%N \/ sign = 45%N -> digits 2 hh -> digits 2 mm ->
    utc_offset (sign :: hh ++ js ":" ++ mm).

(** [YYYY-MM-DDTHH:MM]: the date and time down to the minute. *)
Inductive date_time_minutes : jsstring -> Prop :=
| date_time_minutes_intro yyyy mo dd hh mi :
    digits 4 yyyy -> digits 2 mo -> digits 2 dd -> digits 2 hh -> digits 2 mi ->
    date_time_minutes (yyyy ++ js "-" ++ mo ++ js "-" ++ dd ++ js "T" ++ hh ++ js ":" ++ mi).

(** A minute-precision timestamp: four-digit year, two-digit month and day,
    [T], two-digit hour and minute, then [Z] or a [+HH:MM]/[-HH:MM]
    offset. *)
Inductive minute_precision : jsstring -> Prop :=
| minute_precision_intro dt off :
    date_time_minutes dt -> utc_offset off -> minute_precision (dt ++ off).

(** A seconds component [:SS], [:SS.fff] or a fraction [.fff] on the
    minutes. *)
Inductive seconds_component : jsstring -> Prop :=
| seconds_only ss : digits 2 ss -> seconds_component (js ":" ++ ss)
| seconds_fraction ss frac :
    digits 2 ss -> frac <> [] -> forallb is_digit frac = true ->
    seconds_component (js ":" ++ ss ++ js "." ++ frac)
| fraction_only frac :
    frac <> [] -> forallb is_digit frac = true -> seconds_component (js "." ++ frac).

(** A timestamp that carries seconds or fractional seconds, whatever
    follows them. *)
Inductive has_seconds : jsstring -> Prop :=
| has_seconds_intro dt sec rest :
    date_time_minutes dt -> seconds_component sec -> has_seconds (dt ++ sec ++ rest).

(** The canonical form [YYYY-MM-DDTHH:MM:00Z]. *)
Inductive canonical_minute_Z : jsstring -> Prop :=
| canonical_minute_Z_intro dt :
    date_time_minutes dt -> canonical_minute_Z (dt ++ js ":00Z").

(** The date and time of the instant [t] down to the minute, as
    [toISOString] writes them, and the minute-level UTC string of [t]. *)
Definition minute_prefix (t : Z) : jsstring :=
  year_string (YearFromTime t) ++ js "-" ++ pad 2 (MonthFromTime t + 1) ++ js "-"
  ++ pad 2 (DateFromTime t) ++ js "T" ++ pad 2 (HourFromTime t) ++ js ":"
  ++ pad 2 (MinFromTime t).

Definition minute_string (t : Z) : jsstring := minute_prefix t ++ js ":00Z".

(** The minutes field [MM] of a string that ends in [MM:00Z]. *)
Definition minute_field (s : jsstring) : option Z :=
  match rev s with
  | _ :: _ :: _ :: _ :: m2 :: m1 :: _ => Some (10 * digit_value m1 + digit_value m2)
  | _ => None
  end.

(** No white space at either end: what [trim] leaves. *)
Definition trimmed (s : jsstring) : Prop := trim s = s.

End Shapes.
Export Shapes.

(** ** The field rules of the validator, one by one *)
Module Rules.

(** [serviceId]: a number, an integer, and [> 0]. *)
Definition serviceId_ok (v : jsval) : bool :=
  match v with
  | VNumber (NumInt z) => 0 <? z
  | _ => false
  end.

Definition check_serviceId (data : gmap string jsval) : list jsstring :=
  if serviceId_ok (prop data "serviceId") then [] else [msg_service_id].

Section WithPlatform.
Context `{Platform}.

(** [startAt]: the one message of [validateStartAtMinuteOnly], if any. *)
Definition check_startAt (data : gmap string jsval) : list jsstring :=
  match validateStartAtMinuteOnly (prop data "startAt") with
  | Some e => [e]
  | None => []
  end.

(** [clientName]: a string that is not empty once trimmed. *)
Definition check_clientName (data : gmap string jsval) : list jsstring :=
  match prop data "clientName" with
  | VString s => if trim s is [] then [msg_name_required] else []
  | _ => [msg_name_required]
  end.

(** Contact: one of [clientEmail], [clientPhone] is truthy. *)
Definition check_contact (data : gmap string jsval) : list jsstring :=
  if ToBoolean (prop data "clientEmail") || ToBoolean (prop data "clientPhone")
  then [] else [msg_contact].

(** [clientEmail], when it is a non-empty string: its shape, then its
    length. *)
Definition check_clientEmail (data : gmap string jsval) : list jsstring :=
  match prop data "clientEmail" with
  | VString (c :: email) =>
      (if test EMAIL_SHAPE (c :: email) then [] else [msg_email_shape])
      ++ (if strlen (c :: email) <=? 255 then [] else [msg_email_long])
  | _ => []
  end.

(** [clientPhone], when it is a non-empty string: at least 7, at most 40. *)
Definition check_clientPhone (data : gmap string jsval) : list jsstring :=
  match prop data "clientPhone" with
  | VString (c :: phone) =>
      (if 7 <=? strlen (c :: phone) then [] else [msg_phone_short])
      ++ (if strlen (c :: phone) <=? 40 then [] else [msg_phone_long])
  | _ => []
  end.

(** [clientName], when it is a string: at most 120 once trimmed. *)
Definition check_clientName_length (data : gmap string jsval) : list jsstring :=
  match prop data "clientName" with
  | VString s => if strlen (trim s) <=? 120 then [] else [msg_name_long]
  | _ => []
  end.

End WithPlatform.

End Rules.
Export Rules.

(** ** Views of the code that the proofs go through *)
Module Views.

(** The expression for [YYYY-MM-DDTHH:MM], followed by [r]. *)
Definition minutes_then (r : regex) : regex :=
  let d := Rclass is_digit in
  (Rcat (Rrepeat 4 d) (Rcat (Rchar 45) (Rcat (Rrepeat 2 d) (Rcat (Rchar 45)
  (Rcat (Rrepeat 2 d) (Rcat (Rchar 84) (Rcat (Rrepeat 2 d) (Rcat (Rchar 58)
  (Rcat (Rrepeat 2 d) r)))))))))%N.

(** [Z|[+-]\d{2}:\d{2}] *)
Definition offset_re : regex :=
  (Ralt (Rchar 90)
        (Rcat (Rclass (fun c => ceq c 43 || ceq c 45))
              (Rcat (Rrepeat 2 (Rclass is_digit))
                    (Rcat (Rchar 58) (Rrepeat 2 (Rclass is_digit))))))%N.

(** The world [w] with the object at [d] set to [o]. *)
Definition at_obj (w : world) (d : loc) (o : gmap string jsval) : world :=
  with_heap w (<[d := o]> (w_heap w)).

(** A statement on the fields of one object: the object it leaves and
    whether it threw. *)
Definition step : Type := gmap string jsval -> gmap string jsval * result unit.

Definition then_step (f g : step) : step :=
  fun o =>
    match f o with
    | (o', Ok _) => g o'
    | (o', Throw e) => (o', Throw e)
    end.

(** [o.k = compute(o.k)] *)
Definition assign (k : string) (compute : jsval -> result jsval) : step :=
  fun o =>
    match compute (prop o k) with
    | Ok v => (<[k := v]> o, Ok tt)
    | Throw e => (o, Throw e)
    end.

(** [if (o.k) ...] *)
Definition when_truthy (k : string) (f : step) : step :=
  fun o => if ToBoolean (prop o k) then f o else (o, Ok tt).

(** A statement that leaves the property [k] alone. *)
Definition leaves (k : string) (f : step) : Prop :=
  forall o o' r, f o = (o', r) -> o' !! k = o !! k.

(** The world after an accepted request has drawn its three identifiers. *)
Definition drawn3 (w : world) : world :=
  {| w_heap := w_heap w; w_clock := w_clock w; w_uuid := w_uuid w;
     w_drawn := S (S (S (w_drawn w))) |}.

(** The record an accepted request prepares from the normalized fields
    [o], in the world [w] it arrived in. *)
Definition prepared_record (w : world) (o : gmap string jsval) (endAt : jsstring)
  : AppointmentRecord :=
  {| r_id := w_uuid w (w_drawn w);
     r_serviceId := prop o "serviceId";
     r_startAt := as_string (prop o "startAt");
     r_endAt := endAt;
     r_clientName := prop o "clientName";
     r_clientEmail := or_null (prop o "clientEmail");
     r_clientPhone := or_null (prop o "clientPhone");
     r_status := js "pending";
     r_confirmToken := w_uuid w (S (w_drawn w));
     r_cancelToken := w_uuid w (S (S (w_drawn w))) |}.

Definition accepted_reply (w : world) : reply :=
  Json 202 (Received msg_received (w_uuid w (w_drawn w)) (w_uuid w (S (w_drawn w)))
              (w_uuid w (S (S (w_drawn w))))).

Section WithPlatform.
Context `{Platform}.

(** The statements of [validateAppointment], each as a function of the
    error list it is handed. *)
Definition stmt_serviceId (data : gmap string jsval) (errors : list jsstring) :=
  if negb (jstype_eqb (typeof (prop data "serviceId")) TyNumber)
     || negb (Number_isInteger (prop data "serviceId"))
     || le_zero (prop data "serviceId")
  then push errors msg_service_id else errors.

Definition stmt_startAt (data : gmap string jsval) (errors : list jsstring) :=
  match validateStartAtMinuteOnly (prop data "startAt") with
  | Some e => push errors e
  | None => errors
  end.

Definition stmt_clientName (data : gmap string jsval) (errors : list jsstring) :=
  if match prop data "clientName" with
     | VString s => strlen (trim s) =? 0
     | _ => true
     end
  then push errors msg_name_required else errors.

Definition stmt_contact (data : gmap string jsval) (errors : list jsstring) :=
  if negb (ToBoolean (prop data "clientEmail")) && negb (ToBoolean (prop data "clientPhone"))
  then push errors msg_contact else errors.

Definition stmt_clientEmail (data : gmap string jsval) (errors : list jsstring) :=
  match prop data "clientEmail" with
  | VString email =>
      if 0 <? strlen email then
        let errors :=
          if negb (test EMAIL_SHAPE email) then push errors msg_email_shape else errors in
        let errors :=
          if 255 <? strlen email then push errors msg_email_long else errors in
        errors
      else errors
  | _ => errors
  end.

Definition stmt_clientPhone (data : gmap string jsval) (errors : list jsstring) :=
  match prop data "clientPhone" with
  | VString phone =>
      if 0 <? strlen phone then
        let errors :=
          if strlen phone <? 7 then push errors msg_phone_short else errors in
        let errors :=
          if 40 <? strlen phone then push errors msg_phone_long else errors in
        errors
      else errors
  | _ => errors
  end.

Definition stmt_clientName_length (data : gmap string jsval) (errors : list jsstring) :=
  if match prop data "clientName" with
     | VString s => 120 <? strlen (trim s)
     | _ => false
     end
  then push errors msg_name_long else errors.

(** What [normalizeAppointment] does to the fields of its copy. *)
Definition normalize_fields : step :=
  then_step (assign "clientName" (fun v => s ← ToString v; mret (VString (slice (trim s) 0 120))))
  (then_step (when_truthy "clientEmail"
     (assign "clientEmail"
        (fun v => s ← ToString v; mret (VString (slice (toLowerCase (trim s)) 0 255)))))
  (then_step (when_truthy "clientPhone"
     (assign "clientPhone" (fun v => s ← ToString v; mret (VString (slice (trim s) 0 40)))))
  (then_step (assign "serviceId" (fun v => n ← ToNumber v; mret (VNumber n)))
     (assign "startAt"
        (fun v => s ← ToString v; iso ← normalizeToIsoMinuteZ s; mret (VString iso)))))).

(** What the handler replies, read off the request body [o]. *)
Definition handler_view (grid : option (jsstring -> option jsstring)) (w : world)
    (o : gmap string jsval) : world * result (reply * option AppointmentRecord) :=
  let errors := validateAppointment o in
  if 0 <? Z.of_nat (List.length errors) then (w, Ok (Json 400 (Errors errors), None))
  else
    let d := fresh (dom (w_heap w)) in
    match normalize_fields o with
    | (o', Throw e) => (at_obj w d o', Ok (Next e, None))
    | (o', Ok _) =>
        let w1 := at_obj w d o' in
        let startAt := as_string (prop o' "startAt") in
        match match grid with
              | Some enforce => enforce startAt
              | None => None
              end with
        | Some gridErr => (w1, Ok (Json 400 (Errors [gridErr]), None))
        | None =>
            if match Date_parse startAt with
               | None => true
               | Some ms => ms <=? w_clock w
               end
            then (w1, Ok (Json 400 (Errors [msg_future]), None))
            else
              match computeEndAt startAt 60 with
              | Throw e => (w1, Ok (Next e, None))
              | Ok endAt => (drawn3 w1, Ok (accepted_reply w, Some (prepared_record w o' endAt)))
              end
        end
    end.

End WithPlatform.

End Views.
Export Views.

(** ** A platform and requests to run the examples on *)
Module Samples.

Definition ascii_lower (c : codeunit) : codeunit :=
  if in_range 65%N 90%N c then (c + 32)%N else c.

Fixpoint decimal_onto (fuel : nat) (z : Z) (acc : jsstring) : jsstring :=
  match fuel with
  | O => acc
  | S fuel' =>
      if z <? 10 then digit_char z :: acc
      else decimal_onto fuel' (z / 10) (digit_char z :: acc)
  end.

Definition decimal (z : Z) : jsstring :=
  if z <? 0 then js "-" ++ decimal_onto (S (Z.to_nat (Z.log2 (- z)))) (- z) []
  else decimal_onto (S (Z.to_nat (Z.log2 z))) z [].

Definition whole_number (s : jsstring) : number :=
  match s with
  | [] => NumInt 0
  | _ => if forallb is_digit s
         then NumInt (fold_left (fun acc c => 10 * acc + digit_value c) s 0)
         else NumNaN
  end.

(** ASCII case mapping, integral numbers in decimal, no date outside the
    date-time format; the examples reach no other entry. *)
Definition sample_platform : Platform :=
  {| toLowerCase := map ascii_lower;
     Number_toString := fun n =>
       match n with
       | NumInt z => decimal z
       | NumNegZero => js "0"
       | NumInf false => js "Infinity"
       | NumInf true => js "-Infinity"
       | _ => js "NaN"
       end;
     StringToNumber := whole_number;
     Date_parse_other := fun _ => None |}.

(** The request of the end-to-end example. *)
Definition jane : gmap string jsval :=
  <["serviceId" := VNumber (NumInt 1)]>
  (<["startAt" := VString (js "2025-09-20T18:00Z")]>
  (<["clientName" := VString (js "Jane Doe")]>
  (<["clientEmail" := VString (js "jane@example.com")]> ∅))).

Definition sample_world (o : gmap string jsval) (now : Z) : world :=
  {| w_heap := {[ 1%positive := o ]}; w_clock := now;
     w_uuid := fun n => pad 4 (Z.of_nat n); w_drawn := 0 |}.

Definition past_without_name : gmap string jsval :=
  <["serviceId" := VNumber (NumInt 1)]>
  (<["startAt" := VString (js "2020-01-01T00:00Z")]>
  (<["clientName" := VString (js "")]>
  (<["clientEmail" := VString (js "jane@example.com")]> ∅))).


Definition phone_true : gmap string jsval :=
  <["serviceId" := VNumber (NumInt 1)]>
  (<["startAt" := VString (js "2025-09-20T18:00Z")]>
  (<["clientName" := VString (js "Jane Doe")]>
  (<["clientPhone" := VBool true]> ∅))).

Definition phone_padded : gmap string jsval :=
  <["serviceId" := VNumber (NumInt 1)]>
  (<["startAt" := VString (js "2025-09-20T18:00Z")]>
  (<["clientName" := VString (js "Jane Doe")]>
  (<["clientPhone" := VString (js "  12345  ")]> ∅))).

Definition phone_number : gmap string jsval :=
  <["serviceId" := VNumber (NumInt 1)]>
  (<["startAt" := VString (js "2025-09-20T18:00Z")]>
  (<["clientName" := VString (js "Jane Doe")]>
  (<["clientPhone" := VNumber (NumInt 5551234)]> ∅))).

Definition jane_with_seconds : gmap string jsval :=
  <["startAt" := VString (js "2025-09-20T18:00:00Z")]> jane.

Definition phone_plain : gmap string jsval :=
  <["serviceId" := VNumber (NumInt 1)]>
  (<["startAt" := VString (js "2025-09-20T18:00Z")]>
  (<["clientName" := VString (js "Jane Doe")]>
  (<["clientPhone" := VString (js "555-123-4567")]> ∅))).

End Samples.
Export Samples.

(** ** What the validator asks of each field, and what it reports *)
Module Conditions.

(** A part of an email address: not empty, no white space, no [@]. *)
Definition email_part (s : jsstring) : Prop := s <> [] /\ forallb not_space_at s = true.

(** No white space anywhere. *)
Definition no_white_space (s : jsstring) : Prop :=
  forallb (fun c => negb (is_white_space c)) s = true.

(** The messages [validateAppointment] can push, in the order of its
    statements. *)
Inductive issue : Type :=
| ServiceId | StartNotString | StartNotIso | StartNotDate | NameRequired | Contact
| EmailShape | EmailLong | PhoneShort | PhoneLong | NameLong.

Definition message (i : issue) : jsstring :=
  match i with
  | ServiceId => msg_service_id
  | StartNotString => msg_start_not_string
  | StartNotIso => msg_start_not_iso
  | StartNotDate => msg_start_not_date
  | NameRequired => msg_name_required
  | Contact => msg_contact
  | EmailShape => msg_email_shape
  | EmailLong => msg_email_long
  | PhoneShort => msg_phone_short
  | PhoneLong => msg_phone_long
  | NameLong => msg_name_long
  end.

(** Every message, in the order of the statements that push them. *)
Definition issues : list issue :=
  [ServiceId; StartNotString; StartNotIso; StartNotDate; NameRequired; Contact;
   EmailShape; EmailLong; PhoneShort; PhoneLong; NameLong].

Section WithPlatform.
Context `{Platform}.

(** The check that writes a message. *)
Definition check_of (i : issue) : gmap string jsval -> list jsstring :=
  match i with
  | ServiceId => check_serviceId
  | StartNotString | StartNotIso | StartNotDate => check_startAt
  | NameRequired => check_clientName
  | Contact => check_contact
  | EmailShape | EmailLong => check_clientEmail
  | PhoneShort | PhoneLong => check_clientPhone
  | NameLong => check_clientName_length
  end.

Definition serviceId_valid (v : jsval) : Prop :=
  exists z, v = VNumber (NumInt z) /\ 0 < z.

Definition startAt_valid (v : jsval) : Prop :=
  exists s t, v = VString s /\ minute_precision s /\ Date_parse s = Some t.

Definition clientName_valid (v : jsval) : Prop :=
  exists name, v = VString name /\ 1 <= strlen (trim name) <= 120.

Definition clientEmail_valid (v : jsval) : Prop :=
  forall e, v = VString e -> e <> [] -> test EMAIL_SHAPE e = true /\ strlen e <= 255.

Definition clientPhone_valid (v : jsval) : Prop :=
  forall p, v = VString p -> p <> [] -> 7 <= strlen p <= 40.

(** The state of the request body in which the validator pushes the
    message of [i]. *)
Definition raised (data : gmap string jsval) (i : issue) : Prop :=
  match i with
  | ServiceId => ~ serviceId_valid (prop data "serviceId")
  | StartNotString => typeof (prop data "startAt") <> TyString
  | StartNotIso => exists s, prop data "startAt" = VString s /\ ~ minute_precision s
  | StartNotDate =>
      exists s, prop data "startAt" = VString s /\ minute_precision s /\ Date_parse s = None
  | NameRequired => forall s, prop data "clientName" = VString s -> trim s = []
  | Contact =>
      ToBoolean (prop data "clientEmail") = false /\ ToBoolean (prop data "clientPhone") = false
  | EmailShape =>
      exists e, prop data "clientEmail" = VString e /\ e <> [] /\ test EMAIL_SHAPE e = false
  | EmailLong => exists e, prop data "clientEmail" = VString e /\ 255 < strlen e
  | PhoneShort => exists p, prop data "clientPhone" = VString p /\ p <> [] /\ strlen p < 7
  | PhoneLong => exists p, prop data "clientPhone" = VString p /\ 40 < strlen p
  | NameLong => exists s, prop data "clientName" = VString s /\ 120 < strlen (trim s)
  end.

End WithPlatform.

End Conditions.
Export Conditions.

(** ** What [normalizeAppointment] computes, field by field *)
Module Normal.
Section WithPlatform.
Context `{Platform}.

(** What [normalizeAppointment] assigns to each field, from the value the
    request holds there. *)
Definition normal_clientName (v : jsval) : result jsval :=
  s ← ToString v; mret (VString (slice (trim s) 0 120)).

Definition normal_clientEmail (v : jsval) : result jsval :=
  if ToBoolean v then s ← ToString v; mret (VString (slice (toLowerCase (trim s)) 0 255))
  else mret v.

Definition normal_clientPhone (v : jsval) : result jsval :=
  if ToBoolean v then s ← ToString v; mret (VString (slice (trim s) 0 40))
  else mret v.

Definition normal_serviceId (v : jsval) : result jsval :=
  n ← ToNumber v; mret (VNumber n).

Definition normal_startAt (v : jsval) : result jsval :=
  s ← ToString v; iso ← normalizeToIsoMinuteZ s; mret (VString iso).

(** The five fields in the order the source assigns them; the first
    conversion that throws ends the run. *)
Definition normal_fields (o : gmap string jsval)
  : result (jsval * jsval * jsval * jsval * jsval) :=
  name ← normal_clientName (prop o "clientName");
  email ← normal_clientEmail (prop o "clientEmail");
  phone ← normal_clientPhone (prop o "clientPhone");
  serviceId ← normal_serviceId (prop o "serviceId");
  startAt ← normal_startAt (prop o "startAt");
  mret (name, email, phone, serviceId, startAt).

End WithPlatform.
End Normal.
Export Normal.

(** ** The ways the handler can go *)
Module Outcomes.
Section WithPlatform.
Context `{Platform}.

(** The four ways a request that passed validation can go. *)
Inductive outcome (grid : option (jsstring -> option jsstring)) (w : world)
    (o : gmap string jsval) : world * result (reply * option AppointmentRecord) -> Prop :=
| outcome_forwarded o' k :
    normalize_fields o = (o', Throw TypeError) ->
    k = "clientEmail" \/ k = "clientPhone" -> prop o k = VObject None ->
    outcome grid w o (at_obj w (fresh (dom (w_heap w))) o', Ok (Next TypeError, None))
| outcome_off_grid o' s t enforce gridErr :
    normalize_fields o = (o', Ok tt) ->
    prop o "startAt" = VString s -> minute_precision s -> Date_parse s = Some t ->
    prop o' "startAt" = VString (minute_string t) ->
    grid = Some enforce -> enforce (minute_string t) = Some gridErr ->
    outcome grid w o
      (at_obj w (fresh (dom (w_heap w))) o', Ok (Json 400 (Errors [gridErr]), None))
| outcome_not_future o' s t :
    normalize_fields o = (o', Ok tt) ->
    prop o "startAt" = VString s -> minute_precision s -> Date_parse s = Some t ->
    prop o' "startAt" = VString (minute_string t) ->
    match grid with Some enforce => enforce (minute_string t) = None | None => True end ->
    t <= w_clock w ->
    outcome grid w o
      (at_obj w (fresh (dom (w_heap w))) o', Ok (Json 400 (Errors [msg_future]), None))
| outcome_accepted o' s t :
    normalize_fields o = (o', Ok tt) ->
    prop o "startAt" = VString s -> minute_precision s -> Date_parse s = Some t ->
    prop o' "startAt" = VString (minute_string t) ->
    match grid with Some enforce => enforce (minute_string t) = None | None => True end ->
    w_clock w < t ->
    outcome grid w o
      (drawn3 (at_obj w (fresh (dom (w_heap w))) o'),
       Ok (accepted_reply w, Some (prepared_record w o' (minute_string (t + 3600000))))).

End WithPlatform.
End Outcomes.
Export Outcomes.

(** ** More requests for the examples *)
Module MoreSamples.

(** The sample request with a field the handler knows nothing of. *)
Definition jane_with_notes : gmap string jsval :=
  <["notes" := VString (js "window seat")]> jane.

(** A request whose phone is a nested object with an own [toString]
    property: truthy, no string, and not convertible to one. *)
Definition phone_object : gmap string jsval :=
  <["serviceId" := VNumber (NumInt 1)]>
  (<["startAt" := VString (js "2025-09-20T18:00Z")]>
  (<["clientName" := VString (js "Jane Doe")]>
  (<["clientPhone" := VObject None]> ∅))).

(** The sample request one millisecond before it starts, the place of its
    copy and the copy. *)
Definition jane_world : world := sample_world jane 1758391199999.
Definition jane_copy_loc : loc := fresh (dom (w_heap jane_world)).
Definition jane_copy : gmap string jsval := fst (@normalize_fields sample_platform jane).

End MoreSamples.
Export MoreSamples.

(** * Facts about the platform model *)

(** ** Regular expressions: derivatives decide the language *)
Module RegexFacts.

Lemma Matches_eps_inv s : Matches Reps s <-> s = [].
Proof.
  split.
  - inversion 1; reflexivity.
  - intros ->. constructor.
Qed.

Lemma Matches_class_inv p s : Matches (Rclass p) s <-> exists c, s = [c] /\ p c = true.
Proof.
  split.
  - inversion 1; subst. eauto.
  - intros (c & -> & Hc). now constructor.
Qed.

Lemma Matches_cat_inv r1 r2 s :
  Matches (Rcat r1 r2) s <-> exists s1 s2, s = s1 ++ s2 /\ Matches r1 s1 /\ Matches r2 s2.
Proof.
  split.
  - inversion 1; subst. eauto.
  - intros (s1 & s2 & -> & H1 & H2). now constructor.
Qed.

Lemma Matches_alt_inv r1 r2 s : Matches (Ralt r1 r2) s <-> Matches r1 s \/ Matches r2 s.
Proof.
  split.
  - inversion 1; subst; auto.
  - intros [Hm | Hm]; [apply M_alt_l | apply M_alt_r]; exact Hm.
Qed.

Lemma Matches_none_inv s : ~ Matches Rnone s.
Proof. inversion 1. Qed.

Lemma nullable_Matches r : nullable r = true <-> Matches r [].
Proof.
  split.
  - induction r; simpl; intros Hn; try discriminate.
    + constructor.
    + apply andb_true_iff in Hn as [H1 H2].
      change (@nil codeunit) with (@nil codeunit ++ []). constructor; auto.
    + apply orb_true_iff in Hn as [Hn | Hn]; [apply M_alt_l | apply M_alt_r]; auto.
    + constructor.
  - intros Hm. remember (@nil codeunit) as s eqn:Hs.
    induction Hm; simpl; auto; try discriminate.
    + apply app_eq_nil in Hs as [-> ->]. rewrite IHHm1, IHHm2; auto.
    + rewrite IHHm; auto.
    + rewrite IHHm; auto using orb_true_r.
Qed.

Lemma Matches_star_cons r c s :
  Matches (Rstar r) (c :: s) ->
  exists s1 s2, s = s1 ++ s2 /\ Matches r (c :: s1) /\ Matches (Rstar r) s2.
Proof.
  intros Hm. remember (Rstar r) as r' eqn:Hr. remember (c :: s) as cs eqn:Hcs.
  revert s Hcs. induction Hm as [| | | | | |r0 s1 s2 Hm1 _ Hm2 IH2]; intros t Ht; try discriminate.
  injection Hr as ->. destruct s1 as [|c' s1'].
  - simpl in Ht. apply IH2; auto.
  - simpl in Ht. injection Ht as Hc Ht'. subst c' t. eauto.
Qed.

Lemma deriv_Matches c r s : Matches (deriv c r) s <-> Matches r (c :: s).
Proof.
  revert s. induction r; intros s; simpl.
  - split; inversion 1.
  - split; inversion 1.
  - destruct (p c) eqn:Hp; split; intros Hm.
    + apply Matches_eps_inv in Hm as ->. now constructor.
    + inversion Hm; subst. constructor.
    + inversion Hm.
    + inversion Hm; subst. congruence.
  - split.
    + intros Hm.
      assert (Hcat : forall t, Matches (Rcat (deriv c r1) r2) t -> Matches (Rcat r1 r2) (c :: t)).
      { intros t Ht. apply Matches_cat_inv in Ht as (s1 & s2 & -> & H1 & H2).
        apply IHr1 in H1. change (c :: s1 ++ s2) with ((c :: s1) ++ s2). now constructor. }
      destruct (nullable r1) eqn:Hn; [|auto].
      apply Matches_alt_inv in Hm as [Hm | Hm]; [auto|].
      apply IHr2 in Hm. apply nullable_Matches in Hn.
      change (c :: s) with ([] ++ c :: s). now constructor.
    + intros Hm. apply Matches_cat_inv in Hm as (s1 & s2 & Hs & H1 & H2).
      destruct s1 as [|c' s1'].
      * simpl in Hs. subst s2. apply nullable_Matches in H1. rewrite H1.
        apply M_alt_r. now apply IHr2.
      * simpl in Hs. injection Hs as Hc Hs'. subst c' s. apply IHr1 in H1.
        assert (Matches (Rcat (deriv c r1) r2) (s1' ++ s2)) by now constructor.
        destruct (nullable r1); [apply M_alt_l|]; assumption.
  - rewrite !Matches_alt_inv, IHr1, IHr2. reflexivity.
  - split.
    + intros Hm. apply Matches_cat_inv in Hm as (s1 & s2 & -> & H1 & H2).
      apply IHr in H1. change (c :: s1 ++ s2) with ((c :: s1) ++ s2). now constructor.
    + intros Hm. apply Matches_star_cons in Hm as (s1 & s2 & -> & H1 & H2).
      apply IHr in H1. now constructor.
Qed.

(** [test] decides membership in the language. *)
Lemma test_Matches r s : test r s = true <-> Matches r s.
Proof.
  unfold test. revert r. induction s as [|c s IH]; intros r; simpl.
  - apply nullable_Matches.
  - rewrite IH. apply deriv_Matches.
Qed.

Lemma Matches_repeat_class p n s :
  Matches (Rrepeat n (Rclass p)) s <-> List.length s = n /\ forallb p s = true.
Proof.
  revert s. induction n as [|n IH]; intros s; simpl.
  - rewrite Matches_eps_inv. split.
    + intros ->. auto.
    + intros [Hl _]. now destruct s.
  - rewrite Matches_cat_inv. split.
    + intros (s1 & s2 & -> & H1 & H2).
      apply Matches_class_inv in H1 as (c & -> & Hc). apply IH in H2 as [Hl Hf].
      simpl. rewrite Hc, Hf, Hl. auto.
    + intros [Hl Hf]. destruct s as [|c s]; [discriminate|].
      simpl in Hl, Hf. apply andb_true_iff in Hf as [Hc Hf].
      exists [c], s. repeat split; [now constructor|]. apply IH. split; congruence.
Qed.

Lemma Matches_char_inv c s : Matches (Rchar c) s <-> s = [c].
Proof.
  unfold Rchar. rewrite Matches_class_inv. split.
  - intros (c' & -> & Hc). apply N.eqb_eq in Hc. now subst.
  - intros ->. exists c. split; [reflexivity|apply N.eqb_refl].
Qed.

End RegexFacts.
Export RegexFacts.

(** ** Calendar arithmetic *)
Module DateFacts.

Lemma DayFromYear_succ y : DayFromYear (y + 1) = DayFromYear y + DaysInYear y.
Proof.
  unfold DayFromYear, DaysInYear.
  repeat match goal with |- context [?a =? ?b] => destruct (Z.eqb_spec a b) end; simpl;
  Z.div_mod_to_equations; lia.
Qed.

Lemma YearFromDay_spec d :
  DayFromYear (YearFromDay d) <= d < DayFromYear (YearFromDay d + 1).
Proof.
  unfold YearFromDay.
  set (y := 1970 + d * 400 / 146097).
  destruct (Z.ltb_spec d (DayFromYear y)).
  - replace (y - 1 + 1) with y by lia. split; [|lia].
    unfold DayFromYear in *. subst y. Z.div_mod_to_equations. lia.
  - destruct (Z.leb_spec (DayFromYear (y + 1)) d).
    + split; [lia|]. unfold DayFromYear in *. subst y. Z.div_mod_to_equations. lia.
    + lia.
Qed.

(** [YearFromDay d] is the largest year that starts on or before day [d]. *)
Lemma YearFromDay_largest d y : DayFromYear y <= d -> y <= YearFromDay d.
Proof.
  intros Hy. pose proof (YearFromDay_spec d) as [_ Hd].
  destruct (Z_le_gt_dec y (YearFromDay d)) as [|Hgt]; [assumption|exfalso].
  assert (Hmono : forall a b, a <= b -> DayFromYear a <= DayFromYear b).
  { intros a b Hab. unfold DayFromYear. Z.div_mod_to_equations. lia. }
  specialize (Hmono (YearFromDay d + 1) y). lia.
Qed.

Lemma DaysInYear_cases y : DaysInYear y = 365 \/ DaysInYear y = 366.
Proof.
  unfold DaysInYear.
  repeat match goal with |- context [?a =? ?b] => destruct (Z.eqb_spec a b) end; simpl; auto.
Qed.

Lemma InLeapYear_DaysInYear t : DaysInYear (YearFromTime t) = 365 + InLeapYear t.
Proof.
  unfold InLeapYear. destruct (DaysInYear_cases (YearFromTime t)) as [E | E]; rewrite E; reflexivity.
Qed.

Lemma InLeapYear_cases t : InLeapYear t = 0 \/ InLeapYear t = 1.
Proof. unfold InLeapYear. destruct (_ =? _); auto. Qed.

Lemma DayWithinYear_range t : 0 <= DayWithinYear t < 365 + InLeapYear t.
Proof.
  rewrite <- InLeapYear_DaysInYear. unfold DayWithinYear, YearFromTime.
  pose proof (YearFromDay_spec (Day t)) as Hs. rewrite DayFromYear_succ in Hs. lia.
Qed.

Lemma month_of_day_range leap d :
  0 <= leap <= 1 -> 0 <= d < 365 + leap ->
  0 <= month_of_day leap d <= 11 /\
  1 <= d - month_start leap (month_of_day leap d) + 1 <= 31.
Proof.
  intros Hl Hd. unfold month_of_day.
  repeat match goal with
         | |- context [?a <? ?b] => destruct (Z.ltb_spec a b)
         end; simpl; lia.
Qed.

Lemma MonthFromTime_range t : 0 <= MonthFromTime t <= 11.
Proof.
  unfold MonthFromTime. apply month_of_day_range.
  - destruct (InLeapYear_cases t); lia.
  - apply DayWithinYear_range.
Qed.

Lemma DateFromTime_range t : 1 <= DateFromTime t <= 31.
Proof.
  unfold DateFromTime, MonthFromTime. apply month_of_day_range.
  - destruct (InLeapYear_cases t); lia.
  - apply DayWithinYear_range.
Qed.

Lemma MakeDay_of_time t :
  MakeDay (YearFromTime t) (MonthFromTime t) (DateFromTime t) = Day t.
Proof.
  pose proof (MonthFromTime_range t) as Hm.
  unfold MakeDay. rewrite Z.div_small, Z.mod_small, Z.add_0_r by lia.
  fold (InLeapYear t). unfold DateFromTime, DayWithinYear. lia.
Qed.

Lemma MakeTime_of_time t :
  t mod msPerMinute = 0 ->
  MakeTime (HourFromTime t) (MinFromTime t) 0 0 = TimeWithinDay t.
Proof.
  unfold MakeTime, HourFromTime, MinFromTime, TimeWithinDay, msPerHour, msPerMinute,
    msPerSecond, msPerDay.
  intros Hm. Z.div_mod_to_equations. lia.
Qed.

Lemma MakeDate_of_time t :
  t mod msPerMinute = 0 ->
  MakeDate (MakeDay (YearFromTime t) (MonthFromTime t) (DateFromTime t))
           (MakeTime (HourFromTime t) (MinFromTime t) 0 0) = t.
Proof.
  intros Hm. rewrite MakeDay_of_time, MakeTime_of_time by assumption.
  unfold MakeDate, Day, TimeWithinDay, msPerDay. Z.div_mod_to_equations. lia.
Qed.

Lemma YearFromTime_clip t :
  Z.abs t <= 8640000000000000 -> -271821 <= YearFromTime t <= 275760.
Proof.
  intros Ht. unfold YearFromTime.
  pose proof (YearFromDay_spec (Day t)) as Hs. rewrite DayFromYear_succ in Hs.
  pose proof (DaysInYear_cases (YearFromDay (Day t))) as Hc.
  assert (-100000000 <= Day t <= 100000000) as Hd.
  { unfold Day, msPerDay. Z.div_mod_to_equations. lia. }
  unfold DayFromYear in Hs. Z.div_mod_to_equations. lia.
Qed.

(** ** Decimal fields: rendering and reading back *)

Lemma digit_char_range z : (48 <= digit_char z <= 57)%N.
Proof. unfold digit_char. pose proof (Z.mod_pos_bound z 10). lia. Qed.

Lemma digit_char_is_digit z : is_digit (digit_char z) = true.
Proof.
  pose proof (digit_char_range z). unfold is_digit, in_range.
  apply andb_true_iff. split; apply N.leb_le; lia.
Qed.

Lemma digit_value_char z : digit_value (digit_char z) = z mod 10.
Proof. unfold digit_value, digit_char. pose proof (Z.mod_pos_bound z 10). lia. Qed.

Lemma pad_onto_app n z acc : pad_onto n z acc = pad_onto n z [] ++ acc.
Proof.
  revert z acc. induction n as [|n IH]; intros z acc; simpl; [reflexivity|].
  rewrite IH, (IH _ [digit_char z]), <- app_assoc. reflexivity.
Qed.

Lemma pad_succ n z : pad (S n) z = pad n (z / 10) ++ [digit_char z].
Proof. unfold pad. simpl. apply pad_onto_app. Qed.

Lemma pad_digits n z : digits n (pad n z).
Proof.
  revert z. induction n as [|n IH]; intros z; [split; reflexivity|].
  rewrite pad_succ. destruct (IH (z / 10)) as [Hl Hf]. split.
  - rewrite length_app, Hl. simpl. lia.
  - rewrite forallb_app, Hf. simpl. now rewrite digit_char_is_digit.
Qed.

Lemma read_digits_snoc n acc s :
  read_digits (S n) acc s =
  match read_digits n acc s with
  | Some (v, c :: s') => if is_digit c then Some (10 * v + digit_value c, s') else None
  | _ => None
  end.
Proof.
  revert acc s. induction n as [|n IH]; intros acc s.
  - simpl. destruct s as [|c s']; [reflexivity|]. destruct (is_digit c); reflexivity.
  - change (read_digits (S (S n)) acc s) with
      (match s with
       | c :: s' => if is_digit c then read_digits (S n) (10 * acc + digit_value c) s' else None
       | [] => None
       end).
    destruct s as [|c s']; [reflexivity|]. simpl (read_digits (S n) acc (c :: s')).
    destruct (is_digit c); [apply IH|reflexivity].
Qed.

Lemma read_digits_pad n z acc rest :
  0 <= z < 10 ^ Z.of_nat n ->
  read_digits n acc (pad n z ++ rest) = Some (acc * 10 ^ Z.of_nat n + z, rest).
Proof.
  revert z acc rest. induction n as [|n IH]; intros z acc rest Hz.
  - simpl in *. f_equal. f_equal. lia.
  - rewrite Nat2Z.inj_succ, Z.pow_succ_r in * by lia.
    rewrite read_digits_snoc, pad_succ, <- app_assoc, IH
      by (split; [apply Z.div_pos; lia | apply Z.div_lt_upper_bound; lia]).
    simpl. rewrite digit_char_is_digit, digit_value_char. f_equal. f_equal.
    rewrite (Z.div_mod z 10) at 3 by lia. lia.
Qed.

Lemma expect_cons c s : expect c (c :: s) = Some s.
Proof. unfold expect, ceq. now rewrite N.eqb_refl. Qed.

Lemma read_year_plus s : read_year (js "+" ++ s) = read_digits 6 0 s.
Proof. reflexivity. Qed.

Lemma read_year_minus s :
  read_year (js "-" ++ s) =
  '(y, rest) ← read_digits 6 0 s; if y =? 0 then None else Some (- y, rest).
Proof. reflexivity. Qed.

Lemma expect_dash s : expect 45%N (js "-" ++ s) = Some s.
Proof. reflexivity. Qed.

Lemma expect_T s : expect 84%N (js "T" ++ s) = Some s.
Proof. reflexivity. Qed.

Lemma expect_colon s : expect 58%N (js ":" ++ s) = Some s.
Proof. reflexivity. Qed.

Lemma read_two z acc rest :
  0 <= z < 100 -> read_digits 2 acc (pad 2 z ++ rest) = Some (acc * 100 + z, rest).
Proof. intros Hz. now rewrite read_digits_pad by (simpl; lia). Qed.

Lemma read_year_string y rest :
  -999999 <= y <= 999999 ->
  read_year (year_string y ++ rest) = Some (y, rest).
Proof.
  intros Hy. unfold year_string.
  destruct (Z.leb_spec 0 y) as [H0|H0]; [destruct (Z.leb_spec y 9999) as [H1|H1]|]; simpl andb; cbv iota.
  - pose proof (read_digits_pad 4 y 0 rest ltac:(simpl; lia)) as Hr.
    rewrite pad_succ in *. destruct (pad 3 (y / 10)) as [|c p] eqn:Hp.
    { pose proof (pad_digits 3 (y / 10)) as [Hl _]. rewrite Hp in Hl. discriminate. }
    simpl app in *. unfold read_year.
    assert (is_digit c = true) as Hc.
    { pose proof (pad_digits 3 (y / 10)) as [_ Hf]. rewrite Hp in Hf. simpl in Hf.
      now apply andb_true_iff in Hf as [? _]. }
    unfold is_digit, in_range in Hc. apply andb_true_iff in Hc as [Ha Hb].
    apply N.leb_le in Ha, Hb.
    unfold ceq. destruct (N.eqb_spec c 43); [lia|]. destruct (N.eqb_spec c 45); [lia|].
    rewrite Hr. reflexivity.
  - rewrite <- app_assoc, read_year_plus, read_digits_pad by (simpl; lia).
    f_equal. f_equal. lia.
  - rewrite <- app_assoc, read_year_minus, read_digits_pad by (simpl; lia).
    cbn [mbind option_bind]. change (0 * 10 ^ Z.of_nat 6 + Z.abs y) with (Z.abs y).
    destruct (Z.eqb_spec (Z.abs y) 0); [lia|]. f_equal. f_equal. lia.
Qed.

Lemma parse_iso_minute_prefix t :
  -999999 <= YearFromTime t <= 999999 ->
  parse_iso (minute_prefix t ++ js ":00Z") =
  Some {| f_year := YearFromTime t; f_month := MonthFromTime t + 1; f_day := DateFromTime t;
          f_hour := HourFromTime t; f_minute := MinFromTime t; f_second := 0;
          f_offset_sign := 1; f_offset_hour := 0; f_offset_minute := 0 |}.
Proof.
  intros Hy. unfold minute_prefix, parse_iso.
  pose proof (MonthFromTime_range t). pose proof (DateFromTime_range t).
  assert (0 <= HourFromTime t < 24) by (unfold HourFromTime; apply Z.mod_pos_bound; lia).
  assert (0 <= MinFromTime t < 60) by (unfold MinFromTime; apply Z.mod_pos_bound; lia).
  repeat rewrite <- app_assoc.
  rewrite read_year_string by assumption. cbn [mbind option_bind].
  rewrite expect_dash. cbn [mbind option_bind].
  rewrite read_two by lia. cbn [mbind option_bind].
  rewrite expect_dash. cbn [mbind option_bind].
  rewrite read_two by lia. cbn [mbind option_bind].
  rewrite expect_T. cbn [mbind option_bind].
  rewrite read_two by lia. cbn [mbind option_bind].
  rewrite expect_colon. cbn [mbind option_bind].
  rewrite read_two by lia. cbn [mbind option_bind].
  reflexivity.
Qed.

Lemma fields_of_time_in_bounds t :
  fields_in_bounds
    {| f_year := YearFromTime t; f_month := MonthFromTime t + 1; f_day := DateFromTime t;
       f_hour := HourFromTime t; f_minute := MinFromTime t; f_second := 0;
       f_offset_sign := 1; f_offset_hour := 0; f_offset_minute := 0 |} = true.
Proof.
  pose proof (MonthFromTime_range t). pose proof (DateFromTime_range t).
  assert (0 <= HourFromTime t < 24) by (unfold HourFromTime; apply Z.mod_pos_bound; lia).
  assert (0 <= MinFromTime t < 60) by (unfold MinFromTime; apply Z.mod_pos_bound; lia).
  unfold fields_in_bounds.
  cbn [f_month f_day f_hour f_minute f_second f_offset_hour f_offset_minute].
  repeat (apply andb_true_iff; split); try (apply Z.leb_le; lia).
  apply orb_true_iff. left.
  repeat (apply andb_true_iff; split); apply Z.leb_le; lia.
Qed.

Lemma TimeClip_Some t : Z.abs t <= 8640000000000000 -> TimeClip t = Some t.
Proof. intros Ht. unfold TimeClip. now destruct (Z.leb_spec (Z.abs t) 8640000000000000); [|lia]. Qed.

Lemma TimeClip_inv t t' : TimeClip t = Some t' -> t' = t /\ Z.abs t <= 8640000000000000.
Proof.
  unfold TimeClip. destruct (Z.leb_spec (Z.abs t) 8640000000000000); [|discriminate].
  intros [= <-]. auto.
Qed.

End DateFacts.
Export DateFacts.

(** ** [Date.parse] *)
Module ParseFacts.
Section WithPlatform.
Context `{Platform}.

(** Reading a minute-level string back gives its instant. *)
Lemma Date_parse_minute_string t :
  Z.abs t <= 8640000000000000 -> t mod msPerMinute = 0 ->
  Date_parse (minute_string t) = Some t.
Proof.
  intros Ht Hm. unfold Date_parse, minute_string.
  pose proof (YearFromTime_clip t Ht).
  rewrite parse_iso_minute_prefix by lia.
  unfold time_of_fields. rewrite fields_of_time_in_bounds.
  cbn [f_year f_month f_day f_hour f_minute f_second f_offset_minutes f_offset_sign
       f_offset_hour f_offset_minute].
  replace (MonthFromTime t + 1 - 1) with (MonthFromTime t) by lia.
  rewrite MakeDate_of_time by assumption.
  change (1 * (0 * 60 + 0)) with 0.
  rewrite Z.mul_0_l, Z.sub_0_r. now apply TimeClip_Some.
Qed.

Lemma Date_parse_clip s t : Date_parse s = Some t -> Z.abs t <= 8640000000000000.
Proof.
  unfold Date_parse, time_of_fields. destruct (parse_iso s) as [f|].
  - destruct (fields_in_bounds f); [|discriminate].
    intros Hc. apply TimeClip_inv in Hc as [-> Hc]. assumption.
  - destruct (Date_parse_other s) as [t0|]; [|discriminate]. cbn [mbind option_bind].
    intros Hc. apply TimeClip_inv in Hc as [-> Hc]. assumption.
Qed.

End WithPlatform.
End ParseFacts.
Export ParseFacts.

(** ** The timestamp expression and the shapes *)
Module ShapeFacts.

Lemma ISO_MINUTE_NO_SECONDS_split : ISO_MINUTE_NO_SECONDS = minutes_then offset_re.
Proof. reflexivity. Qed.

Lemma date_time_minutes_Matches dt r rest :
  date_time_minutes dt -> Matches r rest ->
  Matches (minutes_then r)
    (dt ++ rest).
Proof.
  intros [yyyy mo dd hh mi Hy Hmo Hdd Hhh Hmi] Hr. unfold minutes_then. cbv zeta.
  repeat rewrite <- app_assoc.
  repeat first
    [ assumption
    | apply M_cat
    | apply Matches_repeat_class; assumption
    | apply Matches_char_inv; reflexivity ].
Qed.

Lemma Matches_date_time_minutes r s :
  Matches (minutes_then r)
    s ->
  exists dt rest, s = dt ++ rest /\ date_time_minutes dt /\ Matches r rest.
Proof.
  intros Hm. unfold minutes_then in Hm. cbv zeta in Hm.
  apply Matches_cat_inv in Hm as (yyyy & ? & -> & Hy & Hm). apply Matches_repeat_class in Hy.
  apply Matches_cat_inv in Hm as (x1 & ? & -> & Hx1 & Hm). apply Matches_char_inv in Hx1 as ->.
  apply Matches_cat_inv in Hm as (mo & ? & -> & Hmo & Hm). apply Matches_repeat_class in Hmo.
  apply Matches_cat_inv in Hm as (x2 & ? & -> & Hx2 & Hm). apply Matches_char_inv in Hx2 as ->.
  apply Matches_cat_inv in Hm as (dd & ? & -> & Hdd & Hm). apply Matches_repeat_class in Hdd.
  apply Matches_cat_inv in Hm as (x3 & ? & -> & Hx3 & Hm). apply Matches_char_inv in Hx3 as ->.
  apply Matches_cat_inv in Hm as (hh & ? & -> & Hhh & Hm). apply Matches_repeat_class in Hhh.
  apply Matches_cat_inv in Hm as (x4 & ? & -> & Hx4 & Hm). apply Matches_char_inv in Hx4 as ->.
  apply Matches_cat_inv in Hm as (mi & rest & -> & Hmi & Hm). apply Matches_repeat_class in Hmi.
  exists (yyyy ++ js "-" ++ mo ++ js "-" ++ dd ++ js "T" ++ hh ++ js ":" ++ mi), rest.
  split; [|split; [now constructor | assumption]].
  repeat rewrite <- app_assoc. reflexivity.
Qed.

Lemma offset_re_Matches s : Matches offset_re s <-> utc_offset s.
Proof.
  unfold offset_re. rewrite Matches_alt_inv, Matches_char_inv. split.
  - intros [-> | Hm]; [constructor|].
    apply Matches_cat_inv in Hm as (x & ? & -> & Hx & Hm).
    apply Matches_class_inv in Hx as (sign & -> & Hs).
    apply Matches_cat_inv in Hm as (hh & ? & -> & Hh & Hm).
    apply Matches_repeat_class in Hh.
    apply Matches_cat_inv in Hm as (colon & mm & -> & Hcolon & Hm).
    apply Matches_char_inv in Hcolon as ->. apply Matches_repeat_class in Hm.
    apply (offset_hm sign hh mm); try assumption.
    apply orb_true_iff in Hs as [Hs | Hs]; apply N.eqb_eq in Hs; auto.
  - intros [|sign hh mm Hs Hh Hm]; [now left|right].
    change (sign :: hh ++ js ":" ++ mm) with ([sign] ++ hh ++ js ":" ++ mm).
    repeat first
      [ apply M_cat
      | apply Matches_repeat_class; assumption
      | apply Matches_char_inv; reflexivity ].
    constructor. destruct Hs as [-> | ->]; reflexivity.
Qed.

(** The expression accepts exactly the minute-precision timestamps. *)
Lemma ISO_MINUTE_NO_SECONDS_shape s :
  test ISO_MINUTE_NO_SECONDS s = true <-> minute_precision s.
Proof.
  rewrite test_Matches, ISO_MINUTE_NO_SECONDS_split. split.
  - intros Hm. apply Matches_date_time_minutes in Hm as (dt & off & -> & Hdt & Hoff).
    constructor; [assumption|]. now apply offset_re_Matches.
  - intros [dt off Hdt Hoff]. apply date_time_minutes_Matches; [assumption|].
    now apply offset_re_Matches.
Qed.

Lemma date_time_minutes_length dt : date_time_minutes dt -> List.length dt = 16%nat.
Proof.
  intros [yyyy mo dd hh mi [Hy _] [Hmo _] [Hdd _] [Hhh _] [Hmi _]].
  repeat rewrite length_app. rewrite Hy, Hmo, Hdd, Hhh, Hmi. reflexivity.
Qed.

Lemma seconds_component_head sec :
  seconds_component sec -> exists c t, sec = c :: t /\ (c = 58%N \/ c = 46%N).
Proof. intros [ss _ | ss frac _ _ _ | frac _ _]; simpl; eauto. Qed.

Lemma utc_offset_head off :
  utc_offset off -> exists c t, off = c :: t /\ (c = 90%N \/ c = 43%N \/ c = 45%N).
Proof. intros [|sign hh mm [-> | ->] _ _]; simpl; eauto 6. Qed.

(** A timestamp with seconds is not a minute-precision timestamp. *)
Lemma has_seconds_not_minute_precision s : has_seconds s -> ~ minute_precision s.
Proof.
  intros Hsec Hmp. destruct Hmp as [dt' off Hdt' Hoff].
  inversion Hsec as [dt sec rest Hdt Hcomp Heq].
  apply app_inj_1 in Heq as [-> Heq].
  2:{ rewrite !date_time_minutes_length; auto. }
  apply seconds_component_head in Hcomp as (c & t & -> & Hc).
  apply utc_offset_head in Hoff as (c' & t' & -> & Hc').
  simpl in Heq. injection Heq as -> _. lia.
Qed.

End ShapeFacts.
Export ShapeFacts.

(** ** Rendering a whole minute *)
Module RenderFacts.

Lemma starts_with_app pat rest : starts_with pat (pat ++ rest) = true.
Proof.
  induction pat as [|c pat IH]; simpl; [reflexivity|].
  unfold ceq. now rewrite N.eqb_refl.
Qed.

Lemma replace_unfold pat rep s :
  replace pat rep s =
  if starts_with pat s then rep ++ skipn (List.length pat) s
  else match s with
       | [] => []
       | c :: s' => c :: replace pat rep s'
       end.
Proof. destruct s; reflexivity. Qed.

Lemma replace_first c pat rep P rest :
  Forall (fun x => x <> c) P ->
  replace (c :: pat) rep (P ++ (c :: pat) ++ rest) = P ++ rep ++ rest.
Proof.
  induction 1 as [|x P Hx _ IH].
  - rewrite app_nil_l, replace_unfold, starts_with_app.
    now rewrite skipn_app, Nat.sub_diag, skipn_all.
  - rewrite replace_unfold. simpl app. simpl starts_with. unfold ceq at 1.
    destruct (N.eqb_spec c x) as [->|_]; [contradiction|].
    simpl andb. cbv iota. f_equal. exact IH.
Qed.

Lemma digits_no_dot n ds : digits n ds -> Forall (fun x => x <> 46%N) ds.
Proof.
  intros [_ Hf]. apply Forall_forall. intros x Hx%list_elem_of_In.
  rewrite forallb_forall in Hf. specialize (Hf x Hx).
  unfold is_digit, in_range in Hf. apply andb_true_iff in Hf as [Ha Hb].
  apply N.leb_le in Ha, Hb. lia.
Qed.

Lemma year_string_no_dot y : Forall (fun x => x <> 46%N) (year_string y).
Proof.
  unfold year_string. destruct (_ && _).
  - apply (digits_no_dot 4), pad_digits.
  - apply Forall_app. split; [|apply (digits_no_dot 6), pad_digits].
    destruct (0 <=? y); repeat constructor; discriminate.
Qed.

Lemma minute_prefix_no_dot t : Forall (fun x => x <> 46%N) (minute_prefix t).
Proof.
  unfold minute_prefix.
  repeat first
    [ apply year_string_no_dot
    | apply (digits_no_dot 2), pad_digits
    | apply Forall_app; split
    | repeat constructor; discriminate ].
Qed.

Lemma iso_string_minute t :
  t mod msPerMinute = 0 -> iso_string t = minute_prefix t ++ js ":00.000Z".
Proof.
  intros Hm. unfold iso_string, minute_prefix.
  replace (SecFromTime t) with 0
    by (unfold SecFromTime, msPerSecond, msPerMinute in *; Z.div_mod_to_equations; lia).
  replace (msFromTime t) with 0
    by (unfold msFromTime, msPerSecond, msPerMinute in *; Z.div_mod_to_equations; lia).
  repeat rewrite <- app_assoc. reflexivity.
Qed.

(** Dropping [.000] from the rendering of a whole minute. *)
Lemma replace_iso_string_minute t :
  t mod msPerMinute = 0 ->
  replace (js ".000Z") (js "Z") (iso_string t) = minute_string t.
Proof.
  intros Hm. rewrite iso_string_minute by assumption. unfold minute_string.
  change (js ".000Z") with (46%N :: js "000Z").
  change (minute_prefix t ++ js ":00.000Z")
    with (minute_prefix t ++ js ":00" ++ (46%N :: js "000Z") ++ []).
  rewrite app_assoc, replace_first.
  - rewrite <- app_assoc. reflexivity.
  - apply Forall_app. split; [apply minute_prefix_no_dot|repeat constructor; discriminate].
Qed.

Lemma date_time_minutes_prefix t :
  0 <= YearFromTime t <= 9999 -> date_time_minutes (minute_prefix t).
Proof.
  intros Hy. unfold minute_prefix, year_string.
  destruct (Z.leb_spec 0 (YearFromTime t)); [|lia].
  destruct (Z.leb_spec (YearFromTime t) 9999); [|lia].
  simpl andb. cbv iota. constructor; apply pad_digits.
Qed.

Lemma date_time_minutes_head dt :
  date_time_minutes dt -> exists c t, dt = c :: t /\ is_digit c = true.
Proof.
  intros [yyyy mo dd hh mi [Hl Hf] _ _ _ _].
  destruct yyyy as [|c yyyy]; [discriminate|]. simpl in Hf.
  apply andb_true_iff in Hf as [Hc _]. simpl. eauto.
Qed.

(** The minute-level string of [t] has the form [YYYY-MM-DDTHH:MM:00Z]
    exactly when the year of [t] takes four digits. *)
Lemma canonical_minute_string t :
  canonical_minute_Z (minute_string t) <-> 0 <= YearFromTime t <= 9999.
Proof.
  split.
  - intros Hc. inversion Hc as [dt Hdt Heq].
    apply date_time_minutes_head in Hdt as (c & rest & -> & Hd).
    unfold minute_string, minute_prefix, year_string in Heq.
    destruct (Z.leb_spec 0 (YearFromTime t)) as [H0|H0];
      [destruct (Z.leb_spec (YearFromTime t) 9999) as [H1|H1]; [lia|]|];
      simpl in Heq; injection Heq as -> _; discriminate.
  - intros Hy. constructor. now apply date_time_minutes_prefix.
Qed.

Lemma minute_field_minute_string t : minute_field (minute_string t) = Some (MinFromTime t).
Proof.
  unfold minute_field, minute_string, minute_prefix.
  repeat rewrite app_assoc. repeat rewrite rev_app_distr.
  assert (0 <= MinFromTime t < 60) by (unfold MinFromTime; apply Z.mod_pos_bound; lia).
  simpl. rewrite !digit_value_char. f_equal. Z.div_mod_to_equations. lia.
Qed.

(** A string that starts with a sign is not of the canonical form. *)
Lemma not_canonical_signed_year s :
  match s with
  | c :: _ => is_digit c = false
  | [] => True
  end -> ~ canonical_minute_Z s.
Proof.
  intros Hs Hc. inversion Hc as [dt Hdt Heq].
  apply date_time_minutes_head in Hdt as (c & rest & -> & Hd).
  subst s. simpl in Hs. congruence.
Qed.

End RenderFacts.
Export RenderFacts.

(** ** The time functions of appointments.ts *)
Module TimeFacts.
Section WithPlatform.
Context `{Platform}.

Lemma normalizeToIsoMinuteZ_eq s :
  normalizeToIsoMinuteZ s =
  match Date_parse s with
  | Some t => Ok (minute_string (t / 60000 * 60000))
  | None => Throw RangeError
  end.
Proof.
  unfold normalizeToIsoMinuteZ. destruct (Date_parse s) as [t|] eqn:Hp; [|reflexivity].
  apply Date_parse_clip in Hp. cbn [fmap option_fmap option_map mbind option_bind].
  rewrite TimeClip_Some by (Z.div_mod_to_equations; lia).
  cbn [toISOString mbind result_bind mret result_ret].
  rewrite replace_iso_string_minute; [reflexivity|].
  unfold msPerMinute. Z.div_mod_to_equations. lia.
Qed.

Lemma computeEndAt_eq s durationMin :
  computeEndAt s durationMin =
  match Date_parse s with
  | Some t =>
      if Z.abs (t + durationMin * 60000) <=? 8640000000000000
      then Ok (replace (js ".000Z") (js "Z") (iso_string (t + durationMin * 60000)))
      else Throw RangeError
  | None => Throw RangeError
  end.
Proof.
  unfold computeEndAt. destruct (Date_parse s) as [t|]; [|reflexivity].
  cbn [fmap option_fmap option_map mbind option_bind]. unfold TimeClip.
  destruct (_ <=? _); reflexivity.
Qed.

End WithPlatform.
End TimeFacts.
Export TimeFacts.

(** ** The validator, statement by statement *)
Module ValidatorFacts.
Section WithPlatform.
Context `{Platform}.

Lemma strlen_pos c s : (0 <? strlen (c :: s)) = true.
Proof. unfold strlen. simpl List.length. apply Z.ltb_lt. lia. Qed.

Lemma validateAppointment_stmts data :
  validateAppointment data =
  stmt_clientName_length data (stmt_clientPhone data (stmt_clientEmail data
    (stmt_contact data (stmt_clientName data (stmt_startAt data (stmt_serviceId data [])))))).
Proof. reflexivity. Qed.

Lemma stmt_serviceId_check data e : stmt_serviceId data e = e ++ check_serviceId data.
Proof.
  unfold stmt_serviceId, check_serviceId, serviceId_ok.
  destruct (prop data "serviceId") as [| |b|[z| |q|b|]|s|o]; try reflexivity.
  simpl. rewrite Z.leb_antisym. destruct (0 <? z); simpl; [now rewrite app_nil_r|reflexivity].
Qed.

Lemma stmt_startAt_check data e : stmt_startAt data e = e ++ check_startAt data.
Proof.
  unfold stmt_startAt, check_startAt.
  destruct (validateStartAtMinuteOnly _); [reflexivity|now rewrite app_nil_r].
Qed.

Lemma stmt_clientName_check data e : stmt_clientName data e = e ++ check_clientName data.
Proof.
  unfold stmt_clientName, check_clientName.
  destruct (prop data "clientName") as [| |b|n|s|o]; try reflexivity.
  unfold strlen. destruct (trim s); simpl; [reflexivity|now rewrite app_nil_r].
Qed.

Lemma stmt_contact_check data e : stmt_contact data e = e ++ check_contact data.
Proof.
  unfold stmt_contact, check_contact. rewrite <- negb_orb.
  destruct (_ || _); simpl; [now rewrite app_nil_r|reflexivity].
Qed.

Lemma stmt_clientEmail_check data e : stmt_clientEmail data e = e ++ check_clientEmail data.
Proof.
  unfold stmt_clientEmail, check_clientEmail.
  destruct (prop data "clientEmail") as [| |b|n|[|c s]|o]; try (now rewrite app_nil_r).
  rewrite strlen_pos, Z.ltb_antisym. unfold push.
  destruct (test EMAIL_SHAPE (c :: s)), (strlen (c :: s) <=? 255); simpl;
    rewrite <- ?app_assoc, ?app_nil_r; reflexivity.
Qed.

Lemma stmt_clientPhone_check data e : stmt_clientPhone data e = e ++ check_clientPhone data.
Proof.
  unfold stmt_clientPhone, check_clientPhone.
  destruct (prop data "clientPhone") as [| |b|n|[|c s]|o]; try (now rewrite app_nil_r).
  rewrite strlen_pos, !Z.ltb_antisym. unfold push.
  destruct (7 <=? strlen (c :: s)), (strlen (c :: s) <=? 40); simpl;
    rewrite <- ?app_assoc, ?app_nil_r; reflexivity.
Qed.

Lemma stmt_clientName_length_check data e :
  stmt_clientName_length data e = e ++ check_clientName_length data.
Proof.
  unfold stmt_clientName_length, check_clientName_length.
  destruct (prop data "clientName") as [| |b|n|s|o]; try (now rewrite app_nil_r).
  rewrite Z.ltb_antisym. destruct (_ <=? _); simpl; [now rewrite app_nil_r|reflexivity].
Qed.

(** The validator runs the seven checks one after the other, whatever the
    earlier ones found. *)
Lemma validateAppointment_checks data :
  validateAppointment data =
  check_serviceId data ++ check_startAt data ++ check_clientName data ++ check_contact data
  ++ check_clientEmail data ++ check_clientPhone data ++ check_clientName_length data.
Proof.
  rewrite validateAppointment_stmts, stmt_clientName_length_check, stmt_clientPhone_check,
    stmt_clientEmail_check, stmt_contact_check, stmt_clientName_check, stmt_startAt_check,
    stmt_serviceId_check.
  repeat rewrite <- app_assoc. reflexivity.
Qed.

End WithPlatform.
End ValidatorFacts.
Export ValidatorFacts.

(** ** [normalizeAppointment] on the fields of its copy *)
Module ObjectView.

Section WithPlatform.
Context `{Platform}.

Lemma get_at_obj (w : world) (d : loc) (o : gmap string jsval) (k : string) : get d k (at_obj w d o) = (at_obj w d o, Ok (prop o k)).
Proof.
  unfold get, deref, at_obj, mbind, M_bind, mret, M_ret. simpl.
  now rewrite lookup_insert_eq.
Qed.

Lemma set_at_obj (w : world) (d : loc) (o : gmap string jsval) (k : string) (v : jsval) : set d k v (at_obj w d o) = (at_obj w d (<[k := v]> o), Ok tt).
Proof.
  unfold set, at_obj, with_heap. simpl.
  now rewrite lookup_insert_eq, insert_insert_eq.
Qed.

Lemma spread_run l w :
  spread l w =
  (at_obj w (fresh (dom (w_heap w))) (default ∅ (w_heap w !! l)), Ok (fresh (dom (w_heap w)))).
Proof. reflexivity. Qed.

Lemma bind_run {A B : Type} (m : M A) (f : A -> M B) w :
  (m ≫= f) w =
  match m w with
  | (w', Ok a) => f a w'
  | (w', Throw e) => (w', Throw e)
  end.
Proof. reflexivity. Qed.

Lemma normalizeAppointment_run data w :
  normalizeAppointment data w =
  let d := fresh (dom (w_heap w)) in
  match normalize_fields (default ∅ (w_heap w !! data)) with
  | (o', Ok _) => (at_obj w d o', Ok d)
  | (o', Throw e) => (at_obj w d o', Throw e)
  end.
Proof.
  unfold normalizeAppointment. rewrite bind_run, spread_run. cbv iota zeta.
  set (d := fresh (dom (w_heap w))). set (o := default ∅ (w_heap w !! data)).
  unfold normalize_fields, then_step, when_truthy, assign.
  (* clientName *)
  rewrite bind_run, get_at_obj. cbv iota. rewrite bind_run. unfold lift at 1.
  destruct (ToString (prop o "clientName")) as [s|e]; [|reflexivity].
  cbn [mbind result_bind mret result_ret].
  rewrite bind_run, set_at_obj. cbv iota.
  set (o1 := <["clientName" := _]> o).
  (* clientEmail *)
  rewrite bind_run, get_at_obj. cbv iota. rewrite bind_run.
  assert (He :
    (if ToBoolean (prop o1 "clientEmail")
     then v ← get d "clientEmail"; s0 ← lift (ToString v);
          set d "clientEmail" (VString (slice (toLowerCase (trim s0)) 0 255))
     else mret ()) (at_obj w d o1) =
    match (if ToBoolean (prop o1 "clientEmail")
           then match s0 ← ToString (prop o1 "clientEmail");
                      mret (VString (slice (toLowerCase (trim s0)) 0 255)) with
                | Ok v => (<["clientEmail" := v]> o1, Ok ())
                | Throw e => (o1, Throw e)
                end
           else (o1, Ok ())) with
    | (o', r) => (at_obj w d o', r)
    end).
  { destruct (ToBoolean (prop o1 "clientEmail")); [|reflexivity].
    rewrite bind_run, get_at_obj. cbv iota. rewrite bind_run. unfold lift at 1.
    destruct (ToString (prop o1 "clientEmail")); [|reflexivity].
    cbn [mbind result_bind mret result_ret]. now rewrite set_at_obj. }
  rewrite He. clear He.
  set (r2 := if ToBoolean (prop o1 "clientEmail") then _ else _).
  destruct r2 as [o2 [[]|e]]; [|reflexivity].
  (* clientPhone *)
  rewrite bind_run, get_at_obj. cbv iota. rewrite bind_run.
  assert (Hp :
    (if ToBoolean (prop o2 "clientPhone")
     then v ← get d "clientPhone"; s0 ← lift (ToString v);
          set d "clientPhone" (VString (slice (trim s0) 0 40))
     else mret ()) (at_obj w d o2) =
    match (if ToBoolean (prop o2 "clientPhone")
           then match s0 ← ToString (prop o2 "clientPhone");
                      mret (VString (slice (trim s0) 0 40)) with
                | Ok v => (<["clientPhone" := v]> o2, Ok ())
                | Throw e => (o2, Throw e)
                end
           else (o2, Ok ())) with
    | (o', r) => (at_obj w d o', r)
    end).
  { destruct (ToBoolean (prop o2 "clientPhone")); [|reflexivity].
    rewrite bind_run, get_at_obj. cbv iota. rewrite bind_run. unfold lift at 1.
    destruct (ToString (prop o2 "clientPhone")); [|reflexivity].
    cbn [mbind result_bind mret result_ret]. now rewrite set_at_obj. }
  rewrite Hp. clear Hp.
  set (r3 := if ToBoolean (prop o2 "clientPhone") then _ else _).
  destruct r3 as [o3 [[]|e]]; [|reflexivity].
  (* serviceId *)
  rewrite bind_run, get_at_obj. cbv iota. rewrite bind_run. unfold lift at 1.
  destruct (ToNumber (prop o3 "serviceId")) as [n|e]; [|reflexivity].
  cbn [mbind result_bind mret result_ret].
  rewrite bind_run, set_at_obj. cbv iota.
  set (o4 := <["serviceId" := _]> o3).
  (* startAt *)
  rewrite bind_run, get_at_obj. cbv iota. rewrite bind_run. unfold lift at 1.
  destruct (ToString (prop o4 "startAt")) as [s4|e]; [|reflexivity].
  cbn [mbind result_bind mret result_ret]. rewrite bind_run. unfold lift at 1.
  destruct (normalizeToIsoMinuteZ s4) as [iso|e]; [|reflexivity].
  rewrite bind_run, set_at_obj. reflexivity.
Qed.

End WithPlatform.

End ObjectView.
Export ObjectView.

(** ** The handler, read off the request body *)
Module HandlerView.

Section WithPlatform.
Context `{Platform}.

Lemma get_run (w : world) (d : loc) (o : gmap string jsval) (k : string) :
  w_heap w !! d = Some o -> get d k w = (w, Ok (prop o k)).
Proof.
  intros Hd. unfold get, deref, mbind, M_bind, mret, M_ret. now rewrite Hd.
Qed.

Lemma post_appointments_run grid body w :
  post_appointments grid body w = handler_view grid w (default ∅ (w_heap w !! body)).
Proof.
  unfold post_appointments, handler_view, try_catch. cbv zeta.
  rewrite bind_run. unfold deref at 1. cbv iota beta.
  set (o := default ∅ (w_heap w !! body)).
  destruct (0 <? Z.of_nat (List.length (validateAppointment o))); [reflexivity|].
  rewrite bind_run, normalizeAppointment_run. cbv zeta. fold o.
  set (d := fresh (dom (w_heap w))).
  destruct (normalize_fields o) as [o' [[]|e]]; [|reflexivity].
  rewrite bind_run, get_at_obj. cbv iota beta.
  destruct (match grid with Some enforce => enforce _ | None => None end); [reflexivity|].
  rewrite bind_run. unfold Date_now at 1. cbv iota beta.
  change (w_clock (at_obj w d o')) with (w_clock w).
  destruct (match Date_parse _ with Some ms => ms <=? w_clock w | None => true end);
    [reflexivity|].
  rewrite bind_run. unfold lift at 1.
  destruct (computeEndAt _ 60) as [endAt|e]; [|reflexivity].
  unfold randomUUID. repeat rewrite bind_run. cbv iota beta.
  assert (Hd : forall n,
    w_heap {| w_heap := w_heap (at_obj w d o'); w_clock := w_clock (at_obj w d o');
              w_uuid := w_uuid (at_obj w d o'); w_drawn := n |} !! d = Some o').
  { intros n. simpl. apply lookup_insert_eq. }
  repeat (erewrite get_run by apply Hd; cbv iota beta; try rewrite bind_run).
  reflexivity.
Qed.

End WithPlatform.

End HandlerView.
Export HandlerView.

(** ** Minute-precision timestamps under [Date.parse] *)
Module TimestampFacts.

Lemma read_digits_digits n ds acc rest :
  digits n ds ->
  exists v, read_digits n acc (ds ++ rest) = Some (v, rest)
            /\ acc * 10 ^ Z.of_nat n <= v < (acc + 1) * 10 ^ Z.of_nat n.
Proof.
  revert ds acc. induction n as [|n IH]; intros ds acc [Hl Hf].
  - destruct ds; [|discriminate]. simpl. exists acc. split; [reflexivity|lia].
  - destruct ds as [|c ds]; [discriminate|]. simpl in Hl, Hf.
    apply andb_true_iff in Hf as [Hc Hf]. simpl app. simpl read_digits. rewrite Hc.
    destruct (IH ds (10 * acc + digit_value c)) as (v & Hv & Hb); [split; [congruence|assumption]|].
    exists v. split; [exact Hv|].
    rewrite Nat2Z.inj_succ, Z.pow_succ_r by lia.
    unfold is_digit, in_range in Hc. apply andb_true_iff in Hc as [Ha Hb'].
    apply N.leb_le in Ha, Hb'. unfold digit_value in Hb. nia.
Qed.

Lemma is_digit_not c : is_digit c = true -> forall x, (x < 48 \/ 57 < x)%N -> ceq c x = false.
Proof.
  unfold is_digit, in_range, ceq. intros Hc x Hx.
  apply andb_true_iff in Hc as [Ha Hb]. apply N.leb_le in Ha, Hb.
  apply N.eqb_neq. lia.
Qed.

Lemma read_seconds_offset off :
  utc_offset off ->
  read_seconds off = Some (0, off)
  /\ exists sg h m, read_offset off = Some (sg, h, m)
                    /\ (sg = 1 \/ sg = -1) /\ 0 <= h <= 99 /\ 0 <= m <= 99.
Proof.
  intros [|sign hh mm Hs Hh Hm].
  - split; [reflexivity|]. simpl. exists 1, 0, 0. split; [reflexivity|lia].
  - split; [destruct Hs as [-> | ->]; reflexivity|].
    destruct (read_digits_digits 2 hh 0 (js ":" ++ mm) Hh) as (h & Hrh & Hbh).
    destruct (read_digits_digits 2 mm 0 [] Hm) as (m & Hrm & Hbm).
    rewrite app_nil_r in Hrm. simpl in Hbh, Hbm.
    unfold read_offset.
    replace (ceq sign 90%N) with false by (destruct Hs as [-> | ->]; reflexivity).
    replace (ceq sign 43%N || ceq sign 45%N) with true by (destruct Hs as [-> | ->]; reflexivity).
    rewrite Hrh. cbn [mbind option_bind]. rewrite expect_colon. cbn [mbind option_bind].
    rewrite Hrm. cbn [mbind option_bind]. do 3 eexists. split; [reflexivity|].
    destruct (ceq sign 43%N); lia.
Qed.

(** A minute-precision timestamp is read by the format alone, with no
    seconds, a year of four digits and offset fields of two digits. *)
Lemma parse_iso_minute_precision s :
  minute_precision s ->
  exists f, parse_iso s = Some f /\ f_second f = 0
            /\ 0 <= f_year f <= 9999 /\ 0 <= f_month f /\ 0 <= f_day f
            /\ 0 <= f_hour f /\ 0 <= f_minute f
            /\ -9999 <= f_offset_minutes f <= 9999.
Proof.
  intros [dt off [yyyy mo dd hh mi Hy Hmo Hdd Hhh Hmi] Hoff].
  repeat rewrite <- app_assoc. unfold parse_iso.
  destruct (read_digits_digits 4 yyyy 0 (js "-" ++ mo ++ js "-" ++ dd ++ js "T" ++ hh
              ++ js ":" ++ mi ++ off) Hy) as (y & Hry & Hby).
  assert (Hyear : read_year (yyyy ++ js "-" ++ mo ++ js "-" ++ dd ++ js "T" ++ hh
                             ++ js ":" ++ mi ++ off)
                  = Some (y, js "-" ++ mo ++ js "-" ++ dd ++ js "T" ++ hh ++ js ":" ++ mi ++ off)).
  { rewrite <- Hry. destruct Hy as [Hl Hf]. destruct yyyy as [|c yyyy]; [discriminate|].
    simpl in Hf. apply andb_true_iff in Hf as [Hc _].
    simpl app. unfold read_year.
    rewrite (is_digit_not c Hc 43%N), (is_digit_not c Hc 45%N) by lia. reflexivity. }
  rewrite Hyear. cbn [mbind option_bind]. rewrite expect_dash. cbn [mbind option_bind].
  destruct (read_digits_digits 2 mo 0 (js "-" ++ dd ++ js "T" ++ hh ++ js ":" ++ mi ++ off) Hmo)
    as (m & -> & Hbm). cbn [mbind option_bind]. rewrite expect_dash. cbn [mbind option_bind].
  destruct (read_digits_digits 2 dd 0 (js "T" ++ hh ++ js ":" ++ mi ++ off) Hdd)
    as (d & -> & Hbd).
  cbn [mbind option_bind]. rewrite expect_T. cbn [mbind option_bind].
  destruct (read_digits_digits 2 hh 0 (js ":" ++ mi ++ off) Hhh) as (h & -> & Hbh).
  cbn [mbind option_bind]. rewrite expect_colon. cbn [mbind option_bind].
  destruct (read_digits_digits 2 mi 0 off Hmi) as (n & -> & Hbn). cbn [mbind option_bind].
  destruct (read_seconds_offset off Hoff) as (Hsec & sg & oh & om & Hro & Hsg & Hoh & Hom).
  rewrite Hsec. cbn [mbind option_bind]. rewrite Hro. cbn [mbind option_bind].
  simpl in Hby, Hbm, Hbd, Hbh, Hbn.
  eexists. split; [reflexivity|]. unfold f_offset_minutes.
  cbn [f_second f_year f_month f_day f_hour f_minute f_offset_sign f_offset_hour
       f_offset_minute].
  destruct Hsg as [-> | ->]; repeat split; lia.
Qed.

Lemma month_start_bounds leap mn :
  0 <= leap <= 1 -> 0 <= mn <= 11 -> 0 <= month_start leap mn <= 335.
Proof.
  intros Hl Hm.
  assert (mn = 0 \/ mn = 1 \/ mn = 2 \/ mn = 3 \/ mn = 4 \/ mn = 5 \/ mn = 6 \/ mn = 7
          \/ mn = 8 \/ mn = 9 \/ mn = 10 \/ mn = 11) as Hc by lia.
  repeat destruct Hc as [-> | Hc]; try subst mn; simpl; lia.
Qed.

(** The instants that four-digit years can denote. *)
Lemma time_of_fields_four_digit_year f t :
  time_of_fields f = Some t -> 0 <= f_year f <= 9999 ->
  0 <= f_hour f -> 0 <= f_minute f -> 0 <= f_second f ->
  -9999 <= f_offset_minutes f <= 9999 ->
  -63000000000000 <= t <= 254000000000000.
Proof.
  unfold time_of_fields. intros Ht Hy Hh Hmi Hs Ho.
  destruct (fields_in_bounds f) eqn:Hb; [|discriminate]. apply TimeClip_inv in Ht as [-> _].
  unfold fields_in_bounds in Hb.
  repeat (apply andb_true_iff in Hb as [Hb ?]).
  repeat match goal with H : (_ <=? _) = true |- _ => apply Z.leb_le in H end.
  assert (Htime : f_hour f <= 24 /\ f_minute f <= 59 /\ f_second f <= 59).
  { match goal with H : (_ || _) = true |- _ => apply orb_true_iff in H as [H | H] end;
      repeat (apply andb_true_iff in H as [H ?]);
      repeat match goal with
             | H : (_ <=? _) = true |- _ => apply Z.leb_le in H
             | H : (_ =? _) = true |- _ => apply Z.eqb_eq in H
             end; lia. }
  unfold MakeDate, MakeDay, MakeTime, msPerDay, msPerHour, msPerMinute, msPerSecond.
  rewrite (Z.div_small (f_month f - 1) 12), (Z.mod_small (f_month f - 1) 12), Z.add_0_r by lia.
  set (leap := if DaysInYear (f_year f) =? 366 then 1 else 0).
  assert (Hleap : 0 <= leap <= 1)
    by (subst leap; destruct (DaysInYear (f_year f) =? 366); lia).
  clearbody leap.
  assert (Hmonth : 0 <= f_month f - 1 <= 11) by lia.
  pose proof (month_start_bounds leap (f_month f - 1) Hleap Hmonth).
  assert (-719528 <= DayFromYear (f_year f) <= 2932532)
    by (unfold DayFromYear; Z.div_mod_to_equations; lia).
  lia.
Qed.

Section WithPlatform.
Context `{Platform}.

(** The instant of a valid minute-precision timestamp is a whole minute,
    within the years that four digits and an offset can reach. *)
Lemma Date_parse_minute_precision s t :
  minute_precision s -> Date_parse s = Some t -> t mod msPerMinute = 0.
Proof.
  intros Hs. destruct (parse_iso_minute_precision s Hs) as (f & Hf & Hsec & _).
  unfold Date_parse, time_of_fields. rewrite Hf.
  destruct (fields_in_bounds f); [|discriminate].
  intros Ht. apply TimeClip_inv in Ht as [-> _]. rewrite Hsec.
  unfold MakeDate, MakeTime, msPerDay, msPerHour, msPerMinute, msPerSecond.
  Z.div_mod_to_equations. lia.
Qed.

Lemma Date_parse_minute_precision_range s t :
  minute_precision s -> Date_parse s = Some t ->
  -63000000000000 <= t <= 254000000000000.
Proof.
  intros Hs. destruct (parse_iso_minute_precision s Hs)
    as (f & Hf & Hsec & Hy & _ & _ & Hh & Hmi & Ho).
  unfold Date_parse. rewrite Hf. intros Ht.
  apply (time_of_fields_four_digit_year f t); try assumption. lia.
Qed.

Lemma validateStartAtMinuteOnly_None s :
  validateStartAtMinuteOnly (VString s) = None <->
  minute_precision s /\ exists t, Date_parse s = Some t.
Proof.
  unfold validateStartAtMinuteOnly. rewrite <- ISO_MINUTE_NO_SECONDS_shape.
  destruct (test ISO_MINUTE_NO_SECONDS s); simpl.
  - destruct (Date_parse s) as [t|]; split; try discriminate; eauto.
    intros [_ [t Ht]]. discriminate.
  - split; [discriminate|]. intros [? _]. discriminate.
Qed.

End WithPlatform.

End TimestampFacts.
Export TimestampFacts.

(** ** The messages of the validator *)
Module MessageFacts.

(** Two different messages are told apart by computing them. *)
Ltac differ :=
  match goal with
  | E : ?a = ?b |- _ => solve [vm_compute in E; discriminate E]
  end.

(** Membership in one of the short lists a check yields. *)
Ltac members :=
  simpl; intros Hin;
  repeat match goal with
         | Hin : _ \/ _ |- _ => destruct Hin as [Hin | Hin]
         | Hin : False |- _ => destruct Hin
         end;
  subst; auto.

Section WithPlatform.
Context `{Platform}.

Lemma In_validateAppointment m data :
  In m (validateAppointment data) <->
  In m (check_serviceId data) \/ In m (check_startAt data) \/ In m (check_clientName data)
  \/ In m (check_contact data) \/ In m (check_clientEmail data)
  \/ In m (check_clientPhone data) \/ In m (check_clientName_length data).
Proof. rewrite validateAppointment_checks. repeat rewrite in_app_iff. reflexivity. Qed.

Lemma check_serviceId_messages m data : In m (check_serviceId data) -> m = msg_service_id.
Proof. unfold check_serviceId. destruct (serviceId_ok _); members. Qed.

Lemma check_startAt_messages m data :
  In m (check_startAt data) ->
  m = msg_start_not_string \/ m = msg_start_not_iso \/ m = msg_start_not_date.
Proof.
  unfold check_startAt, validateStartAtMinuteOnly.
  destruct (prop data "startAt") as [| |b|n|s|o]; try solve [members].
  destruct (test ISO_MINUTE_NO_SECONDS s); [|members].
  destruct (Date_parse s); members.
Qed.

Lemma check_clientName_messages m data : In m (check_clientName data) -> m = msg_name_required.
Proof.
  unfold check_clientName. destruct (prop data "clientName") as [| |b|n|s|o]; try solve [members].
  destruct (trim s); members.
Qed.

Lemma check_contact_messages m data : In m (check_contact data) -> m = msg_contact.
Proof. unfold check_contact. destruct (_ || _); members. Qed.

Lemma check_clientEmail_messages m data :
  In m (check_clientEmail data) -> m = msg_email_shape \/ m = msg_email_long.
Proof.
  unfold check_clientEmail.
  destruct (prop data "clientEmail") as [| |b|n|[|c s]|o]; try solve [members].
  destruct (test EMAIL_SHAPE (c :: s)), (strlen (c :: s) <=? 255); members.
Qed.

Lemma check_clientPhone_messages m data :
  In m (check_clientPhone data) -> m = msg_phone_short \/ m = msg_phone_long.
Proof.
  unfold check_clientPhone.
  destruct (prop data "clientPhone") as [| |b|n|[|c s]|o]; try solve [members].
  destruct (7 <=? strlen (c :: s)), (strlen (c :: s) <=? 40); members.
Qed.

Lemma check_clientName_length_messages m data :
  In m (check_clientName_length data) -> m = msg_name_long.
Proof.
  unfold check_clientName_length.
  destruct (prop data "clientName") as [| |b|n|s|o]; try solve [members].
  destruct (_ <=? _); members.
Qed.

(** Every message of the validator, by the check that wrote it. *)
Lemma validateAppointment_messages m data :
  In m (validateAppointment data) ->
  (In m (check_serviceId data) /\ m = msg_service_id)
  \/ (In m (check_startAt data)
      /\ (m = msg_start_not_string \/ m = msg_start_not_iso \/ m = msg_start_not_date))
  \/ (In m (check_clientName data) /\ m = msg_name_required)
  \/ (In m (check_contact data) /\ m = msg_contact)
  \/ (In m (check_clientEmail data) /\ (m = msg_email_shape \/ m = msg_email_long))
  \/ (In m (check_clientPhone data) /\ (m = msg_phone_short \/ m = msg_phone_long))
  \/ (In m (check_clientName_length data) /\ m = msg_name_long).
Proof.
  rewrite In_validateAppointment.
  intros [Hi | [Hi | [Hi | [Hi | [Hi | [Hi | Hi]]]]]].
  - left. eauto using check_serviceId_messages.
  - right; left. eauto using check_startAt_messages.
  - do 2 right; left. eauto using check_clientName_messages.
  - do 3 right; left. eauto using check_contact_messages.
  - do 4 right; left. eauto using check_clientEmail_messages.
  - do 5 right; left. eauto using check_clientPhone_messages.
  - do 6 right. eauto using check_clientName_length_messages.
Qed.

(** A message of the [startAt] check comes from that check only. *)
Lemma startAt_message_origin m data :
  m = msg_start_not_string \/ m = msg_start_not_iso \/ m = msg_start_not_date ->
  In m (validateAppointment data) -> In m (check_startAt data).
Proof.
  intros Hm Hi. apply validateAppointment_messages in Hi.
  destruct Hi as [[_ E] | [[Hi _] | [[_ E] | [[_ E] | [[_ [E | E]] | [[_ [E | E]] | [_ E]]]]]]];
    try assumption; subst m; destruct Hm as [E | [E | E]]; differ.
Qed.

Lemma contact_message_origin data :
  In msg_contact (validateAppointment data) -> In msg_contact (check_contact data).
Proof.
  intros Hi. apply validateAppointment_messages in Hi.
  destruct Hi as [[_ E] | [[_ [E | [E | E]]] | [[_ E] | [[Hi _] | [[_ [E | E]] | [[_ [E | E]] | [_ E]]]]]]];
    try assumption; differ.
Qed.

Lemma email_message_origin m data :
  m = msg_email_shape \/ m = msg_email_long ->
  In m (validateAppointment data) -> In m (check_clientEmail data).
Proof.
  intros Hm Hi. apply validateAppointment_messages in Hi.
  destruct Hi as [[_ E] | [[_ [E | [E | E]]] | [[_ E] | [[_ E] | [[Hi _] | [[_ [E | E]] | [_ E]]]]]]];
    try assumption; subst m; destruct Hm as [E | E]; differ.
Qed.

Lemma phone_message_origin m data :
  m = msg_phone_short \/ m = msg_phone_long ->
  In m (validateAppointment data) -> In m (check_clientPhone data).
Proof.
  intros Hm Hi. apply validateAppointment_messages in Hi.
  destruct Hi as [[_ E] | [[_ [E | [E | E]]] | [[_ E] | [[_ E] | [[_ [E | E]] | [[Hi _] | [_ E]]]]]]];
    try assumption; subst m; destruct Hm as [E | E]; differ.
Qed.

End WithPlatform.

End MessageFacts.
Export MessageFacts.

(** ** Trimming, and the fields of a validated request *)
Module FieldFacts.

(** ** [trim] *)

Lemma drop_while_length p s : (List.length (drop_while p s) <= List.length s)%nat.
Proof.
  induction s as [|c s IH]; simpl; [lia|]. destruct (p c); simpl; lia.
Qed.

Lemma drop_while_snoc p s c :
  p c = false -> drop_while p (s ++ [c]) = drop_while p s ++ [c].
Proof.
  intros Hc. induction s as [|x s IH]; simpl.
  - now rewrite Hc.
  - destruct (p x); [exact IH|reflexivity].
Qed.

Lemma drop_while_head p s :
  match drop_while p s with
  | [] => True
  | c :: _ => p c = false
  end.
Proof.
  induction s as [|x s IH]; simpl; [exact I|].
  destruct (p x) eqn:Hx; [exact IH|exact Hx].
Qed.

Lemma drop_while_id p c s : p c = false -> drop_while p (c :: s) = c :: s.
Proof. intros Hc. simpl. now rewrite Hc. Qed.

Lemma trim_length s : (List.length (trim s) <= List.length s)%nat.
Proof.
  unfold trim, trimEnd, trimStart. rewrite length_rev.
  pose proof (drop_while_length is_white_space (rev (drop_while is_white_space s))).
  pose proof (drop_while_length is_white_space s).
  rewrite length_rev in *. lia.
Qed.

Lemma drop_while_idem p s : drop_while p (drop_while p s) = drop_while p s.
Proof.
  pose proof (drop_while_head p s) as Hh.
  destruct (drop_while p s) as [|c t]; [reflexivity|]. now apply drop_while_id.
Qed.

(** What [trim] returns has no white space at either end. *)
Lemma trim_trimmed s : trimmed (trim s).
Proof.
  unfold trimmed, trim, trimEnd, trimStart.
  pose proof (drop_while_head is_white_space s) as Hhead.
  destruct (drop_while is_white_space s) as [|c a]; [reflexivity|].
  assert (E1 : rev (drop_while is_white_space (rev (c :: a)))
               = c :: rev (drop_while is_white_space (rev a))).
  { simpl rev. rewrite drop_while_snoc, rev_app_distr by assumption. reflexivity. }
  rewrite E1, drop_while_id by assumption.
  assert (E2 : rev (c :: rev (drop_while is_white_space (rev a)))
               = drop_while is_white_space (rev a) ++ [c]).
  { simpl. now rewrite rev_involutive. }
  rewrite E2, drop_while_snoc, drop_while_idem, rev_app_distr by assumption. reflexivity.
Qed.

Lemma slice_all s n : (List.length s <= n)%nat -> slice s 0 n = s.
Proof.
  intros Hn. unfold slice. rewrite Nat.sub_0_r. simpl skipn. now apply firstn_all2.
Qed.

(** ** The fields [normalizeAppointment] assigns *)

Lemma prop_insert_eq (o : gmap string jsval) k v : prop (<[k := v]> o) k = v.
Proof. unfold prop. now rewrite lookup_insert_eq. Qed.

Lemma prop_insert_ne (o : gmap string jsval) k k' v :
  k <> k' -> prop (<[k := v]> o) k' = prop o k'.
Proof. intros Hk. unfold prop. now rewrite lookup_insert_ne. Qed.

Lemma assign_leaves k k' compute : k' <> k -> leaves k (assign k' compute).
Proof.
  intros Hk o o' r. unfold assign. destruct (compute (prop o k')); intros [= <- <-];
    [now rewrite lookup_insert_ne|reflexivity].
Qed.

Lemma when_truthy_leaves k k' f : leaves k f -> leaves k (when_truthy k' f).
Proof.
  intros Hf o o' r. unfold when_truthy. destruct (ToBoolean (prop o k')); [apply Hf|].
  now intros [= <- <-].
Qed.

Lemma then_step_leaves k f g : leaves k f -> leaves k g -> leaves k (then_step f g).
Proof.
  intros Hf Hg o o' r. unfold then_step. destruct (f o) as [o1 [[]|e]] eqn:Ef.
  - intros Eg. rewrite (Hg _ _ _ Eg). now apply (Hf _ _ _ Ef).
  - intros [= <- <-]. now apply (Hf _ _ _ Ef).
Qed.

Section WithPlatform.
Context `{Platform}.

(** Only the five named fields are assigned. *)
Lemma normalize_fields_leaves k :
  k <> "clientName" -> k <> "clientEmail" -> k <> "clientPhone" -> k <> "serviceId"
  -> k <> "startAt" -> leaves k normalize_fields.
Proof.
  intros. unfold normalize_fields.
  repeat first [ apply then_step_leaves | apply when_truthy_leaves | apply assign_leaves ];
    congruence.
Qed.

Lemma leaves_prop k f o o' r : leaves k f -> f o = (o', r) -> prop o' k = prop o k.
Proof. intros Hf Ho. unfold prop. now rewrite (Hf _ _ _ Ho). Qed.

Lemma then_step_Ok f g o o1 : f o = (o1, Ok tt) -> then_step f g o = g o1.
Proof. intros Hf. unfold then_step. now rewrite Hf. Qed.

Lemma then_step_Throw f g o o1 e : f o = (o1, Throw e) -> then_step f g o = (o1, Throw e).
Proof. intros Hf. unfold then_step. now rewrite Hf. Qed.

(** What a request that passed validation holds. *)
Lemma validated_fields o :
  validateAppointment o = [] ->
  (exists z, prop o "serviceId" = VNumber (NumInt z) /\ 0 < z)
  /\ (exists s t, prop o "startAt" = VString s /\ minute_precision s /\ Date_parse s = Some t)
  /\ (exists name, prop o "clientName" = VString name)
  /\ check_clientEmail o = [] /\ check_clientPhone o = [].
Proof.
  rewrite validateAppointment_checks. intros Hv.
  repeat match type of Hv with _ ++ _ = [] => apply app_eq_nil in Hv as [? Hv] end.
  split; [|split; [|split; [|split]]]; try assumption.
  - unfold check_serviceId, serviceId_ok in *.
    destruct (prop o "serviceId") as [| |b|[z| |q|b|]|s|x]; try discriminate.
    destruct (Z.ltb_spec 0 z); [eauto|discriminate].
  - unfold check_startAt in *.
    destruct (validateStartAtMinuteOnly (prop o "startAt")) eqn:Hs; [discriminate|].
    destruct (prop o "startAt") as [| |b|n|s|x]; try discriminate.
    apply validateStartAtMinuteOnly_None in Hs as [Hmp [t Ht]]. eauto.
  - unfold check_clientName in *.
    destruct (prop o "clientName") as [| |b|n|s|x]; try discriminate. eauto.
Qed.

(** The outcome of [normalizeAppointment] on a request that passed
    validation: it throws on a contact field whose conversion to a string
    throws, and otherwise assigns the five fields. *)
Lemma normalize_fields_validated o :
  validateAppointment o = [] ->
  (exists o', normalize_fields o = (o', Throw TypeError)
     /\ ((ToBoolean (prop o "clientEmail") = true /\ ToString (prop o "clientEmail") = Throw TypeError)
         \/ (ToBoolean (prop o "clientPhone") = true
             /\ ToString (prop o "clientPhone") = Throw TypeError)))
  \/ (exists o' s t,
        normalize_fields o = (o', Ok tt)
        /\ prop o "startAt" = VString s /\ minute_precision s /\ Date_parse s = Some t
        /\ prop o' "startAt" = VString (minute_string t)
        /\ prop o' "clientPhone" =
           (if ToBoolean (prop o "clientPhone")
            then match ToString (prop o "clientPhone") with
                 | Ok p => VString (slice (trim p) 0 40)
                 | Throw _ => prop o "clientPhone"
                 end
            else prop o "clientPhone")).
Proof.
  intros Hv. destruct (validated_fields o Hv) as ((z & Hid & Hz) & (s & t & Hs & Hmp & Ht)
    & (name & Hname) & Hemail & Hphone).
  unfold normalize_fields.
  (* clientName *)
  set (f1 := assign "clientName" _).
  assert (H1 : f1 o = (<["clientName" := VString (slice (trim name) 0 120)]> o, Ok tt)).
  { unfold f1, assign. now rewrite Hname. }
  assert (L1 : forall k, k <> "clientName" -> leaves k f1) by (intros; now apply assign_leaves).
  rewrite (then_step_Ok _ _ _ _ H1). set (o1 := <["clientName" := _]> o) in *.
  (* clientEmail *)
  set (f2 := when_truthy "clientEmail" _).
  assert (L2 : forall k, k <> "clientEmail" -> leaves k f2)
    by (intros; now apply when_truthy_leaves, assign_leaves).
  assert (P2 : prop o1 "clientEmail" = prop o "clientEmail") by (now apply (leaves_prop _ f1 o _ (Ok tt)); auto).
  destruct (f2 o1) as [o2 [[]|e]] eqn:H2.
  2:{ left. exists o2. rewrite (then_step_Throw _ _ _ _ _ H2).
      unfold f2, when_truthy, assign in H2. rewrite P2 in H2.
      destruct (ToBoolean (prop o "clientEmail")); [|discriminate].
      destruct (prop o "clientEmail") as [| |[]|n|x|[x|]]; try discriminate.
      injection H2 as <- <-. auto. }
  rewrite (then_step_Ok _ _ _ _ H2).
  (* clientPhone *)
  set (f3 := when_truthy "clientPhone" _).
  assert (L3 : forall k, k <> "clientPhone" -> leaves k f3)
    by (intros; now apply when_truthy_leaves, assign_leaves).
  assert (P3 : prop o2 "clientPhone" = prop o "clientPhone").
  { rewrite (leaves_prop _ f2 o1 _ (Ok tt)), (leaves_prop _ f1 o _ (Ok tt)); auto. }
  destruct (f3 o2) as [o3 [[]|e]] eqn:H3.
  2:{ left. exists o3. rewrite (then_step_Throw _ _ _ _ _ H3).
      unfold f3, when_truthy, assign in H3. rewrite P3 in H3.
      destruct (ToBoolean (prop o "clientPhone")); [|discriminate].
      destruct (prop o "clientPhone") as [| |[]|n|x|[x|]]; try discriminate.
      injection H3 as <- <-. auto. }
  rewrite (then_step_Ok _ _ _ _ H3).
  assert (V3 : prop o3 "clientPhone" =
               if ToBoolean (prop o "clientPhone")
               then match ToString (prop o "clientPhone") with
                    | Ok p => VString (slice (trim p) 0 40)
                    | Throw _ => prop o "clientPhone"
                    end
               else prop o "clientPhone").
  { unfold f3, when_truthy, assign in H3. rewrite P3 in H3.
    destruct (ToBoolean (prop o "clientPhone")).
    - destruct (ToString (prop o "clientPhone")) as [p|e]; [|discriminate].
      cbn [mbind result_bind mret result_ret] in H3. injection H3 as <-.
      apply prop_insert_eq.
    - injection H3 as <-. exact P3. }
  (* serviceId *)
  set (f4 := assign "serviceId" _).
  assert (P4 : prop o3 "serviceId" = VNumber (NumInt z)).
  { rewrite (leaves_prop _ f3 o2 _ (Ok tt)), (leaves_prop _ f2 o1 _ (Ok tt)),
      (leaves_prop _ f1 o _ (Ok tt)); auto. }
  assert (H4 : f4 o3 = (<["serviceId" := VNumber (NumInt z)]> o3, Ok tt)).
  { unfold f4, assign. now rewrite P4. }
  rewrite (then_step_Ok _ _ _ _ H4). set (o4 := <["serviceId" := _]> o3) in *.
  (* startAt *)
  assert (P5 : prop o4 "startAt" = VString s).
  { unfold o4. rewrite prop_insert_ne by discriminate.
    rewrite (leaves_prop _ f3 o2 _ (Ok tt)), (leaves_prop _ f2 o1 _ (Ok tt)),
      (leaves_prop _ f1 o _ (Ok tt)); auto. }
  right. exists (<["startAt" := VString (minute_string t)]> o4), s, t.
  split; [|repeat split; try assumption].
  - unfold assign. rewrite P5. cbn [ToString mbind result_bind].
    rewrite normalizeToIsoMinuteZ_eq, Ht.
    pose proof (Date_parse_minute_precision s t Hmp Ht) as Hm.
    replace (t / 60000 * 60000) with t
      by (unfold msPerMinute in Hm; Z.div_mod_to_equations; lia).
    reflexivity.
  - apply prop_insert_eq.
  - rewrite prop_insert_ne by discriminate. unfold o4.
    rewrite prop_insert_ne by discriminate. exact V3.
Qed.

End WithPlatform.

End FieldFacts.
Export FieldFacts.

(** ** Normalized timestamps, and the sample request *)
Module NormalFacts.
Section WithPlatform.
Context `{Platform}.

(** A normalized timestamp is the minute-level string of a whole minute
    in the range of [Date], and reads back as that instant. *)
Lemma normalizeToIsoMinuteZ_Ok s0 s :
  normalizeToIsoMinuteZ s0 = Ok s ->
  exists t, s = minute_string t /\ Z.abs t <= 8640000000000000 /\ t mod msPerMinute = 0
            /\ Date_parse s = Some t.
Proof.
  rewrite normalizeToIsoMinuteZ_eq. destruct (Date_parse s0) as [t0|] eqn:Hp; [|discriminate].
  intros [= <-]. apply Date_parse_clip in Hp.
  assert (Z.abs (t0 / 60000 * 60000) <= 8640000000000000) by (Z.div_mod_to_equations; lia).
  assert ((t0 / 60000 * 60000) mod msPerMinute = 0)
    by (unfold msPerMinute; Z.div_mod_to_equations; lia).
  exists (t0 / 60000 * 60000). repeat split; try assumption.
  now apply Date_parse_minute_string.
Qed.

Lemma jane_start : Date_parse (js "2025-09-20T18:00Z") = Some 1758391200000.
Proof. vm_compute. reflexivity. Qed.

Lemma jane_fields :
  normalize_fields jane =
  (<["startAt" := VString (js "2025-09-20T18:00:00Z")]>
   (<["serviceId" := VNumber (NumInt 1)]>
   (<["clientEmail" := VString (slice (toLowerCase (js "jane@example.com")) 0 255)]>
   (<["clientName" := VString (js "Jane Doe")]> jane))), Ok tt).
Proof. reflexivity. Qed.

End WithPlatform.
End NormalFacts.
Export NormalFacts.

(** * The claims *)

Section Claims.
Context `{Platform}.

(** C1. The request [{serviceId: 1, startAt: "2025-09-20T18:00Z", clientName:
    "Jane Doe", clientEmail: "jane@example.com"}], handled at any instant
    strictly before 2025-09-20T18:00Z with the grid check left out, is
    accepted: [validateAppointment] returns no error, the handler answers
    202, and the record it prepares has status [pending], [startAt] exactly
    "2025-09-20T18:00:00Z" and [endAt], which is [computeEndAt] with 60
    minutes, exactly "2025-09-20T19:00:00Z". *)
Theorem jane_doe_is_accepted (w : world) (body : loc) (t : Z) :
  w_heap w !! body = Some jane ->
  Date_parse (js "2025-09-20T18:00Z") = Some t ->
  w_clock w < t ->
  validateAppointment jane = []
  /\ computeEndAt (js "2025-09-20T18:00:00Z") 60 = Ok (js "2025-09-20T19:00:00Z")
  /\ exists w' record,
       post_appointments None body w = (w', Ok (accepted_reply w, Some record))
       /\ r_status record = js "pending"
       /\ r_startAt record = js "2025-09-20T18:00:00Z"
       /\ r_endAt record = js "2025-09-20T19:00:00Z".
Proof.
  intros Hbody Ht Hnow. rewrite jane_start in Ht. injection Ht as <-.
  assert (Hv : validateAppointment jane = []) by (vm_compute; reflexivity).
  assert (He : computeEndAt (js "2025-09-20T18:00:00Z") 60 = Ok (js "2025-09-20T19:00:00Z"))
    by (vm_compute; reflexivity).
  split; [exact Hv|]. split; [exact He|].
  rewrite post_appointments_run, Hbody. change (default ∅ (Some jane)) with jane.
  unfold handler_view. cbv zeta.
  rewrite Hv. cbn [List.length Z.of_nat Z.ltb Z.compare].
  rewrite jane_fields.
  set (o' := <["startAt" := _]> _).
  assert (Hs : as_string (prop o' "startAt") = js "2025-09-20T18:00:00Z") by reflexivity.
  rewrite Hs.
  assert (Hp : Date_parse (js "2025-09-20T18:00:00Z") = Some 1758391200000)
    by (vm_compute; reflexivity).
  rewrite Hp. destruct (Z.leb_spec 1758391200000 (w_clock w)); [lia|].
  rewrite He. eexists _, _. split; [reflexivity|].
  repeat split.
Qed.

(** C2. For every request body, [validateAppointment] runs each of its
    seven field checks whatever the others found, and returns their
    messages in the fixed order serviceId, startAt, clientName, contact
    presence, email format, phone format, name length: its result is the
    concatenation of the seven checks in that order, so that every message
    of every violated rule is in the list. *)
Theorem validateAppointment_runs_every_check_in_order (data : gmap string jsval) :
  validateAppointment data =
    check_serviceId data ++ check_startAt data ++ check_clientName data
    ++ check_contact data ++ check_clientEmail data ++ check_clientPhone data
    ++ check_clientName_length data
  /\ (forall m,
        In m (check_serviceId data) \/ In m (check_startAt data) \/ In m (check_clientName data)
        \/ In m (check_contact data) \/ In m (check_clientEmail data)
        \/ In m (check_clientPhone data) \/ In m (check_clientName_length data) ->
        In m (validateAppointment data)).
Proof.
  split; [apply validateAppointment_checks|].
  intros m. apply In_validateAppointment.
Qed.

(** C3. For every string [startAt] that carries a seconds or
    fractional-seconds component, [validateStartAtMinuteOnly] answers the
    ISO-format message and [validateAppointment] lists it; and for every
    string of the minute-precision shape (four-digit year, two-digit month
    and day, [T], two-digit hour and minute, then [Z] or a [+HH:MM] or
    [-HH:MM] offset) that [Date.parse] takes for a date, no [startAt] message
    is reported. *)
Theorem startAt_with_seconds_rejected_minutes_accepted (data : gmap string jsval) (s : jsstring) :
  prop data "startAt" = VString s ->
  (has_seconds s ->
   validateStartAtMinuteOnly (VString s) = Some msg_start_not_iso
   /\ In msg_start_not_iso (validateAppointment data))
  /\ (minute_precision s -> (exists t, Date_parse s = Some t) ->
      validateStartAtMinuteOnly (VString s) = None
      /\ ~ In msg_start_not_string (validateAppointment data)
      /\ ~ In msg_start_not_iso (validateAppointment data)
      /\ ~ In msg_start_not_date (validateAppointment data)).
Proof.
  intros Hs. split.
  - intros Hsec.
    assert (Hv : validateStartAtMinuteOnly (VString s) = Some msg_start_not_iso).
    { unfold validateStartAtMinuteOnly.
      destruct (test ISO_MINUTE_NO_SECONDS s) eqn:Ht; [|reflexivity].
      apply ISO_MINUTE_NO_SECONDS_shape in Ht.
      now apply has_seconds_not_minute_precision in Hsec. }
    split; [exact Hv|]. apply In_validateAppointment. right; left.
    unfold check_startAt. rewrite Hs, Hv. now left.
  - intros Hmp Ht.
    assert (Hv : validateStartAtMinuteOnly (VString s) = None)
      by (apply validateStartAtMinuteOnly_None; auto).
    assert (Hc : check_startAt data = []) by (unfold check_startAt; now rewrite Hs, Hv).
    split; [exact Hv|].
    repeat split; intros Hi; apply startAt_message_origin in Hi; auto;
      rewrite Hc in Hi; destruct Hi.
Qed.

(** C4. The claim fails on the code one hour before the year 10000, where
    the code does not give the canonical form ["YYYY-MM-DDTHH:MM:00Z"] its
    own documentation promises: "9999-12-31T23:59-01:00" is a valid
    minute-precision timestamp, and [normalizeToIsoMinuteZ] returns
    "+010000-01-01T00:59:00Z" for it, the year written with a sign and six
    digits. *)
Theorem normalizeToIsoMinuteZ_year_10000 :
  validateStartAtMinuteOnly (VString (js "9999-12-31T23:59-01:00")) = None
  /\ normalizeToIsoMinuteZ (js "9999-12-31T23:59-01:00") = Ok (js "+010000-01-01T00:59:00Z")
  /\ ~ canonical_minute_Z (js "+010000-01-01T00:59:00Z").
Proof.
  split; [vm_compute; reflexivity|]. split; [vm_compute; reflexivity|].
  apply not_canonical_signed_year. reflexivity.
Qed.

(** C5. For every normalized timestamp [s] (a result of
    [normalizeToIsoMinuteZ]), [enforceFifteenMinuteGrid] returns no error
    exactly when the UTC minute of [s], which is its [MM] field, is a
    multiple of 15; when it does return an error, it is the one grid
    message. *)
Theorem grid_check_iff_minute_multiple_of_15 (s0 s : jsstring) :
  normalizeToIsoMinuteZ s0 = Ok s ->
  exists m,
    minute_field s = Some m
    /\ getUTCMinutes (Date_parse s) = Some m
    /\ (enforceFifteenMinuteGrid s = None <-> m mod 15 = 0)
    /\ (enforceFifteenMinuteGrid s = None \/ enforceFifteenMinuteGrid s = Some msg_grid).
Proof.
  intros Hn. apply normalizeToIsoMinuteZ_Ok in Hn as (t & -> & Hc & Hm & Hp).
  exists (MinFromTime t). split; [apply minute_field_minute_string|].
  unfold enforceFifteenMinuteGrid. rewrite Hp. cbn [getUTCMinutes].
  split; [reflexivity|].
  assert (0 <= MinFromTime t < 60) by (unfold MinFromTime; apply Z.mod_pos_bound; lia).
  rewrite Z.rem_mod_nonneg by lia.
  destruct (Z.eqb_spec (MinFromTime t mod 15) 0) as [E|E].
  - split; [split; auto|left; reflexivity].
  - split; [split; [discriminate|contradiction]|right; reflexivity].
Qed.


(** C7. The claim fails on the code where the end leaves the years 0000 to
    9999 or the range of [Date], against the code's own comment that it
    returns the canonical minute-level form: for the normalized start
    "9999-12-31T23:59:00Z" and one minute, [computeEndAt] returns
    "+010000-01-01T00:00:00Z", the year written with a sign and six digits;
    for the normalized start "2025-09-20T18:00:00Z" and 1000000000000
    minutes it throws a RangeError. *)
Theorem computeEndAt_past_year_9999 :
  normalizeToIsoMinuteZ (js "9999-12-31T23:59Z") = Ok (js "9999-12-31T23:59:00Z")
  /\ canonical_minute_Z (js "9999-12-31T23:59:00Z")
  /\ computeEndAt (js "9999-12-31T23:59:00Z") 1 = Ok (js "+010000-01-01T00:00:00Z")
  /\ ~ canonical_minute_Z (js "+010000-01-01T00:00:00Z")
  /\ computeEndAt (js "2025-09-20T18:00:00Z") 1000000000000 = Throw RangeError.
Proof.
  split; [vm_compute; reflexivity|]. split.
  { change (js "9999-12-31T23:59:00Z")
      with ((js "9999" ++ js "-" ++ js "12" ++ js "-" ++ js "31" ++ js "T" ++ js "23" ++ js ":"
             ++ js "59") ++ js ":00Z").
    constructor. constructor; split; reflexivity. }
  split; [vm_compute; reflexivity|]. split; [|vm_compute; reflexivity].
  apply not_canonical_signed_year. reflexivity.
Qed.

(** C8 (amended). For every request that passed [validateAppointment] with
    no error and whose [clientPhone] is a non-empty string [p],
    [normalizeAppointment] either throws (on a [clientEmail] whose
    conversion to a string throws) or returns an object whose [clientPhone]
    is [trim p]: a trimmed string of length at most 40, and of length at
    least 7 when [p] itself has no white space at either end. *)
Theorem normalized_clientPhone_of_string (w : world) (data : loc) (o : gmap string jsval)
    (p : jsstring) :
  w_heap w !! data = Some o ->
  validateAppointment o = [] ->
  prop o "clientPhone" = VString p ->
  p <> [] ->
  (exists w' e, normalizeAppointment data w = (w', Throw e)
     /\ ToString (prop o "clientEmail") = Throw TypeError)
  \/ (exists w' d o',
        normalizeAppointment data w = (w', Ok d)
        /\ w_heap w' !! d = Some o'
        /\ prop o' "clientPhone" = VString (trim p)
        /\ trimmed (trim p)
        /\ strlen (trim p) <= 40
        /\ (trimmed p -> 7 <= strlen (trim p))).
Proof.
  intros Hdata Hv Hp Hne. rewrite normalizeAppointment_run. cbv zeta. rewrite Hdata.
  change (default ∅ (Some o)) with o.
  destruct (validated_fields o Hv) as (_ & _ & _ & _ & Hphone).
  unfold check_clientPhone in Hphone. rewrite Hp in Hphone.
  destruct p as [|c p]; [congruence|].
  apply app_eq_nil in Hphone as [H7 H40].
  destruct (Z.leb_spec 7 (strlen (c :: p))) as [H7'|]; [|discriminate].
  destruct (Z.leb_spec (strlen (c :: p)) 40) as [H40'|]; [|discriminate].
  pose proof (trim_length (c :: p)) as Hlen. unfold strlen in *.
  destruct (normalize_fields_validated o Hv)
    as [(o' & -> & [[_ He] | [_ He]]) | (o' & s & t & -> & _ & _ & _ & _ & Hphone')].
  - left. eauto.
  - rewrite Hp in He. discriminate.
  - right. eexists _, _, o'. split; [reflexivity|]. split; [apply lookup_insert_eq|].
    rewrite Hp in Hphone'. cbn [ToBoolean ToString] in Hphone'.
    rewrite slice_all in Hphone' by lia.
    split; [exact Hphone'|]. split; [apply trim_trimmed|]. split; [lia|].
    intros Ht. rewrite Ht. lia.
Qed.

(** C9. [normalizeAppointment] never mutates its input: whatever the
    request body holds, and whether the call returns or throws, the body
    object (and every other object of the heap) is as it was before the
    call; the object returned is a new one, at a location that was free,
    and it agrees with the body on every property other than the five that
    are assigned. *)
Theorem normalizeAppointment_leaves_its_input (w : world) (data : loc) (o : gmap string jsval) :
  w_heap w !! data = Some o ->
  exists w' r,
    normalizeAppointment data w = (w', r)
    /\ w_heap w' !! data = Some o
    /\ (forall l o1, w_heap w !! l = Some o1 -> w_heap w' !! l = Some o1)
    /\ (forall d, r = Ok d ->
        d <> data /\ w_heap w !! d = None
        /\ exists o', w_heap w' !! d = Some o'
           /\ forall k, k <> "clientName" -> k <> "clientEmail" -> k <> "clientPhone"
                        -> k <> "serviceId" -> k <> "startAt" -> o' !! k = o !! k).
Proof.
  intros Hdata. rewrite normalizeAppointment_run. cbv zeta. rewrite Hdata.
  change (default ∅ (Some o)) with o.
  set (d := fresh (dom (w_heap w))).
  assert (Hd : w_heap w !! d = None).
  { apply not_elem_of_dom. subst d. apply is_fresh. }
  assert (Hframe : forall o' l o1,
             w_heap w !! l = Some o1 -> w_heap (at_obj w d o') !! l = Some o1).
  { intros o' l o1 Hl. unfold at_obj. simpl. rewrite lookup_insert_ne; [assumption|].
    intros ->. congruence. }
  destruct (normalize_fields o) as [o' [[]|e]] eqn:Hn; eexists _, _; (split; [reflexivity|]);
    (split; [now apply Hframe|]); (split; [now apply Hframe|]).
  - intros d' [= <-]. split; [intros ->; congruence|]. split; [assumption|].
    exists o'. split; [apply lookup_insert_eq|].
    intros k ? ? ? ? ?. now apply (normalize_fields_leaves k) in Hn.
  - intros d' [=].
Qed.

(** C10. A [clientEmail] or [clientPhone] that is truthy and not a string
    satisfies the contact-presence rule, and no format or length message is
    ever reported for a contact field that is not a string; in particular a
    request with a valid [serviceId], [startAt] and [clientName], no
    [clientEmail] (or a valid one) and a truthy number as [clientPhone]
    passes validation with no error. A contact field that is the empty string is validated
    exactly as if it were absent. *)
Theorem contact_fields_that_are_not_strings (data : gmap string jsval) :
  (forall k, k = "clientEmail" \/ k = "clientPhone" ->
     typeof (prop data k) <> TyString -> ToBoolean (prop data k) = true ->
     ~ In msg_contact (validateAppointment data))
  /\ (typeof (prop data "clientEmail") <> TyString ->
      ~ In msg_email_shape (validateAppointment data)
      /\ ~ In msg_email_long (validateAppointment data))
  /\ (typeof (prop data "clientPhone") <> TyString ->
      ~ In msg_phone_short (validateAppointment data)
      /\ ~ In msg_phone_long (validateAppointment data))
  /\ (forall n,
        check_serviceId data = [] -> check_startAt data = [] ->
        check_clientName data = [] -> check_clientName_length data = [] ->
        check_clientEmail data = [] ->
        prop data "clientPhone" = VNumber n -> ToBoolean (VNumber n) = true ->
        validateAppointment data = [])
  /\ (forall k, k = "clientEmail" \/ k = "clientPhone" ->
        prop data k = VString [] ->
        validateAppointment data = validateAppointment (delete k data)).
Proof.
  split; [|split; [|split; [|split]]].
  - intros k Hk Hty Htrue Hi. apply contact_message_origin in Hi.
    unfold check_contact in Hi.
    destruct Hk as [-> | ->]; rewrite Htrue, ?orb_true_r in Hi; destruct Hi.
  - intros Hty.
    assert (Hc : check_clientEmail data = []).
    { unfold check_clientEmail. destruct (prop data "clientEmail"); try reflexivity.
      now contradiction Hty. }
    split; intros Hi; apply email_message_origin in Hi; auto; rewrite Hc in Hi; destruct Hi.
  - intros Hty.
    assert (Hc : check_clientPhone data = []).
    { unfold check_clientPhone. destruct (prop data "clientPhone"); try reflexivity.
      now contradiction Hty. }
    split; intros Hi; apply phone_message_origin in Hi; auto; rewrite Hc in Hi; destruct Hi.
  - intros n H1 H2 H3 H7 He Hp Ht. rewrite validateAppointment_checks, H1, H2, H3, H7, He.
    unfold check_contact, check_clientPhone. rewrite Hp, Ht, orb_true_r.
    reflexivity.
  - intros k Hk Hempty.
    assert (Hother : forall k', k' <> k -> prop (delete k data) k' = prop data k').
    { intros k' Hne. unfold prop. now rewrite lookup_delete_ne. }
    assert (Hgone : prop (delete k data) k = VUndefined).
    { unfold prop. now rewrite lookup_delete_eq. }
    rewrite !validateAppointment_checks.
    unfold check_serviceId, check_startAt, check_clientName, check_contact,
      check_clientEmail, check_clientPhone, check_clientName_length.
    destruct Hk as [-> | ->]; rewrite Hgone, Hempty, !Hother by discriminate; reflexivity.
Qed.

End Claims.

(** * Facts for the further properties *)

(** ** The email expression *)
Module EmailFacts.

Lemma Matches_star_class p s : Matches (Rstar (Rclass p)) s <-> forallb p s = true.
Proof.
  split.
  - intros Hm. remember (Rstar (Rclass p)) as r eqn:Hr.
    induction Hm as [| | | | | |r0 s1 s2 Hm1 _ Hm2 IH2]; try discriminate; [reflexivity|].
    injection Hr as ->. apply Matches_class_inv in Hm1 as (c & -> & Hc).
    simpl. rewrite Hc. now apply IH2.
  - induction s as [|c s IH]; intros Hf; [constructor|].
    simpl in Hf. apply andb_true_iff in Hf as [Hc Hf].
    change (c :: s) with ([c] ++ s). constructor; [now constructor|auto].
Qed.

Lemma Matches_plus_class p s :
  Matches (Rplus (Rclass p)) s <-> s <> [] /\ forallb p s = true.
Proof.
  unfold Rplus. rewrite Matches_cat_inv. split.
  - intros (s1 & s2 & -> & H1 & H2). apply Matches_class_inv in H1 as (c & -> & Hc).
    apply Matches_star_class in H2. simpl. rewrite Hc, H2. split; [discriminate|reflexivity].
  - intros [Hne Hf]. destruct s as [|c s]; [congruence|]. simpl in Hf.
    apply andb_true_iff in Hf as [Hc Hf]. exists [c], s.
    split; [reflexivity|]. split; [now constructor|now apply Matches_star_class].
Qed.

(** The language of the expression: [local@domain.tld], each of the three
    a part. *)
Lemma Matches_EMAIL_SHAPE s :
  Matches EMAIL_SHAPE s <->
  exists loc dom tld,
    s = loc ++ js "@" ++ dom ++ js "." ++ tld
    /\ email_part loc /\ email_part dom /\ email_part tld.
Proof.
  unfold EMAIL_SHAPE, email_part. split.
  - intros Hm.
    apply Matches_cat_inv in Hm as (a & ? & -> & Ha & Hm). apply Matches_plus_class in Ha.
    apply Matches_cat_inv in Hm as (x1 & ? & -> & Hx1 & Hm). apply Matches_char_inv in Hx1 as ->.
    apply Matches_cat_inv in Hm as (b & ? & -> & Hb & Hm). apply Matches_plus_class in Hb.
    apply Matches_cat_inv in Hm as (x2 & c & -> & Hx2 & Hc). apply Matches_char_inv in Hx2 as ->.
    apply Matches_plus_class in Hc. exists a, b, c. auto.
  - intros (a & b & c & -> & Ha & Hb & Hc).
    repeat first
      [ apply M_cat
      | apply Matches_plus_class; assumption
      | apply Matches_char_inv; reflexivity ].
Qed.

Lemma forallb_rev {A} (p : A -> bool) l : forallb p (rev l) = forallb p l.
Proof.
  induction l as [|x l IH]; [reflexivity|]. simpl. rewrite forallb_app, IH. simpl.
  rewrite andb_true_r. apply andb_comm.
Qed.

Lemma email_part_count_at s : email_part s -> count_occ N.eq_dec s 64%N = 0%nat.
Proof.
  intros [_ Hf]. induction s as [|c s IH]; [reflexivity|]. simpl in Hf.
  apply andb_true_iff in Hf as [Hc Hf]. unfold not_space_at in Hc.
  apply negb_true_iff, orb_false_iff in Hc as [_ Hc]. unfold ceq in Hc.
  apply N.eqb_neq in Hc. simpl. destruct (N.eq_dec c 64%N); [contradiction|auto].
Qed.

Lemma email_part_no_white_space s : email_part s -> no_white_space s.
Proof.
  intros [_ Hf]. unfold no_white_space. rewrite forallb_forall in *. intros c Hc.
  specialize (Hf c Hc). unfold not_space_at in Hf.
  apply negb_true_iff, orb_false_iff in Hf as [Hw _]. now rewrite Hw.
Qed.

Lemma no_white_space_trim s : no_white_space s -> trim s = s.
Proof.
  unfold no_white_space. intros Hf.
  assert (Hd : forall l, forallb (fun c => negb (is_white_space c)) l = true ->
                         drop_while is_white_space l = l).
  { intros [|c l]; [reflexivity|]. simpl. intros Hl.
    apply andb_true_iff in Hl as [Hc _]. apply negb_true_iff in Hc. now rewrite Hc. }
  unfold trim, trimEnd, trimStart. rewrite (Hd s Hf).
  rewrite Hd by now rewrite forallb_rev. apply rev_involutive.
Qed.

(** An accepted address holds one [@] and no white space. *)
Lemma EMAIL_SHAPE_count_at s :
  test EMAIL_SHAPE s = true -> count_occ N.eq_dec s 64%N = 1%nat.
Proof.
  intros Hs. apply test_Matches, Matches_EMAIL_SHAPE in Hs as (a & b & c & -> & Ha & Hb & Hc).
  pose proof (email_part_count_at a Ha) as Ea. pose proof (email_part_count_at b Hb) as Eb.
  pose proof (email_part_count_at c Hc) as Ec.
  rewrite !count_occ_app.
  change (@count_occ codeunit) with (@count_occ N).
  rewrite Ea, Eb, Ec. reflexivity.
Qed.

Lemma EMAIL_SHAPE_no_white_space s : test EMAIL_SHAPE s = true -> no_white_space s.
Proof.
  intros Hs. apply test_Matches, Matches_EMAIL_SHAPE in Hs as (a & b & c & -> & Ha & Hb & Hc).
  unfold no_white_space. rewrite !forallb_app.
  rewrite (email_part_no_white_space a Ha), (email_part_no_white_space b Hb),
    (email_part_no_white_space c Hc). reflexivity.
Qed.

Lemma email_part_length s : email_part s -> 1 <= strlen s.
Proof. intros [Hne _]. unfold strlen. destruct s; [congruence|simpl; lia]. Qed.

End EmailFacts.
Export EmailFacts.

(** ** Each message of the validator and the state that raises it *)
Module IssueFacts.

Lemma message_inj i j : message i = message j -> i = j.
Proof. destruct i, j; intros E; try reflexivity; vm_compute in E; discriminate E. Qed.

Lemma strlen_nil_iff (s : jsstring) : strlen s = 0 <-> s = [].
Proof. unfold strlen. destruct s; simpl; split; intros; try congruence; lia. Qed.

Lemma strlen_nonneg (s : jsstring) : 0 <= strlen s.
Proof. unfold strlen. lia. Qed.

Section WithPlatform.
Context `{Platform}.

(** A message is found in the list exactly when its own check wrote it. *)
Lemma In_message data i :
  In (message i) (validateAppointment data) <-> In (message i) (check_of i data).
Proof.
  split.
  - intros Hi. apply validateAppointment_messages in Hi.
    destruct Hi as [[Hi E] | [[Hi E] | [[Hi E] | [[Hi E] | [[Hi E] | [[Hi E] | [Hi E]]]]]]];
      repeat match type of E with _ \/ _ => destruct E as [E | E] end;
      match type of E with
      | _ = ?m =>
          first [ change m with (message ServiceId) in E
                | change m with (message StartNotString) in E
                | change m with (message StartNotIso) in E
                | change m with (message StartNotDate) in E
                | change m with (message NameRequired) in E
                | change m with (message Contact) in E
                | change m with (message EmailShape) in E
                | change m with (message EmailLong) in E
                | change m with (message PhoneShort) in E
                | change m with (message PhoneLong) in E
                | change m with (message NameLong) in E ]
      end;
      apply message_inj in E; subst i; exact Hi.
  - intros Hi. apply In_validateAppointment. destruct i; simpl in Hi; tauto.
Qed.

Lemma raised_serviceId data : In msg_service_id (check_serviceId data) <-> raised data ServiceId.
Proof.
  unfold check_serviceId, serviceId_ok, raised, serviceId_valid.
  destruct (prop data "serviceId") as [| |b|[z| |q|b|]|s|x]; simpl;
    try (split; [intros _ (z' & E & _); discriminate E | auto]).
  destruct (Z.ltb_spec 0 z); simpl.
  - split; [tauto|]. intros Hn. exfalso. apply Hn. eauto.
  - split; [|auto]. intros _ (z' & [= <-] & Hz). lia.
Qed.

Lemma raised_startAt data i :
  i = StartNotString \/ i = StartNotIso \/ i = StartNotDate ->
  In (message i) (check_startAt data) <-> raised data i.
Proof.
  intros Hi. unfold check_startAt, validateStartAtMinuteOnly.
  destruct (prop data "startAt") as [| |b|n|s|x] eqn:Hs;
    try (destruct Hi as [-> | [-> | ->]]; simpl; rewrite Hs;
         split; try (intros [E | []]; vm_compute in E; discriminate E);
         try (intros (s' & E & _); discriminate E);
         try (intros _; simpl; discriminate); auto; fail).
  destruct (test ISO_MINUTE_NO_SECONDS s) eqn:Ht; simpl.
  - apply ISO_MINUTE_NO_SECONDS_shape in Ht.
    destruct (Date_parse s) as [t|] eqn:Hp; simpl.
    + destruct Hi as [-> | [-> | ->]]; simpl; rewrite Hs; simpl; split; try tauto.
      * intros (s' & [= <-] & Hn). tauto.
      * intros (s' & [= <-] & _ & E). congruence.
    + destruct Hi as [-> | [-> | ->]]; simpl; rewrite Hs; simpl; split;
        try (intros [E | []]; vm_compute in E; discriminate E); try tauto.
      * intros (s' & [= <-] & Hn). tauto.
      * intros _. eauto.
  - assert (Hn : ~ minute_precision s).
    { intros Hm. apply ISO_MINUTE_NO_SECONDS_shape in Hm. congruence. }
    destruct Hi as [-> | [-> | ->]]; simpl; rewrite Hs; simpl; split;
      try (intros [E | []]; vm_compute in E; discriminate E); try tauto.
    + intros _. eauto.
    + intros (s' & [= <-] & Hm & _). tauto.
Qed.

Lemma raised_clientName data :
  In msg_name_required (check_clientName data) <-> raised data NameRequired.
Proof.
  unfold check_clientName, raised.
  destruct (prop data "clientName") as [| |b|n|s|x];
    try (split; [intros _ s' E; discriminate E | simpl; auto]).
  destruct (trim s) eqn:Ht; simpl.
  - split; [|auto]. intros _ s' [= <-]. exact Ht.
  - split; [tauto|]. intros Hn. specialize (Hn s eq_refl). congruence.
Qed.

Lemma raised_contact data : In msg_contact (check_contact data) <-> raised data Contact.
Proof.
  unfold check_contact, raised.
  destruct (ToBoolean (prop data "clientEmail")), (ToBoolean (prop data "clientPhone")); simpl;
    split; try tauto; intros [? ?]; discriminate.
Qed.

Lemma In_unless (b : bool) (m x : jsstring) :
  In m (if b then [] else [x]) <-> b = false /\ x = m.
Proof. destruct b; simpl; split; try tauto; intros [E _]; discriminate E. Qed.

Lemma raised_clientEmail data i :
  i = EmailShape \/ i = EmailLong -> In (message i) (check_clientEmail data) <-> raised data i.
Proof.
  intros Hi. unfold check_clientEmail.
  destruct (prop data "clientEmail") as [| |b|n|[|c e]|x] eqn:He.
  1-4,7: destruct Hi as [-> | ->]; simpl; rewrite He;
    (split; [intros [] | intros (e' & E & _); discriminate E]).
  - destruct Hi as [-> | ->]; simpl; rewrite He; (split; [intros []|]).
    + intros (e' & [= <-] & Hne & _). congruence.
    + intros (e' & [= <-] & Hl). unfold strlen in Hl. simpl in Hl. lia.
  - rewrite in_app_iff, !In_unless.
    destruct Hi as [-> | ->]; simpl; rewrite He; split.
    + intros [[Ht _] | [_ E]]; [|vm_compute in E; discriminate E].
      exists (c :: e). repeat split; [discriminate|exact Ht].
    + intros (e' & [= <-] & _ & Ht). auto.
    + intros [[_ E] | [Hl _]]; [vm_compute in E; discriminate E|].
      exists (c :: e). split; [reflexivity|]. apply Z.leb_gt in Hl. exact Hl.
    + intros (e' & [= <-] & Hl). right. split; [|reflexivity]. apply Z.leb_gt. exact Hl.
Qed.

Lemma raised_clientPhone data i :
  i = PhoneShort \/ i = PhoneLong -> In (message i) (check_clientPhone data) <-> raised data i.
Proof.
  intros Hi. unfold check_clientPhone.
  destruct (prop data "clientPhone") as [| |b|n|[|c p]|x] eqn:He.
  1-4,7: destruct Hi as [-> | ->]; simpl; rewrite He;
    (split; [intros [] | intros (e' & E & _); discriminate E]).
  - destruct Hi as [-> | ->]; simpl; rewrite He; (split; [intros []|]).
    + intros (e' & [= <-] & Hne & _). congruence.
    + intros (e' & [= <-] & Hl). unfold strlen in Hl. simpl in Hl. lia.
  - rewrite in_app_iff, !In_unless.
    destruct Hi as [-> | ->]; simpl; rewrite He; split.
    + intros [[Hl _] | [_ E]]; [|vm_compute in E; discriminate E].
      exists (c :: p). repeat split; [discriminate|]. apply Z.leb_gt in Hl. exact Hl.
    + intros (e' & [= <-] & _ & Hl). left. split; [|reflexivity]. apply Z.leb_gt. exact Hl.
    + intros [[_ E] | [Hl _]]; [vm_compute in E; discriminate E|].
      exists (c :: p). split; [reflexivity|]. apply Z.leb_gt in Hl. exact Hl.
    + intros (e' & [= <-] & Hl). right. split; [|reflexivity]. apply Z.leb_gt. exact Hl.
Qed.

Lemma raised_clientName_length data :
  In msg_name_long (check_clientName_length data) <-> raised data NameLong.
Proof.
  unfold check_clientName_length, raised.
  destruct (prop data "clientName") as [| |b|n|s|x];
    try (split; [intros [] | intros (s' & E & _); discriminate E]).
  destruct (Z.leb_spec (strlen (trim s)) 120); simpl.
  - split; [tauto|]. intros (s' & [= <-] & Hl). lia.
  - split; [eauto|auto].
Qed.

(** A message in the list tells the state of the request. *)
Lemma message_raised data i : In (message i) (validateAppointment data) -> raised data i.
Proof.
  intros Hi. apply In_message in Hi. destruct i.
  - now apply raised_serviceId.
  - now apply raised_startAt; auto.
  - now apply raised_startAt; auto.
  - now apply raised_startAt; auto.
  - now apply raised_clientName.
  - now apply raised_contact.
  - now apply raised_clientEmail; auto.
  - now apply raised_clientEmail; auto.
  - now apply raised_clientPhone; auto.
  - now apply raised_clientPhone; auto.
  - now apply raised_clientName_length.
Qed.

(** Each check passes exactly on a valid field. *)
Lemma check_serviceId_nil data :
  check_serviceId data = [] <-> serviceId_valid (prop data "serviceId").
Proof.
  unfold check_serviceId, serviceId_ok, serviceId_valid.
  destruct (prop data "serviceId") as [| |b|[z| |q|b|]|s|x];
    try (split; [discriminate | intros (z' & E & _); discriminate E]).
  destruct (Z.ltb_spec 0 z).
  - split; eauto.
  - split; [discriminate|]. intros (z' & [= <-] & Hz). lia.
Qed.

Lemma check_startAt_nil data : check_startAt data = [] <-> startAt_valid (prop data "startAt").
Proof.
  unfold check_startAt, startAt_valid.
  destruct (prop data "startAt") as [| |b|n|s|x];
    try (split; [discriminate | intros (s' & t & E & _); discriminate E]).
  destruct (validateStartAtMinuteOnly (VString s)) as [e|] eqn:Hv.
  - split; [discriminate|]. intros (s' & t & [= <-] & Hm & Hp).
    assert (Hn : validateStartAtMinuteOnly (VString s) = None)
      by (apply validateStartAtMinuteOnly_None; eauto).
    congruence.
  - apply validateStartAtMinuteOnly_None in Hv as (Hm & t & Hp). split; eauto.
Qed.

Lemma check_clientName_nil data :
  check_clientName data = [] /\ check_clientName_length data = []
  <-> clientName_valid (prop data "clientName").
Proof.
  unfold check_clientName, check_clientName_length, clientName_valid.
  destruct (prop data "clientName") as [| |b|n|s|x];
    try (split; [intros [E _]; discriminate E | intros (s' & E & _); discriminate E]).
  pose proof (strlen_nil_iff (trim s)) as Hz. pose proof (strlen_nonneg (trim s)) as Hp.
  destruct (trim s) as [|c t] eqn:Ht.
  - split; [intros [E _]; discriminate E|]. intros (s' & [= <-] & Hl).
    rewrite Ht in Hl. unfold strlen in Hl. simpl in Hl. lia.
  - destruct (Z.leb_spec (strlen (c :: t)) 120) as [Hl | Hl].
    + split; [|auto]. intros _. exists s. rewrite Ht. split; [reflexivity|].
      split; [|exact Hl]. destruct (Z.eq_dec (strlen (c :: t)) 0) as [E | E]; [|lia].
      apply Hz in E. discriminate E.
    + split; [intros [_ E]; discriminate E|]. intros (s' & [= <-] & Hl').
      rewrite Ht in Hl'. lia.
Qed.

Lemma check_contact_nil data :
  check_contact data = [] <->
  ToBoolean (prop data "clientEmail") = true \/ ToBoolean (prop data "clientPhone") = true.
Proof.
  unfold check_contact.
  destruct (ToBoolean (prop data "clientEmail")), (ToBoolean (prop data "clientPhone")); simpl;
    split; auto; try discriminate. intros [E | E]; discriminate E.
Qed.

Lemma check_clientEmail_nil data :
  check_clientEmail data = [] <-> clientEmail_valid (prop data "clientEmail").
Proof.
  unfold check_clientEmail, clientEmail_valid.
  destruct (prop data "clientEmail") as [| |b|n|[|c e]|x];
    try (split; [intros _ e' E; discriminate E | reflexivity]).
  - split; [|reflexivity]. intros _ e' [= <-] Hne. congruence.
  - destruct (test EMAIL_SHAPE (c :: e)) eqn:Ht, (Z.leb_spec (strlen (c :: e)) 255) as [Hl | Hl];
      simpl; split; try discriminate; try reflexivity.
    + intros _ e' [= <-] _. auto.
    + intros Hv. destruct (Hv _ eq_refl) as [_ Hl']; [discriminate|lia].
    + intros Hv. destruct (Hv _ eq_refl) as [Ht' _]; [discriminate|congruence].
    + intros Hv. destruct (Hv _ eq_refl) as [Ht' _]; [discriminate|congruence].
Qed.

Lemma check_clientPhone_nil data :
  check_clientPhone data = [] <-> clientPhone_valid (prop data "clientPhone").
Proof.
  unfold check_clientPhone, clientPhone_valid.
  destruct (prop data "clientPhone") as [| |b|n|[|c p]|x];
    try (split; [intros _ e' E; discriminate E | reflexivity]).
  - split; [|reflexivity]. intros _ e' [= <-] Hne. congruence.
  - destruct (Z.leb_spec 7 (strlen (c :: p))) as [Hs | Hs],
      (Z.leb_spec (strlen (c :: p)) 40) as [Hl | Hl];
      simpl; split; try discriminate; try reflexivity.
    + intros _ e' [= <-] _. auto.
    + intros Hv. destruct (Hv _ eq_refl) as [_ Hl']; [discriminate|lia].
    + intros Hv. destruct (Hv _ eq_refl) as [Hs' _]; [discriminate|lia].
    + intros Hv. destruct (Hv _ eq_refl) as [Hs' _]; [discriminate|lia].
Qed.

(** A request that passes has passed every check. *)
Lemma validated_checks data :
  validateAppointment data = [] <->
  check_serviceId data = [] /\ check_startAt data = []
  /\ (check_clientName data = [] /\ check_clientName_length data = [])
  /\ check_contact data = [] /\ check_clientEmail data = [] /\ check_clientPhone data = [].
Proof.
  rewrite validateAppointment_checks. split.
  - intros Hv.
    repeat match type of Hv with _ ++ _ = [] => apply app_eq_nil in Hv as [? Hv] end.
    tauto.
  - intros (-> & -> & (-> & ->) & -> & -> & ->). reflexivity.
Qed.

(** The messages of each check, as a part of the list of all messages. *)
Lemma checks_sublist data :
  sublist (check_serviceId data) [msg_service_id]
  /\ sublist (check_startAt data) [msg_start_not_string; msg_start_not_iso; msg_start_not_date]
  /\ sublist (check_clientName data) [msg_name_required]
  /\ sublist (check_contact data) [msg_contact]
  /\ sublist (check_clientEmail data) [msg_email_shape; msg_email_long]
  /\ sublist (check_clientPhone data) [msg_phone_short; msg_phone_long]
  /\ sublist (check_clientName_length data) [msg_name_long].
Proof.
  repeat split.
  - unfold check_serviceId. destruct (serviceId_ok _); repeat constructor.
  - unfold check_startAt, validateStartAtMinuteOnly.
    destruct (prop data "startAt") as [| |b|n|s|x]; try (repeat constructor; fail).
    destruct (test ISO_MINUTE_NO_SECONDS s); simpl;
      [destruct (Date_parse s)|]; repeat constructor.
  - unfold check_clientName.
    destruct (prop data "clientName") as [| |b|n|s|x]; try (repeat constructor; fail).
    destruct (trim s); repeat constructor.
  - unfold check_contact. destruct (_ || _); repeat constructor.
  - unfold check_clientEmail.
    destruct (prop data "clientEmail") as [| |b|n|[|c e]|x]; try (repeat constructor; fail).
    destruct (test EMAIL_SHAPE (c :: e)), (strlen (c :: e) <=? 255); repeat constructor.
  - unfold check_clientPhone.
    destruct (prop data "clientPhone") as [| |b|n|[|c p]|x]; try (repeat constructor; fail).
    destruct (7 <=? strlen (c :: p)), (strlen (c :: p) <=? 40); repeat constructor.
  - unfold check_clientName_length.
    destruct (prop data "clientName") as [| |b|n|s|x]; try (repeat constructor; fail).
    destruct (_ <=? _); repeat constructor.
Qed.

(** How many messages the checks can yield together. *)
Lemma checks_length data :
  (List.length (check_serviceId data) <= 1
   /\ List.length (check_startAt data) <= 1
   /\ List.length (check_clientName data) + List.length (check_clientName_length data) <= 1
   /\ List.length (check_contact data) + List.length (check_clientEmail data)
      + List.length (check_clientPhone data) <= 3)%nat.
Proof.
  repeat split.
  - unfold check_serviceId. destruct (serviceId_ok _); simpl; lia.
  - unfold check_startAt. destruct (validateStartAtMinuteOnly _); simpl; lia.
  - unfold check_clientName, check_clientName_length.
    destruct (prop data "clientName") as [| |b|n|s|x]; simpl; try lia.
    destruct (trim s) as [|c t]; [simpl; lia|]. destruct (_ <=? _); simpl; lia.
  - assert (Hp : (List.length (check_clientPhone data) <= 1)%nat).
    { unfold check_clientPhone.
      destruct (prop data "clientPhone") as [| |bp|np|[|pc p]|xp]; simpl; try lia.
      destruct (Z.leb_spec 7 (strlen (pc :: p))), (Z.leb_spec (strlen (pc :: p)) 40);
        simpl; lia. }
    assert (Hm : (List.length (check_clientEmail data) <= 2)%nat).
    { unfold check_clientEmail.
      destruct (prop data "clientEmail") as [| |be|ne|[|ec e]|xe]; simpl; try lia.
      destruct (test EMAIL_SHAPE (ec :: e)), (strlen (ec :: e) <=? 255); simpl; lia. }
    unfold check_contact.
    destruct (ToBoolean (prop data "clientEmail")) eqn:Te; [simpl; lia|].
    assert (Hm0 : check_clientEmail data = []).
    { unfold check_clientEmail.
      destruct (prop data "clientEmail") as [| |be|ne|[|ec e]|xe]; try reflexivity.
      discriminate Te. }
    rewrite Hm0. destruct (ToBoolean (prop data "clientPhone")); simpl; lia.
Qed.

Lemma NoDup_messages : NoDup (map message issues).
Proof.
  apply NoDup_fmap_2; [intros i j; apply message_inj|].
  unfold issues.
  repeat (apply NoDup_cons_2;
          [rewrite ?elem_of_cons, elem_of_nil; intros Hi; intuition discriminate|]).
  apply NoDup_nil_2.
Qed.

End WithPlatform.
End IssueFacts.
Export IssueFacts.

(** ** The copy [normalizeAppointment] makes, from the fields of the request *)
Module NormalizerFacts.
Section WithPlatform.
Context `{Platform}.

Lemma assign_run k compute o :
  assign k compute o =
  match compute (prop o k) with
  | Ok v => (<[k := v]> o, Ok tt)
  | Throw e => (o, Throw e)
  end.
Proof. reflexivity. Qed.

Lemma then_step_run f g o :
  then_step f g o =
  match f o with
  | (o', Ok _) => g o'
  | (o', Throw e) => (o', Throw e)
  end.
Proof. reflexivity. Qed.

(** A field that is assigned only when truthy: the step, by the value it
    yields. *)
Lemma when_truthy_assign k (convert : jsstring -> jsval) o :
  when_truthy k (assign k (fun v => s ← ToString v; mret (convert s))) o =
  match (if ToBoolean (prop o k) then s ← ToString (prop o k); mret (convert s)
         else mret (prop o k)) with
  | Ok v => (if ToBoolean (prop o k) then <[k := v]> o else o, Ok tt)
  | Throw e => (o, Throw e)
  end.
Proof.
  unfold when_truthy, assign. destruct (ToBoolean (prop o k)); [|reflexivity].
  destruct (ToString (prop o k)); reflexivity.
Qed.

Lemma prop_if_insert (b : bool) (o : gmap string jsval) k v :
  (b = false -> prop o k = v) -> prop (if b then <[k := v]> o else o) k = v.
Proof. destruct b; intros Hv; [apply prop_insert_eq|now apply Hv]. Qed.

Lemma prop_if_insert_ne (b : bool) (o : gmap string jsval) k k' v :
  k <> k' -> prop (if b then <[k := v]> o else o) k' = prop o k'.
Proof. destruct b; intros Hk; [now apply prop_insert_ne|reflexivity]. Qed.

(** The fields [normalizeAppointment] leaves in its copy, each computed
    from the field of the same name in the request. *)
Lemma normalize_fields_normal o :
  match normal_fields o with
  | Ok (name, email, phone, serviceId, startAt) =>
      exists o', normalize_fields o = (o', Ok tt)
        /\ prop o' "clientName" = name /\ prop o' "clientEmail" = email
        /\ prop o' "clientPhone" = phone /\ prop o' "serviceId" = serviceId
        /\ prop o' "startAt" = startAt
  | Throw e => exists o', normalize_fields o = (o', Throw e)
  end.
Proof.
  unfold normal_fields, normalize_fields.
  rewrite then_step_run, assign_run. fold (normal_clientName (prop o "clientName")).
  destruct (normal_clientName (prop o "clientName")) as [name|e]; [|cbn [mbind result_bind]; eauto].
  cbn [mbind result_bind]. set (o1 := <["clientName" := name]> o).
  rewrite then_step_run, when_truthy_assign.
  replace (prop o1 "clientEmail") with (prop o "clientEmail")
    by (unfold o1; now rewrite prop_insert_ne).
  fold (normal_clientEmail (prop o "clientEmail")).
  destruct (normal_clientEmail (prop o "clientEmail")) as [email|e] eqn:He; [|cbn [mbind result_bind]; eauto].
  cbn [mbind result_bind].
  set (o2 := if ToBoolean (prop o "clientEmail") then <["clientEmail" := email]> o1 else o1).
  assert (P2 : prop o2 "clientEmail" = email).
  { apply prop_if_insert. intros Hb. unfold normal_clientEmail in He. rewrite Hb in He.
    injection He as <-. unfold o1. now rewrite prop_insert_ne. }
  rewrite then_step_run, when_truthy_assign.
  replace (prop o2 "clientPhone") with (prop o "clientPhone")
    by (unfold o2, o1; now rewrite prop_if_insert_ne, prop_insert_ne).
  fold (normal_clientPhone (prop o "clientPhone")).
  destruct (normal_clientPhone (prop o "clientPhone")) as [phone|e] eqn:Hp; [|cbn [mbind result_bind]; eauto].
  cbn [mbind result_bind].
  set (o3 := if ToBoolean (prop o "clientPhone") then <["clientPhone" := phone]> o2 else o2).
  assert (P3 : prop o3 "clientPhone" = phone).
  { apply prop_if_insert. intros Hb. unfold normal_clientPhone in Hp. rewrite Hb in Hp.
    injection Hp as <-. unfold o2, o1. now rewrite prop_if_insert_ne, prop_insert_ne. }
  rewrite then_step_run, assign_run.
  replace (prop o3 "serviceId") with (prop o "serviceId")
    by (unfold o3, o2, o1; now rewrite !prop_if_insert_ne, prop_insert_ne).
  fold (normal_serviceId (prop o "serviceId")).
  destruct (normal_serviceId (prop o "serviceId")) as [serviceId|e]; [|cbn [mbind result_bind]; eauto].
  cbn [mbind result_bind]. set (o4 := <["serviceId" := serviceId]> o3).
  rewrite assign_run.
  replace (prop o4 "startAt") with (prop o "startAt")
    by (unfold o4, o3, o2, o1; now rewrite prop_insert_ne, !prop_if_insert_ne, prop_insert_ne).
  fold (normal_startAt (prop o "startAt")).
  destruct (normal_startAt (prop o "startAt")) as [startAt|e]; [|cbn [mbind result_bind]; eauto].
  cbn [mbind result_bind mret result_ret].
  exists (<["startAt" := startAt]> o4). split; [reflexivity|].
  unfold o4. rewrite !prop_insert_ne by discriminate.
  unfold o3 at 1 2. rewrite !prop_if_insert_ne by discriminate.
  unfold o2 at 1. rewrite prop_if_insert_ne by discriminate.
  unfold o1. rewrite !prop_insert_eq. auto.
Qed.

(** The conversions throw on one value only: the object that cannot be
    made a primitive. *)
Lemma ToString_Throw v e : ToString v = Throw e <-> v = VObject None /\ e = TypeError.
Proof.
  destruct v as [| |[]|n|s|[s|]]; simpl; split; try discriminate;
    try (intros [E _]; discriminate E).
  - intros [= <-]. auto.
  - intros [_ ->]. reflexivity.
Qed.

Lemma ToNumber_Throw v e : ToNumber v = Throw e <-> v = VObject None /\ e = TypeError.
Proof.
  destruct v as [| |[]|n|s|[s|]]; simpl; split; try discriminate;
    try (intros [E _]; discriminate E).
  - intros [= <-]. auto.
  - intros [_ ->]. reflexivity.
Qed.

Lemma strlen_slice s n : strlen (slice s 0 n) <= Z.of_nat n.
Proof.
  unfold strlen, slice. rewrite Nat.sub_0_r. change (skipn 0 s) with s.
  pose proof (firstn_le_length n s) as Hl. apply Nat2Z.inj_le in Hl. exact Hl.
Qed.

Lemma normal_clientName_Ok v r :
  normal_clientName v = Ok r ->
  exists s, ToString v = Ok s /\ r = VString (slice (trim s) 0 120).
Proof.
  unfold normal_clientName. destruct (ToString v) as [s|e]; [|discriminate].
  intros [= <-]. eauto.
Qed.

Lemma normal_clientEmail_Ok v r :
  normal_clientEmail v = Ok r ->
  if ToBoolean v
  then exists s, ToString v = Ok s /\ r = VString (slice (toLowerCase (trim s)) 0 255)
  else r = v.
Proof.
  unfold normal_clientEmail. destruct (ToBoolean v).
  - destruct (ToString v) as [s|e]; [|discriminate]. intros [= <-]. eauto.
  - intros [= <-]. reflexivity.
Qed.

Lemma normal_clientPhone_Ok v r :
  normal_clientPhone v = Ok r ->
  if ToBoolean v
  then exists s, ToString v = Ok s /\ r = VString (slice (trim s) 0 40)
  else r = v.
Proof.
  unfold normal_clientPhone. destruct (ToBoolean v).
  - destruct (ToString v) as [s|e]; [|discriminate]. intros [= <-]. eauto.
  - intros [= <-]. reflexivity.
Qed.

Lemma normal_serviceId_Ok v r :
  normal_serviceId v = Ok r -> exists n, ToNumber v = Ok n /\ r = VNumber n.
Proof.
  unfold normal_serviceId. destruct (ToNumber v) as [n|e]; [|discriminate].
  intros [= <-]. eauto.
Qed.

Lemma normal_startAt_Ok v r :
  normal_startAt v = Ok r ->
  exists s t, ToString v = Ok s /\ Date_parse s = Some t
              /\ r = VString (minute_string (t / 60000 * 60000)).
Proof.
  unfold normal_startAt. destruct (ToString v) as [s|e]; [|discriminate].
  cbn [mbind result_bind]. rewrite normalizeToIsoMinuteZ_eq.
  destruct (Date_parse s) as [t|] eqn:Hp; [|discriminate].
  cbn [mbind result_bind mret result_ret]. intros [= <-]. exists s, t. auto.
Qed.

(** Which conversion a thrown error comes from. *)
Lemma normal_fields_Throw o e :
  normal_fields o = Throw e ->
  (e = TypeError
   /\ exists k, In k ["clientName"; "clientEmail"; "clientPhone"; "serviceId"; "startAt"]
                /\ prop o k = VObject None)
  \/ (e = RangeError /\ exists s, ToString (prop o "startAt") = Ok s /\ Date_parse s = None).
Proof.
  unfold normal_fields.
  destruct (normal_clientName (prop o "clientName")) as [name|x] eqn:E1.
  2:{ cbn [mbind result_bind]. intros [= <-]. left. unfold normal_clientName in E1.
      destruct (ToString (prop o "clientName")) as [s|x'] eqn:Hs; [discriminate|].
      injection E1 as <-. apply ToString_Throw in Hs as [Hv ->].
      split; [reflexivity|]. exists "clientName". simpl. auto 10. }
  cbn [mbind result_bind].
  destruct (normal_clientEmail (prop o "clientEmail")) as [email|x] eqn:E2.
  2:{ cbn [mbind result_bind]. intros [= <-]. left. unfold normal_clientEmail in E2.
      destruct (ToBoolean (prop o "clientEmail")); [|discriminate].
      destruct (ToString (prop o "clientEmail")) as [s|x'] eqn:Hs; [discriminate|].
      injection E2 as <-. apply ToString_Throw in Hs as [Hv ->].
      split; [reflexivity|]. exists "clientEmail". simpl. auto 10. }
  cbn [mbind result_bind].
  destruct (normal_clientPhone (prop o "clientPhone")) as [phone|x] eqn:E3.
  2:{ cbn [mbind result_bind]. intros [= <-]. left. unfold normal_clientPhone in E3.
      destruct (ToBoolean (prop o "clientPhone")); [|discriminate].
      destruct (ToString (prop o "clientPhone")) as [s|x'] eqn:Hs; [discriminate|].
      injection E3 as <-. apply ToString_Throw in Hs as [Hv ->].
      split; [reflexivity|]. exists "clientPhone". simpl. auto 10. }
  cbn [mbind result_bind].
  destruct (normal_serviceId (prop o "serviceId")) as [serviceId|x] eqn:E4.
  2:{ cbn [mbind result_bind]. intros [= <-]. left. unfold normal_serviceId in E4.
      destruct (ToNumber (prop o "serviceId")) as [s|x'] eqn:Hs; [discriminate|].
      injection E4 as <-. apply ToNumber_Throw in Hs as [Hv ->].
      split; [reflexivity|]. exists "serviceId". simpl. auto 10. }
  cbn [mbind result_bind].
  destruct (normal_startAt (prop o "startAt")) as [startAt|x] eqn:E5; [discriminate|].
  cbn [mbind result_bind]. intros [= <-]. unfold normal_startAt in E5.
  destruct (ToString (prop o "startAt")) as [s|x'] eqn:Hs.
  - cbn [mbind result_bind] in E5. rewrite normalizeToIsoMinuteZ_eq in E5.
    destruct (Date_parse s) eqn:Hp; [discriminate|]. injection E5 as <-. right. eauto.
  - injection E5 as <-. apply ToString_Throw in Hs as [Hv ->]. left.
    split; [reflexivity|]. exists "startAt". simpl. auto 10.
Qed.

(** The values a completed run has computed. *)
Lemma normal_fields_Ok o name email phone serviceId startAt :
  normal_fields o = Ok (name, email, phone, serviceId, startAt) ->
  normal_clientName (prop o "clientName") = Ok name
  /\ normal_clientEmail (prop o "clientEmail") = Ok email
  /\ normal_clientPhone (prop o "clientPhone") = Ok phone
  /\ normal_serviceId (prop o "serviceId") = Ok serviceId
  /\ normal_startAt (prop o "startAt") = Ok startAt.
Proof.
  unfold normal_fields.
  destruct (normal_clientName _) as [a|x]; [|discriminate]. cbn [mbind result_bind].
  destruct (normal_clientEmail _) as [b|x]; [|discriminate]. cbn [mbind result_bind].
  destruct (normal_clientPhone _) as [c|x]; [|discriminate]. cbn [mbind result_bind].
  destruct (normal_serviceId _) as [d|x]; [|discriminate]. cbn [mbind result_bind].
  destruct (normal_startAt _) as [e|x]; [|discriminate]. cbn [mbind result_bind].
  intros [= <- <- <- <- <-]. auto.
Qed.

(** [normalizeAppointment] on a request found in the heap: the copy it
    returns, or the error it throws. *)
Lemma normalizeAppointment_normal w data o :
  w_heap w !! data = Some o ->
  match normal_fields o with
  | Ok (name, email, phone, serviceId, startAt) =>
      exists o',
        normalizeAppointment data w
        = (at_obj w (fresh (dom (w_heap w))) o', Ok (fresh (dom (w_heap w))))
        /\ normalize_fields o = (o', Ok tt)
        /\ prop o' "clientName" = name /\ prop o' "clientEmail" = email
        /\ prop o' "clientPhone" = phone /\ prop o' "serviceId" = serviceId
        /\ prop o' "startAt" = startAt
  | Throw e =>
      exists o', normalizeAppointment data w = (at_obj w (fresh (dom (w_heap w))) o', Throw e)
  end.
Proof.
  intros Hd. rewrite normalizeAppointment_run, Hd. cbv zeta.
  change (default ∅ (Some o)) with o.
  pose proof (normalize_fields_normal o) as Hn.
  destruct (normal_fields o) as [[[[[name email] phone] serviceId] startAt]|e].
  - destruct Hn as (o' & Hr & Hp). rewrite Hr. exists o'. auto.
  - destruct Hn as (o' & Hr). rewrite Hr. eauto.
Qed.

(** The run completes exactly when no field is the object that cannot be
    converted and the start is a date. *)
Lemma normal_fields_Ok_iff o :
  (exists r, normal_fields o = Ok r) <->
  (forall k, In k ["clientName"; "clientEmail"; "clientPhone"; "serviceId"; "startAt"] ->
             prop o k <> VObject None)
  /\ exists s t, ToString (prop o "startAt") = Ok s /\ Date_parse s = Some t.
Proof.
  split.
  - intros ([[[[name email] phone] serviceId] startAt] & Hr).
    apply normal_fields_Ok in Hr as (H1 & H2 & H3 & H4 & H5).
    split.
    + intros k Hk Hv. simpl in Hk.
      destruct Hk as [<- | [<- | [<- | [<- | [<- | []]]]]]; rewrite Hv in *; discriminate.
    + apply normal_startAt_Ok in H5 as (s & t & Hs & Hp & _). eauto.
  - intros [Hk (s & t & Hs & Hp)].
    destruct (normal_fields o) as [r|e] eqn:Hr; [eauto|exfalso].
    apply normal_fields_Throw in Hr as [(_ & k & Hin & Hv) | (_ & s' & Hs' & Hp')].
    + now apply (Hk k Hin).
    + congruence.
Qed.

(** The fields of the copy of a request that passed validation. *)
Lemma normalize_fields_valid o o' :
  validateAppointment o = [] -> normalize_fields o = (o', Ok tt) ->
  exists name s t,
    prop o' "serviceId" = prop o "serviceId"
    /\ prop o "clientName" = VString name
    /\ prop o' "clientName" = VString (trim name)
    /\ 1 <= strlen (trim name) <= 120
    /\ prop o "startAt" = VString s /\ Date_parse s = Some t
    /\ prop o' "startAt" = VString (minute_string t)
    /\ Date_parse (minute_string t) = Some t
    /\ (forall e, prop o "clientEmail" = VString e -> e <> [] ->
                  prop o' "clientEmail" = VString (slice (toLowerCase e) 0 255))
    /\ (ToBoolean (prop o "clientEmail") = false ->
        prop o' "clientEmail" = prop o "clientEmail")
    /\ (ToBoolean (prop o "clientPhone") = false ->
        prop o' "clientPhone" = prop o "clientPhone").
Proof.
  intros Hv Hn. pose proof (normalize_fields_normal o) as Hr.
  destruct (normal_fields o) as [[[[[name' email] phone] serviceId] startAt]|e] eqn:Hf.
  2:{ destruct Hr as (o1 & Hr). congruence. }
  destruct Hr as (o1 & Hr & P1 & P2 & P3 & P4 & P5).
  rewrite Hr in Hn. injection Hn as ->.
  apply normal_fields_Ok in Hf as (H1 & H2 & H3 & H4 & H5).
  apply validated_checks in Hv as (V1 & V2 & V3 & _ & V5 & _).
  apply check_serviceId_nil in V1 as (z & Ez & Hz).
  apply check_startAt_nil in V2 as (s & t & Es & Hmp & Hp).
  apply check_clientName_nil in V3 as (name & En & Hl).
  apply check_clientEmail_nil in V5.
  pose proof (Date_parse_minute_precision s t Hmp Hp) as Hm. unfold msPerMinute in Hm.
  pose proof (Date_parse_clip s t Hp) as Hc.
  exists name, s, t.
  split; [|split; [exact En|split; [|split; [exact Hl|split; [exact Es|split; [exact Hp|]]]]]].
  - rewrite Ez in *. injection H4 as <-. exact P4.
  - rewrite En in H1. injection H1 as <-. rewrite P1. f_equal. apply slice_all.
    unfold strlen in Hl. lia.
  - rewrite Es in H5. apply normal_startAt_Ok in H5 as (s' & t' & [= <-] & Hp' & ->).
    assert (t' = t) by congruence. subst t'.
    replace (t / 60000 * 60000) with t in P5 by (Z.div_mod_to_equations; lia).
    split; [exact P5|]. split; [now apply Date_parse_minute_string|].
    split; [|split].
    + intros e Ee Hne. destruct (V5 e Ee Hne) as [Ht _]. rewrite Ee in H2.
      unfold normal_clientEmail in H2. destruct e as [|c e]; [congruence|].
      cbn [ToBoolean ToString mbind result_bind mret result_ret] in H2.
      injection H2 as <-. rewrite P2.
      now rewrite (no_white_space_trim _ (EMAIL_SHAPE_no_white_space _ Ht)).
    + intros Hb. unfold normal_clientEmail in H2. rewrite Hb in H2. injection H2 as <-.
      exact P2.
    + intros Hb. unfold normal_clientPhone in H3. rewrite Hb in H3. injection H3 as <-.
      exact P3.
Qed.

(** A run that completes met no field that cannot be converted. *)
Lemma normalize_fields_Ok_convertible o o' :
  normalize_fields o = (o', Ok tt) ->
  forall k, In k ["clientName"; "clientEmail"; "clientPhone"; "serviceId"; "startAt"] ->
            prop o k <> VObject None.
Proof.
  intros Hn. pose proof (normalize_fields_normal o) as Hr.
  destruct (normal_fields o) as [r|e] eqn:Hf.
  - apply (proj1 (normal_fields_Ok_iff o)). eauto.
  - destruct Hr as (o1 & Hr). congruence.
Qed.

Lemma at_obj_lookup w d o : w_heap (at_obj w d o) !! d = Some o.
Proof. apply lookup_insert_eq. Qed.

End WithPlatform.
End NormalizerFacts.
Export NormalizerFacts.

(** ** Every way the handler can go *)
Module HandlerFacts.
Section WithPlatform.
Context `{Platform}.

Lemma length_pos_iff (l : list jsstring) : (0 <? Z.of_nat (List.length l)) = true <-> l <> [].
Proof.
  destruct l as [|x l]; simpl; split; try congruence; try discriminate.
  intros _. apply Z.ltb_lt. lia.
Qed.

(** The end of an appointment that starts on the whole minute [t] named by
    a minute-precision timestamp. *)
Lemma computeEndAt_validated s t :
  minute_precision s -> Date_parse s = Some t ->
  computeEndAt (minute_string t) 60 = Ok (minute_string (t + 3600000)).
Proof.
  intros Hmp Hp.
  pose proof (Date_parse_minute_precision s t Hmp Hp) as Hm.
  pose proof (Date_parse_minute_precision_range s t Hmp Hp) as Hr.
  rewrite computeEndAt_eq, Date_parse_minute_string by (try assumption; lia).
  change (60 * 60000) with 3600000.
  destruct (Z.leb_spec (Z.abs (t + 3600000)) 8640000000000000) as [_|Hl]; [|lia].
  rewrite replace_iso_string_minute; [reflexivity|].
  unfold msPerMinute in *. Z.div_mod_to_equations; lia.
Qed.

Lemma handler_view_rejected grid w o :
  validateAppointment o <> [] ->
  handler_view grid w o = (w, Ok (Json 400 (Errors (validateAppointment o)), None)).
Proof.
  intros Hv. unfold handler_view. cbv zeta.
  apply length_pos_iff in Hv. now rewrite Hv.
Qed.

Lemma handler_view_validated grid w o :
  validateAppointment o = [] -> outcome grid w o (handler_view grid w o).
Proof.
  intros Hv. unfold handler_view. cbv zeta. rewrite Hv. cbn [List.length Z.of_nat Z.ltb Z.compare].
  destruct (normalize_fields_validated o Hv) as
    [(o' & Hn & Hc) | (o' & s & t & Hn & Hs & Hmp & Hp & Hs' & _)]; rewrite Hn.
  - destruct Hc as [[_ Hc] | [_ Hc]]; apply ToString_Throw in Hc as [Hc _].
    + now apply (outcome_forwarded grid w o o' "clientEmail"); auto.
    + now apply (outcome_forwarded grid w o o' "clientPhone"); auto.
  - rewrite Hs'. cbn [as_string].
    pose proof (Date_parse_minute_precision s t Hmp Hp) as Hm.
    pose proof (Date_parse_clip s t Hp) as Hcl.
    rewrite (Date_parse_minute_string t Hcl Hm).
    destruct (match grid with Some enforce => enforce (minute_string t) | None => None end)
      as [gridErr|] eqn:Hg.
    + destruct grid as [enforce|]; [|discriminate].
      now apply (outcome_off_grid _ w o o' s t enforce gridErr).
    + assert (Hg' : match grid with
                    | Some enforce => enforce (minute_string t) = None
                    | None => True
                    end) by (destruct grid; auto).
      destruct (Z.leb_spec t (w_clock w)) as [Hle | Hlt].
      * now apply (outcome_not_future grid w o o' s t).
      * rewrite (computeEndAt_validated s t Hmp Hp).
        now apply (outcome_accepted grid w o o' s t).
Qed.

(** The handler on a request found in the heap. *)
Lemma post_appointments_at grid body w o :
  w_heap w !! body = Some o -> post_appointments grid body w = handler_view grid w o.
Proof. intros Hb. rewrite post_appointments_run, Hb. reflexivity. Qed.

(** The location of the copy holds nothing before the copy is made. *)
Lemma fresh_loc_unused (w : world) : w_heap w !! fresh (dom (w_heap w)) = None.
Proof. apply not_elem_of_dom, is_fresh. Qed.

Lemma at_obj_frame w o l o1 :
  w_heap w !! l = Some o1 -> w_heap (at_obj w (fresh (dom (w_heap w))) o) !! l = Some o1.
Proof.
  intros Hl. unfold at_obj, with_heap. cbn [w_heap].
  rewrite lookup_insert_ne; [exact Hl|].
  intros E. rewrite <- E, fresh_loc_unused in Hl. discriminate Hl.
Qed.

Lemma at_obj_content w d o l :
  w_heap (at_obj w d o) !! l <> None -> w_heap w !! l <> None \/ l = d.
Proof.
  unfold at_obj, with_heap. cbn [w_heap]. destruct (decide (d = l)) as [->|Hne]; [auto|].
  rewrite lookup_insert_ne by exact Hne. auto.
Qed.

End WithPlatform.
End HandlerFacts.
Export HandlerFacts.

(** ** Instants: flooring, adding minutes, the quarter-hour grid *)
Module InstantFacts.
Section WithPlatform.
Context `{Platform}.

(** Two whole minutes in the range of [Date] with the same minute-level
    string are the same instant. *)
Lemma minute_string_inj t1 t2 :
  Z.abs t1 <= 8640000000000000 -> t1 mod msPerMinute = 0 ->
  Z.abs t2 <= 8640000000000000 -> t2 mod msPerMinute = 0 ->
  minute_string t1 = minute_string t2 -> t1 = t2.
Proof.
  intros Hc1 Hm1 Hc2 Hm2 E.
  pose proof (Date_parse_minute_string t1 Hc1 Hm1) as P1.
  pose proof (Date_parse_minute_string t2 Hc2 Hm2) as P2.
  rewrite E in P1. congruence.
Qed.

(** The end of an appointment that starts on a whole minute. *)
Lemma computeEndAt_whole_minute s t d :
  Date_parse s = Some t -> t mod msPerMinute = 0 ->
  computeEndAt s d =
  if Z.abs (t + d * 60000) <=? 8640000000000000
  then Ok (minute_string (t + d * 60000))
  else Throw RangeError.
Proof.
  intros Hp Hm. rewrite computeEndAt_eq, Hp.
  destruct (_ <=? _); [|reflexivity].
  rewrite replace_iso_string_minute; [reflexivity|].
  unfold msPerMinute in *. Z.div_mod_to_equations; lia.
Qed.

Lemma computeEndAt_whole_minute_Ok s t d e :
  Date_parse s = Some t -> t mod msPerMinute = 0 -> computeEndAt s d = Ok e ->
  e = minute_string (t + d * 60000)
  /\ Z.abs (t + d * 60000) <= 8640000000000000
  /\ (t + d * 60000) mod msPerMinute = 0
  /\ Date_parse e = Some (t + d * 60000).
Proof.
  intros Hp Hm. rewrite (computeEndAt_whole_minute s t d Hp Hm).
  destruct (Z.leb_spec (Z.abs (t + d * 60000)) 8640000000000000) as [Hl|]; [|discriminate].
  intros [= <-].
  assert (Hm' : (t + d * 60000) mod msPerMinute = 0)
    by (unfold msPerMinute in *; Z.div_mod_to_equations; lia).
  repeat split; try assumption. now apply Date_parse_minute_string.
Qed.

(** The grid check on any string. *)
Lemma enforceFifteenMinuteGrid_cases s :
  match Date_parse s with
  | Some t =>
      if (t / 60000) mod 15 =? 0 then enforceFifteenMinuteGrid s = None
      else enforceFifteenMinuteGrid s = Some msg_grid
  | None => enforceFifteenMinuteGrid s = Some msg_grid
  end.
Proof.
  unfold enforceFifteenMinuteGrid. destruct (Date_parse s) as [t|]; [|reflexivity].
  cbn [getUTCMinutes]. unfold MinFromTime, msPerMinute.
  assert (Hr : Z.rem ((t / 60000) mod 60) 15 = (t / 60000) mod 15).
  { rewrite Z.rem_mod_nonneg by (Z.div_mod_to_equations; lia).
    Z.div_mod_to_equations; lia. }
  rewrite Hr. destruct (_ =? _); reflexivity.
Qed.

(** A normalized timestamp carries its seconds, so it is no
    minute-precision timestamp: the lengths differ. *)
Lemma minute_precision_length s :
  minute_precision s -> List.length s = 17%nat \/ List.length s = 22%nat.
Proof.
  intros Hs. inversion Hs as [dt off Hdt Hoff E]. rewrite length_app.
  rewrite (date_time_minutes_length dt Hdt).
  inversion Hoff as [|sign hh mm _ [Hh _] [Hm _]]; [left; reflexivity|right].
  cbn [List.length]. rewrite !length_app, Hh, Hm. reflexivity.
Qed.

Lemma minute_string_length t :
  List.length (minute_string t) = 20%nat \/ List.length (minute_string t) = 23%nat.
Proof.
  unfold minute_string, minute_prefix. rewrite !length_app.
  rewrite !(proj1 (pad_digits 2 _)). unfold year_string.
  destruct (_ && _).
  - left. rewrite (proj1 (pad_digits 4 _)). reflexivity.
  - right. rewrite length_app, (proj1 (pad_digits 6 _)). destruct (0 <=? _); reflexivity.
Qed.

Lemma minute_string_not_minute_precision t : ~ minute_precision (minute_string t).
Proof.
  intros Hm. apply minute_precision_length in Hm.
  pose proof (minute_string_length t). lia.
Qed.

End WithPlatform.
End InstantFacts.
Export InstantFacts.

(** * Further properties of the code *)

Section Further.
Context `{Platform}.

(** X1. The email expression accepts exactly the strings [local@domain.tld]
    whose three parts are not empty and hold neither white space nor
    [@]. *)
Theorem EMAIL_SHAPE_accepts_iff (s : jsstring) :
  test EMAIL_SHAPE s = true <->
  exists loc dom tld,
    s = loc ++ js "@" ++ dom ++ js "." ++ tld
    /\ email_part loc /\ email_part dom /\ email_part tld.
Proof. rewrite test_Matches. apply Matches_EMAIL_SHAPE. Qed.

(** X2. An address the expression accepts holds exactly one [@], no white
    space (so [trim] leaves it as it is) and five code units at least. *)
Theorem accepted_email_has_one_at_and_no_space (s : jsstring) :
  test EMAIL_SHAPE s = true ->
  count_occ N.eq_dec s 64%N = 1%nat /\ no_white_space s /\ trim s = s /\ 5 <= strlen s.
Proof.
  intros Hs. split; [now apply EMAIL_SHAPE_count_at|].
  split; [now apply EMAIL_SHAPE_no_white_space|].
  split; [now apply no_white_space_trim, EMAIL_SHAPE_no_white_space|].
  apply test_Matches, Matches_EMAIL_SHAPE in Hs as (a & b & c & -> & Ha & Hb & Hc).
  apply email_part_length in Ha, Hb, Hc. unfold strlen in *.
  rewrite !length_app. simpl. lia.
Qed.

(** X3. For each of the eleven messages of [validateAppointment], the
    message is in the returned list exactly when the request is in the
    state that raises it: [serviceId] is not a positive integer number;
    [startAt] is no string, or a string that is not of minute precision, or
    one of minute precision that is no date; [clientName] is no string or
    blank once trimmed; neither contact field is truthy; the email is a
    non-empty string that the expression rejects, or a string longer than
    255; the phone is a non-empty string shorter than 7, or a string longer
    than 40; the trimmed name is longer than 120. *)
Theorem validateAppointment_reports_iff (data : gmap string jsval) (i : issue) :
  In (message i) (validateAppointment data) <-> raised data i.
Proof.
  rewrite In_message. destruct i.
  - apply raised_serviceId.
  - apply raised_startAt; auto.
  - apply raised_startAt; auto.
  - apply raised_startAt; auto.
  - apply raised_clientName.
  - apply raised_contact.
  - apply raised_clientEmail; auto.
  - apply raised_clientEmail; auto.
  - apply raised_clientPhone; auto.
  - apply raised_clientPhone; auto.
  - apply raised_clientName_length.
Qed.

(** X4. [validateAppointment] returns the empty list exactly when
    [serviceId] is a positive integer number, [startAt] a minute-precision
    timestamp that is a date, [clientName] a string of 1 to 120 code units
    once trimmed, one of the contact fields truthy, the email (when a
    non-empty string) of the accepted shape and at most 255 long, and the
    phone (when a non-empty string) 7 to 40 long. *)
Theorem validateAppointment_passes_iff (data : gmap string jsval) :
  validateAppointment data = [] <->
  serviceId_valid (prop data "serviceId")
  /\ startAt_valid (prop data "startAt")
  /\ clientName_valid (prop data "clientName")
  /\ (ToBoolean (prop data "clientEmail") = true \/ ToBoolean (prop data "clientPhone") = true)
  /\ clientEmail_valid (prop data "clientEmail")
  /\ clientPhone_valid (prop data "clientPhone").
Proof.
  rewrite validated_checks.
  rewrite check_serviceId_nil, check_startAt_nil, check_clientName_nil, check_contact_nil,
    check_clientEmail_nil, check_clientPhone_nil.
  reflexivity.
Qed.

(** X5. The list [validateAppointment] returns is a sub-list of the eleven
    messages in the order of the statements, holds no message twice and six
    at most; the two messages on the name never come together, nor do the
    two on the phone; the contact message excludes every email and phone
    message; of the three [startAt] messages at most one is present. *)
Theorem validateAppointment_messages_ordered_and_exclusive (data : gmap string jsval) :
  sublist (validateAppointment data) (map message issues)
  /\ NoDup (validateAppointment data)
  /\ (List.length (validateAppointment data) <= 6)%nat
  /\ ~ (In msg_name_required (validateAppointment data)
        /\ In msg_name_long (validateAppointment data))
  /\ ~ (In msg_phone_short (validateAppointment data)
        /\ In msg_phone_long (validateAppointment data))
  /\ (In msg_contact (validateAppointment data) ->
      forall i, i = EmailShape \/ i = EmailLong \/ i = PhoneShort \/ i = PhoneLong ->
                ~ In (message i) (validateAppointment data))
  /\ (forall i j, In i [StartNotString; StartNotIso; StartNotDate] ->
                  In j [StartNotString; StartNotIso; StartNotDate] ->
                  In (message i) (validateAppointment data) ->
                  In (message j) (validateAppointment data) -> i = j).
Proof.
  assert (Hsub : sublist (validateAppointment data) (map message issues)).
  { rewrite validateAppointment_checks.
    destruct (checks_sublist data) as (H1 & H2 & H3 & H4 & H5 & H6 & H7).
    change (map message issues)
      with ([msg_service_id] ++ [msg_start_not_string; msg_start_not_iso; msg_start_not_date]
            ++ [msg_name_required] ++ [msg_contact] ++ [msg_email_shape; msg_email_long]
            ++ [msg_phone_short; msg_phone_long] ++ [msg_name_long]).
    repeat apply sublist_app; assumption. }
  split; [exact Hsub|]. split; [eapply sublist_NoDup; [exact NoDup_messages|exact Hsub]|].
  split; [|split; [|split; [|split]]].
  - rewrite validateAppointment_checks. rewrite !length_app.
    pose proof (checks_length data). lia.
  - intros [H1 H2].
    apply (message_raised data NameRequired) in H1.
    apply (message_raised data NameLong) in H2.
    simpl in H1, H2. destruct H2 as (s & Hs & Hl). rewrite (H1 s Hs) in Hl.
    unfold strlen in Hl. simpl in Hl. lia.
  - intros [H1 H2].
    apply (message_raised data PhoneShort) in H1.
    apply (message_raised data PhoneLong) in H2.
    simpl in H1, H2. destruct H1 as (p & Hp & _ & Hs), H2 as (p' & Hp' & Hl).
    rewrite Hp in Hp'. injection Hp' as <-. lia.
  - intros Hc i Hi Hin.
    apply (message_raised data Contact) in Hc.
    apply message_raised in Hin. destruct Hc as [He Hp].
    destruct Hi as [-> | [-> | [-> | ->]]]; simpl in Hin.
    + destruct Hin as (e & E & Hne & _). rewrite E in He. destruct e; [congruence|discriminate].
    + destruct Hin as (e & E & Hl). rewrite E in He.
      destruct e; [unfold strlen in Hl; simpl in Hl; lia|discriminate].
    + destruct Hin as (e & E & Hne & _). rewrite E in Hp. destruct e; [congruence|discriminate].
    + destruct Hin as (e & E & Hl). rewrite E in Hp.
      destruct e; [unfold strlen in Hl; simpl in Hl; lia|discriminate].
  - intros i j Hi Hj Hini Hinj.
    apply message_raised in Hini, Hinj.
    simpl in Hi, Hj.
    destruct Hi as [<- | [<- | [<- | []]]], Hj as [<- | [<- | [<- | []]]];
      try reflexivity; exfalso; simpl in Hini, Hinj.
    + destruct Hinj as (s & E & _). rewrite E in Hini. now apply Hini.
    + destruct Hinj as (s & E & _). rewrite E in Hini. now apply Hini.
    + destruct Hini as (s & E & _). rewrite E in Hinj. now apply Hinj.
    + destruct Hini as (s & E & Hn), Hinj as (s' & E' & Hm & _).
      rewrite E in E'. injection E' as <-. now apply Hn.
    + destruct Hini as (s & E & _). rewrite E in Hinj. now apply Hinj.
    + destruct Hinj as (s & E & Hn), Hini as (s' & E' & Hm & _).
      rewrite E in E'. injection E' as <-. now apply Hn.
Qed.

(** X6. Whatever the request holds, the copy [normalizeAppointment] returns
    has a name of at most 120 code units, an email of at most 255 and a
    phone of at most 40 where the request held a truthy one, a number for
    [serviceId], and for [startAt] the minute-level UTC string of a whole
    minute that reads back as that minute. *)
Theorem normalizeAppointment_caps_every_field (w w' : world) (data d : loc)
    (o : gmap string jsval) :
  w_heap w !! data = Some o ->
  normalizeAppointment data w = (w', Ok d) ->
  exists o',
    w_heap w' !! d = Some o'
    /\ (exists n, prop o' "clientName" = VString n /\ strlen n <= 120)
    /\ (if ToBoolean (prop o "clientEmail")
        then exists e, prop o' "clientEmail" = VString e /\ strlen e <= 255
        else prop o' "clientEmail" = prop o "clientEmail")
    /\ (if ToBoolean (prop o "clientPhone")
        then exists p, prop o' "clientPhone" = VString p /\ strlen p <= 40
        else prop o' "clientPhone" = prop o "clientPhone")
    /\ (exists n, prop o' "serviceId" = VNumber n)
    /\ (exists t, prop o' "startAt" = VString (minute_string t)
                  /\ t mod 60000 = 0 /\ Date_parse (minute_string t) = Some t).
Proof.
  intros Hd Hn. pose proof (normalizeAppointment_normal w data o Hd) as Hr.
  destruct (normal_fields o) as [[[[[name email] phone] serviceId] startAt]|e] eqn:Hf.
  2:{ destruct Hr as (o' & Hr). congruence. }
  destruct Hr as (o' & Hr & _ & P1 & P2 & P3 & P4 & P5).
  rewrite Hr in Hn. injection Hn as <- <-.
  apply normal_fields_Ok in Hf as (H1 & H2 & H3 & H4 & H5).
  exists o'. split; [apply at_obj_lookup|].
  split; [|split; [|split; [|split]]].
  - apply normal_clientName_Ok in H1 as (s & _ & ->). exists (slice (trim s) 0 120).
    split; [exact P1|apply (strlen_slice _ 120)].
  - apply normal_clientEmail_Ok in H2. destruct (ToBoolean (prop o "clientEmail")).
    + destruct H2 as (s & _ & ->). eexists. split; [exact P2|apply (strlen_slice _ 255)].
    + congruence.
  - apply normal_clientPhone_Ok in H3. destruct (ToBoolean (prop o "clientPhone")).
    + destruct H3 as (s & _ & ->). eexists. split; [exact P3|apply (strlen_slice _ 40)].
    + congruence.
  - apply normal_serviceId_Ok in H4 as (n & _ & ->). eauto.
  - apply normal_startAt_Ok in H5 as (s & t & _ & Hp & ->).
    apply Date_parse_clip in Hp.
    assert (Hm : (t / 60000 * 60000) mod 60000 = 0) by (Z.div_mod_to_equations; lia).
    exists (t / 60000 * 60000). split; [exact P5|]. split; [exact Hm|].
    apply Date_parse_minute_string; [Z.div_mod_to_equations; lia|exact Hm].
Qed.

(** X7. [normalizeAppointment] returns exactly when none of the five fields
    is an object that cannot be converted to a primitive and the string of
    [startAt] is a date; a TypeError comes from such a field, a RangeError
    from a start that is no date. *)
Theorem normalizeAppointment_returns_iff (w : world) (data : loc) (o : gmap string jsval) :
  w_heap w !! data = Some o ->
  ((exists w' d, normalizeAppointment data w = (w', Ok d)) <->
   (forall k, In k ["clientName"; "clientEmail"; "clientPhone"; "serviceId"; "startAt"] ->
              prop o k <> VObject None)
   /\ exists s t, ToString (prop o "startAt") = Ok s /\ Date_parse s = Some t)
  /\ (forall w' e, normalizeAppointment data w = (w', Throw e) ->
      (e = TypeError
       /\ exists k, In k ["clientName"; "clientEmail"; "clientPhone"; "serviceId"; "startAt"]
                    /\ prop o k = VObject None)
      \/ (e = RangeError
          /\ exists s, ToString (prop o "startAt") = Ok s /\ Date_parse s = None)).
Proof.
  intros Hd. pose proof (normalizeAppointment_normal w data o Hd) as Hr.
  rewrite <- normal_fields_Ok_iff. split; [split|].
  - intros (w' & d & Hn).
    destruct (normal_fields o) as [r|e]; [eauto|]. destruct Hr as (o' & Hr). congruence.
  - intros ([[[[name email] phone] serviceId] startAt] & Hf). rewrite Hf in Hr.
    destruct Hr as (o' & Hr & _). eauto.
  - intros w' e Hn.
    destruct (normal_fields o) as [[[[[name email] phone] serviceId] startAt]|e'] eqn:Hf.
    + destruct Hr as (o' & Hr & _). congruence.
    + destruct Hr as (o' & Hr). rewrite Hr in Hn. injection Hn as _ <-.
      now apply normal_fields_Throw.
Qed.

(** X8. On a request that passed validation, the copy holds the same
    [serviceId], the trimmed name in full, the minute-level UTC string of
    the very instant the request named, and the email in lower case. *)
Theorem validated_request_normal_form (w w' : world) (data d : loc) (o : gmap string jsval) :
  w_heap w !! data = Some o ->
  validateAppointment o = [] ->
  normalizeAppointment data w = (w', Ok d) ->
  exists o' name s t,
    w_heap w' !! d = Some o'
    /\ prop o' "serviceId" = prop o "serviceId"
    /\ prop o "clientName" = VString name
    /\ prop o' "clientName" = VString (trim name)
    /\ 1 <= strlen (trim name) <= 120
    /\ prop o "startAt" = VString s /\ Date_parse s = Some t
    /\ prop o' "startAt" = VString (minute_string t)
    /\ Date_parse (minute_string t) = Some t
    /\ (forall e, prop o "clientEmail" = VString e -> e <> [] ->
                  prop o' "clientEmail" = VString (slice (toLowerCase e) 0 255))
    /\ (ToBoolean (prop o "clientEmail") = false ->
        prop o' "clientEmail" = prop o "clientEmail").
Proof.
  intros Hd Hv Hn. pose proof (normalizeAppointment_normal w data o Hd) as Hr.
  destruct (normal_fields o) as [[[[[name' email] phone] serviceId] startAt]|e].
  2:{ destruct Hr as (o' & Hr). congruence. }
  destruct Hr as (o' & Hr & Hf & _).
  rewrite Hr in Hn. injection Hn as <- <-.
  destruct (normalize_fields_valid o o' Hv Hf)
    as (name & s & t & P4 & En & P1 & Hl & Es & Hp & P5 & Hp' & He & Hb & _).
  exists o', name, s, t. split; [apply at_obj_lookup|]. auto 15.
Qed.

(** X9. A request that fails validation is answered 400 with the whole list
    of messages, and nothing else happens: no copy is made and no
    identifier is drawn. *)
Theorem invalid_request_gets_every_message (grid : option (jsstring -> option jsstring))
    (w : world) (body : loc) (o : gmap string jsval) :
  w_heap w !! body = Some o ->
  validateAppointment o <> [] ->
  post_appointments grid body w = (w, Ok (Json 400 (Errors (validateAppointment o)), None)).
Proof.
  intros Hb Hv. rewrite (post_appointments_at grid body w o Hb).
  now apply handler_view_rejected.
Qed.

(** X10. The handler answers 202 exactly when the request passes validation,
    neither contact field is an object that cannot be converted, the grid
    check (when wired in) passes the normalized start, and the start lies
    strictly after the clock. *)
Theorem post_appointments_accepts_iff (grid : option (jsstring -> option jsstring))
    (w : world) (body : loc) (o : gmap string jsval) :
  w_heap w !! body = Some o ->
  (exists w' b r, post_appointments grid body w = (w', Ok (Json 202 b, r)))
  <-> validateAppointment o = []
      /\ prop o "clientEmail" <> VObject None
      /\ prop o "clientPhone" <> VObject None
      /\ exists s t,
           prop o "startAt" = VString s /\ Date_parse s = Some t
           /\ match grid with
              | Some enforce => enforce (minute_string t) = None
              | None => True
              end
           /\ w_clock w < t.
Proof.
  intros Hb. rewrite (post_appointments_at grid body w o Hb). split.
  - intros (w' & b & r & Hr).
    destruct (validateAppointment o) as [|m errs] eqn:Hv.
    2:{ rewrite handler_view_rejected in Hr by (rewrite Hv; discriminate). discriminate Hr. }
    pose proof (handler_view_validated grid w o Hv) as Ho. rewrite Hr in Ho.
    inversion Ho as [| | |o' s t Hn Hs Hmp Hp Hs' Hg Hlt]; subst.
    pose proof (normalize_fields_Ok_convertible o o' Hn) as Hc.
    split; [reflexivity|]. split; [apply Hc; simpl; auto|]. split; [apply Hc; simpl; auto|].
    exists s, t. auto.
  - intros (Hv & He & Hp & s & t & Hs & Ht & Hg & Hlt).
    pose proof (handler_view_validated grid w o Hv) as Ho.
    inversion Ho as [o' k Hn Hk Hko | o' s' t' enforce gridErr Hn Hs' Hmp Ht' Hso Hge Hgr
                     | o' s' t' Hn Hs' Hmp Ht' Hso Hg' Hle | o' s' t' Hn Hs' Hmp Ht' Hso Hg' Hl'].
    + exfalso. destruct Hk as [-> | ->]; contradiction.
    + exfalso. rewrite Hs in Hs'. injection Hs' as <-. rewrite Ht in Ht'. injection Ht' as <-.
      subst grid. congruence.
    + exfalso. rewrite Hs in Hs'. injection Hs' as <-. rewrite Ht in Ht'. injection Ht' as <-.
      lia.
    + unfold accepted_reply. eauto.
Qed.

(** X11. What an accepted request leaves behind: the three identifiers are
    the next three of the source, in the order id, confirm token, cancel
    token; the record is pending, starts at the instant the request named
    and ends 60 minutes later; the name is the trimmed one and the contact
    fields are never [undefined]. *)
Theorem accepted_request_record (grid : option (jsstring -> option jsstring))
    (w w' : world) (body : loc) (o : gmap string jsval) (b : App.body)
    (r : option AppointmentRecord) :
  w_heap w !! body = Some o ->
  post_appointments grid body w = (w', Ok (Json 202 b, r)) ->
  exists rec name s t,
    r = Some rec
    /\ b = Received msg_received (r_id rec) (r_confirmToken rec) (r_cancelToken rec)
    /\ r_id rec = w_uuid w (w_drawn w)
    /\ r_confirmToken rec = w_uuid w (S (w_drawn w))
    /\ r_cancelToken rec = w_uuid w (S (S (w_drawn w)))
    /\ w_drawn w' = S (S (S (w_drawn w)))
    /\ r_status rec = js "pending"
    /\ prop o "startAt" = VString s /\ Date_parse s = Some t
    /\ r_startAt rec = minute_string t
    /\ r_endAt rec = minute_string (t + 3600000)
    /\ Date_parse (r_endAt rec) = Some (t + 3600000)
    /\ r_serviceId rec = prop o "serviceId"
    /\ prop o "clientName" = VString name
    /\ r_clientName rec = VString (trim name)
    /\ r_clientEmail rec <> VUndefined
    /\ r_clientPhone rec <> VUndefined.
Proof.
  intros Hb Hr. rewrite (post_appointments_at grid body w o Hb) in Hr.
  destruct (validateAppointment o) as [|m errs] eqn:Hv.
  2:{ rewrite handler_view_rejected in Hr by (rewrite Hv; discriminate). discriminate Hr. }
  pose proof (handler_view_validated grid w o Hv) as Ho. rewrite Hr in Ho.
  inversion Ho as [| | |o' s t Hn Hs Hmp Hp Hs' Hg Hlt]; subst.
  destruct (normalize_fields_valid o o' Hv Hn)
    as (name & s1 & t1 & P4 & En & P1 & Hl & Es & Hp1 & P5 & Hp' & _).
  rewrite Hs in Es. injection Es as <-. rewrite Hp in Hp1. injection Hp1 as <-.
  pose proof (Date_parse_minute_precision s t Hmp Hp) as Hm.
  pose proof (Date_parse_minute_precision_range s t Hmp Hp) as Hrg.
  exists (prepared_record w o' (minute_string (t + 3600000))), name, s, t.
  cbn [prepared_record r_id r_confirmToken r_cancelToken r_status r_startAt r_endAt
       r_serviceId r_clientName r_clientEmail r_clientPhone].
  rewrite P5, P4, P1. cbn [as_string].
  repeat split; try assumption; try reflexivity.
  - apply Date_parse_minute_string; [lia|].
    unfold msPerMinute in *. Z.div_mod_to_equations; lia.
  - destruct (prop o' "clientEmail"); discriminate.
  - destruct (prop o' "clientPhone"); discriminate.
Qed.

(** X12. The only error the handler hands to [next] is a TypeError, on a
    request that passed validation and whose email or phone is an object
    that cannot be converted to a string. *)
Theorem forwarded_error_is_a_contact_TypeError (grid : option (jsstring -> option jsstring))
    (w w' : world) (body : loc) (o : gmap string jsval) (e : exn)
    (r : option AppointmentRecord) :
  w_heap w !! body = Some o ->
  post_appointments grid body w = (w', Ok (Next e, r)) ->
  e = TypeError /\ r = None /\ validateAppointment o = []
  /\ exists k, (k = "clientEmail" \/ k = "clientPhone") /\ prop o k = VObject None.
Proof.
  intros Hb Hr. rewrite (post_appointments_at grid body w o Hb) in Hr.
  destruct (validateAppointment o) as [|m errs] eqn:Hv.
  2:{ rewrite handler_view_rejected in Hr by (rewrite Hv; discriminate). discriminate Hr. }
  pose proof (handler_view_validated grid w o Hv) as Ho. rewrite Hr in Ho.
  inversion Ho as [o' k Hn Hk Hko | | |]; subst. eauto 10.
Qed.

(** X13. The handler itself never throws, and its reply is one of three: 400
    with a list of messages that is not empty and no record, the
    acceptance with a record, or a TypeError handed on without one. *)
Theorem post_appointments_replies (grid : option (jsstring -> option jsstring))
    (w : world) (body : loc) :
  exists w' rep rec,
    post_appointments grid body w = (w', Ok (rep, rec))
    /\ ((exists errs, rep = Json 400 (Errors errs) /\ errs <> [] /\ rec = None)
        \/ (rep = accepted_reply w /\ rec <> None)
        \/ (rep = Next TypeError /\ rec = None)).
Proof.
  rewrite post_appointments_run. set (o := default ∅ (w_heap w !! body)).
  destruct (validateAppointment o) as [|m errs] eqn:Hv.
  - pose proof (handler_view_validated grid w o Hv) as Ho.
    inversion Ho; do 3 eexists; (split; [reflexivity|]).
    + do 2 right. auto.
    + left. eexists. split; [reflexivity|]. split; [discriminate|reflexivity].
    + left. eexists. split; [reflexivity|]. split; [discriminate|reflexivity].
    + right; left. split; [reflexivity|discriminate].
  - rewrite handler_view_rejected by (rewrite Hv; discriminate).
    do 3 eexists. split; [reflexivity|]. left. eexists.
    split; [reflexivity|]. rewrite Hv. split; [discriminate|reflexivity].
Qed.

(** X14. Whatever the reply, the handler leaves every object of the heap as
    it was (the request body among them), adds at most the one copy, leaves
    the clock and the source of identifiers alone, and draws three
    identifiers exactly when it accepts and none otherwise. *)
Theorem post_appointments_frame (grid : option (jsstring -> option jsstring))
    (w : world) (body : loc) :
  (forall l o1, w_heap w !! l = Some o1 ->
                w_heap (fst (post_appointments grid body w)) !! l = Some o1)
  /\ (forall l, w_heap (fst (post_appointments grid body w)) !! l <> None ->
                w_heap w !! l <> None \/ l = fresh (dom (w_heap w)))
  /\ w_clock (fst (post_appointments grid body w)) = w_clock w
  /\ w_uuid (fst (post_appointments grid body w)) = w_uuid w
  /\ ((exists b rec, snd (post_appointments grid body w) = Ok (Json 202 b, rec)) ->
      w_drawn (fst (post_appointments grid body w)) = S (S (S (w_drawn w))))
  /\ ((forall b rec, snd (post_appointments grid body w) <> Ok (Json 202 b, rec)) ->
      w_drawn (fst (post_appointments grid body w)) = w_drawn w).
Proof.
  rewrite post_appointments_run. set (o := default ∅ (w_heap w !! body)).
  destruct (validateAppointment o) as [|m errs] eqn:Hv.
  - pose proof (handler_view_validated grid w o Hv) as Ho.
    inversion Ho as [o' k Hn Hk Hko | o' s' t' enforce gridErr Hn Hs' Hmp Ht' Hso Hge Hgr
                     | o' s' t' Hn Hs' Hmp Ht' Hso Hg' Hle | o' s' t' Hn Hs' Hmp Ht' Hso Hg' Hl'];
      cbn [fst snd];
      (split; [intros l o1; apply at_obj_frame|]);
      (split; [intros l; apply at_obj_content|]);
      (split; [reflexivity|]); (split; [reflexivity|]).
    1-3: split; [intros (b & rec & E); discriminate E|reflexivity].
    split; [reflexivity|]. intros Hne. exfalso. eapply Hne. reflexivity.
  - rewrite handler_view_rejected by (rewrite Hv; discriminate). cbn [fst snd].
    split; [auto|]. split; [auto|]. split; [reflexivity|]. split; [reflexivity|].
    split; [intros (b & rec & E); discriminate E|reflexivity].
Qed.

(** X15. [normalizeToIsoMinuteZ] rounds down to the whole minute: for a
    string that is a date at instant [t] it returns the minute-level UTC
    string of the last whole minute at or before [t] (also before 1970),
    which reads back as that minute; for a string that is no date it throws
    a RangeError. *)
Theorem normalizeToIsoMinuteZ_floors_to_the_minute (s : jsstring) :
  (forall t, Date_parse s = Some t ->
     exists t', normalizeToIsoMinuteZ s = Ok (minute_string t')
                /\ Date_parse (minute_string t') = Some t'
                /\ t' mod 60000 = 0 /\ t' <= t < t' + 60000)
  /\ (Date_parse s = None -> normalizeToIsoMinuteZ s = Throw RangeError).
Proof.
  rewrite normalizeToIsoMinuteZ_eq. split.
  - intros t Hp. rewrite Hp. apply Date_parse_clip in Hp.
    assert (Hm : (t / 60000 * 60000) mod 60000 = 0) by (Z.div_mod_to_equations; lia).
    exists (t / 60000 * 60000). split; [reflexivity|].
    split; [apply Date_parse_minute_string; [Z.div_mod_to_equations; lia|exact Hm]|].
    split; [exact Hm|]. Z.div_mod_to_equations; lia.
  - intros ->. reflexivity.
Qed.

(** X16. Two strings that are dates normalize to the same string exactly
    when their instants fall in the same minute, whatever offsets they
    were written with. *)
Theorem normalizeToIsoMinuteZ_same_minute_iff (s1 s2 : jsstring) (t1 t2 : Z) :
  Date_parse s1 = Some t1 -> Date_parse s2 = Some t2 ->
  normalizeToIsoMinuteZ s1 = normalizeToIsoMinuteZ s2 <-> t1 / 60000 = t2 / 60000.
Proof.
  intros H1 H2. rewrite !normalizeToIsoMinuteZ_eq, H1, H2.
  apply Date_parse_clip in H1, H2. split.
  - intros [= E]. apply minute_string_inj in E;
      unfold msPerMinute; try (Z.div_mod_to_equations; lia).
  - intros ->. reflexivity.
Qed.

(** X17. [computeEndAt] throws only a RangeError, and exactly when the start
    is no date or the end falls outside the range of [Date]. *)
Theorem computeEndAt_throws_iff (s : jsstring) (durationMin : Z) (e : exn) :
  computeEndAt s durationMin = Throw e <->
  e = RangeError
  /\ (Date_parse s = None
      \/ exists t, Date_parse s = Some t
                   /\ 8640000000000000 < Z.abs (t + durationMin * 60000)).
Proof.
  rewrite computeEndAt_eq. destruct (Date_parse s) as [t|].
  - destruct (Z.leb_spec (Z.abs (t + durationMin * 60000)) 8640000000000000) as [Hl | Hl].
    + split; [discriminate|]. intros [_ [E | (t' & [= <-] & Hg)]]; [discriminate E|lia].
    + split.
      * intros [= <-]. split; [reflexivity|]. right. eauto.
      * intros [-> _]. reflexivity.
  - split.
    + intros [= <-]. auto.
    + intros [-> _]. reflexivity.
Qed.

(** X18. On a normalized start, [computeEndAt] adds whole minutes: the end is
    the normalized string of the instant [durationMin] minutes later,
    adding 0 minutes returns the start itself, and adding [b] minutes to
    the end is adding them to the duration. *)
Theorem computeEndAt_adds_minutes (s0 s e : jsstring) (a b : Z) :
  normalizeToIsoMinuteZ s0 = Ok s ->
  computeEndAt s a = Ok e ->
  exists t,
    Date_parse s = Some t
    /\ Date_parse e = Some (t + a * 60000)
    /\ normalizeToIsoMinuteZ e = Ok e
    /\ computeEndAt s 0 = Ok s
    /\ computeEndAt e b = computeEndAt s (a + b).
Proof.
  intros Hn He. apply normalizeToIsoMinuteZ_Ok in Hn as (t & -> & Hc & Hm & Hp).
  destruct (computeEndAt_whole_minute_Ok _ t a e Hp Hm He) as (-> & Hc' & Hm' & Hp').
  exists t. split; [exact Hp|]. split; [exact Hp'|]. split; [|split].
  - rewrite normalizeToIsoMinuteZ_eq, Hp'. do 2 f_equal.
    unfold msPerMinute in Hm'. Z.div_mod_to_equations; lia.
  - rewrite (computeEndAt_whole_minute _ t 0 Hp Hm).
    replace (t + 0 * 60000) with t by lia.
    destruct (Z.leb_spec (Z.abs t) 8640000000000000); [reflexivity|lia].
  - rewrite (computeEndAt_whole_minute _ _ b Hp' Hm'), (computeEndAt_whole_minute _ t (a + b) Hp Hm).
    replace (t + a * 60000 + b * 60000) with (t + (a + b) * 60000) by lia. reflexivity.
Qed.

(** X19. The grid check passes a string exactly when it is a date whose
    minute count is a multiple of 15; for every other string, one that is
    no date included, it returns its one message. *)
Theorem enforceFifteenMinuteGrid_passes_iff (s : jsstring) :
  (enforceFifteenMinuteGrid s = None <->
   exists t, Date_parse s = Some t /\ (t / 60000) mod 15 = 0)
  /\ (enforceFifteenMinuteGrid s = None \/ enforceFifteenMinuteGrid s = Some msg_grid).
Proof.
  pose proof (enforceFifteenMinuteGrid_cases s) as Hc.
  destruct (Date_parse s) as [t|].
  - destruct (Z.eqb_spec ((t / 60000) mod 15) 0) as [Hz | Hz]; rewrite Hc.
    + split; [|auto]. split; eauto.
    + split; [|auto]. split; [discriminate|]. intros (t' & [= <-] & Hz'). contradiction.
  - rewrite Hc. split; [|auto]. split; [discriminate|]. intros (t' & E & _). discriminate E.
Qed.

(** X20. A start on the quarter-hour grid stays on it under any duration that
    is a multiple of 15 minutes, the handler's 60 among them. *)
Theorem grid_kept_by_quarter_hours (s0 s e : jsstring) (k : Z) :
  normalizeToIsoMinuteZ s0 = Ok s ->
  enforceFifteenMinuteGrid s = None ->
  computeEndAt s (15 * k) = Ok e ->
  enforceFifteenMinuteGrid e = None.
Proof.
  intros Hn Hg He. apply normalizeToIsoMinuteZ_Ok in Hn as (t & -> & Hc & Hm & Hp).
  destruct (computeEndAt_whole_minute_Ok _ t (15 * k) e Hp Hm He) as (-> & Hc' & Hm' & Hp').
  pose proof (enforceFifteenMinuteGrid_cases (minute_string t)) as G.
  pose proof (enforceFifteenMinuteGrid_cases (minute_string (t + 15 * k * 60000))) as G'.
  rewrite Hp in G. rewrite Hp' in G'.
  destruct (Z.eqb_spec ((t / 60000) mod 15) 0) as [Hz | Hz]; [|congruence].
  destruct (Z.eqb_spec (((t + 15 * k * 60000) / 60000) mod 15) 0) as [Hz' | Hz']; [exact G'|].
  exfalso. apply Hz'. unfold msPerMinute in *. Z.div_mod_to_equations; lia.
Qed.

(** X21. With the grid check wired in, an accepted appointment starts
    strictly after the clock on a quarter hour and ends, 60 minutes later,
    on a quarter hour too. *)
Theorem accepted_appointment_is_on_the_grid (w w' : world) (body : loc)
    (o : gmap string jsval) (b : App.body) (rec : AppointmentRecord) :
  w_heap w !! body = Some o ->
  post_appointments (Some enforceFifteenMinuteGrid) body w = (w', Ok (Json 202 b, Some rec)) ->
  exists t,
    Date_parse (r_startAt rec) = Some t
    /\ w_clock w < t
    /\ t mod 900000 = 0
    /\ Date_parse (r_endAt rec) = Some (t + 3600000)
    /\ enforceFifteenMinuteGrid (r_startAt rec) = None
    /\ enforceFifteenMinuteGrid (r_endAt rec) = None.
Proof.
  intros Hb Hr. rewrite (post_appointments_at _ body w o Hb) in Hr.
  destruct (validateAppointment o) as [|m errs] eqn:Hv.
  2:{ rewrite handler_view_rejected in Hr by (rewrite Hv; discriminate). discriminate Hr. }
  pose proof (handler_view_validated (Some enforceFifteenMinuteGrid) w o Hv) as Ho.
  rewrite Hr in Ho.
  inversion Ho as [| | |o' s t Hn Hs Hmp Hp Hs' Hg Hlt]; subst.
  cbn [prepared_record r_startAt r_endAt]. rewrite Hs'. cbn [as_string].
  pose proof (Date_parse_minute_precision s t Hmp Hp) as Hm.
  pose proof (Date_parse_minute_precision_range s t Hmp Hp) as Hrg.
  pose proof (Date_parse_clip s t Hp) as Hc.
  assert (Hm' : (t + 3600000) mod msPerMinute = 0)
    by (unfold msPerMinute in *; Z.div_mod_to_equations; lia).
  assert (Hp1 : Date_parse (minute_string t) = Some t)
    by now apply Date_parse_minute_string.
  assert (Hp2 : Date_parse (minute_string (t + 3600000)) = Some (t + 3600000))
    by (apply Date_parse_minute_string; [lia|exact Hm']).
  pose proof (enforceFifteenMinuteGrid_cases (minute_string t)) as G.
  pose proof (enforceFifteenMinuteGrid_cases (minute_string (t + 3600000))) as G'.
  rewrite Hp1 in G. rewrite Hp2 in G'.
  destruct (Z.eqb_spec ((t / 60000) mod 15) 0) as [Hz | Hz]; [|congruence].
  exists t. split; [exact Hp1|]. split; [exact Hlt|].
  split; [unfold msPerMinute in *; Z.div_mod_to_equations; lia|].
  split; [exact Hp2|]. split; [exact Hg|].
  destruct (Z.eqb_spec (((t + 3600000) / 60000) mod 15) 0) as [Hz' | Hz']; [exact G'|].
  exfalso. apply Hz'. unfold msPerMinute in *. Z.div_mod_to_equations; lia.
Qed.

(** X22. The validator reads five fields and nothing else: two bodies that
    agree on [serviceId], [startAt], [clientName], [clientEmail] and
    [clientPhone] get the same messages, whatever else they hold. *)
Theorem validateAppointment_reads_five_fields (d1 d2 : gmap string jsval) :
  (forall k, In k ["serviceId"; "startAt"; "clientName"; "clientEmail"; "clientPhone"] ->
             prop d1 k = prop d2 k) ->
  validateAppointment d1 = validateAppointment d2.
Proof.
  intros Hk.
  assert (E1 : prop d1 "serviceId" = prop d2 "serviceId") by (apply Hk; simpl; auto).
  assert (E2 : prop d1 "startAt" = prop d2 "startAt") by (apply Hk; simpl; auto).
  assert (E3 : prop d1 "clientName" = prop d2 "clientName") by (apply Hk; simpl; auto).
  assert (E4 : prop d1 "clientEmail" = prop d2 "clientEmail") by (apply Hk; simpl; auto 10).
  assert (E5 : prop d1 "clientPhone" = prop d2 "clientPhone") by (apply Hk; simpl; auto 10).
  rewrite !validateAppointment_checks.
  unfold check_serviceId, check_startAt, check_clientName, check_contact, check_clientEmail,
    check_clientPhone, check_clientName_length.
  rewrite E1, E2, E3, E4, E5. reflexivity.
Qed.

(** X23. Validation has to come first: the copy [normalizeAppointment]
    returns never passes the validator, because its [startAt] now carries
    seconds. *)
Theorem normalized_copy_fails_validation (w w' : world) (data d : loc)
    (o o' : gmap string jsval) :
  w_heap w !! data = Some o ->
  normalizeAppointment data w = (w', Ok d) ->
  w_heap w' !! d = Some o' ->
  validateStartAtMinuteOnly (prop o' "startAt") = Some msg_start_not_iso
  /\ In msg_start_not_iso (validateAppointment o').
Proof.
  intros Hd Hn Ho'. pose proof (normalizeAppointment_normal w data o Hd) as Hr.
  destruct (normal_fields o) as [[[[[name email] phone] serviceId] startAt]|e] eqn:Hf.
  2:{ destruct Hr as (o1 & Hr). congruence. }
  destruct Hr as (o1 & Hr & _ & _ & _ & _ & _ & P5).
  rewrite Hr in Hn. injection Hn as <- <-. rewrite at_obj_lookup in Ho'. injection Ho' as <-.
  apply normal_fields_Ok in Hf as (_ & _ & _ & _ & H5).
  apply normal_startAt_Ok in H5 as (s & t & _ & _ & ->).
  assert (Hv : validateStartAtMinuteOnly (prop o1 "startAt") = Some msg_start_not_iso).
  { rewrite P5. unfold validateStartAtMinuteOnly.
    destruct (test ISO_MINUTE_NO_SECONDS _) eqn:Ht; [|reflexivity].
    apply ISO_MINUTE_NO_SECONDS_shape in Ht.
    now apply minute_string_not_minute_precision in Ht. }
  split; [exact Hv|].
  apply In_validateAppointment. right; left. unfold check_startAt. rewrite Hv. simpl. auto.
Qed.

(** X24. For every valid minute-precision timestamp [s], with
    any UTC offset, [normalizeToIsoMinuteZ] returns the minute-level UTC
    string of the instant of [s] and is idempotent on it; that string has
    the form [YYYY-MM-DDTHH:MM:00Z] exactly when the UTC year of the instant
    is between 0 and 9999. *)
Theorem normalizeToIsoMinuteZ_idempotent (s : jsstring) :
  validateStartAtMinuteOnly (VString s) = None ->
  exists t,
    Date_parse s = Some t
    /\ normalizeToIsoMinuteZ s = Ok (minute_string t)
    /\ normalizeToIsoMinuteZ (minute_string t) = Ok (minute_string t)
    /\ (canonical_minute_Z (minute_string t) <-> 0 <= YearFromTime t <= 9999).
Proof.
  intros Hv. apply validateStartAtMinuteOnly_None in Hv as [Hs [t Ht]].
  pose proof (Date_parse_minute_precision s t Hs Ht) as Hm.
  pose proof (Date_parse_clip s t Ht) as Hc.
  assert (Hfloor : t / 60000 * 60000 = t)
    by (unfold msPerMinute in Hm; Z.div_mod_to_equations; lia).
  exists t. split; [assumption|]. split; [|split].
  - rewrite normalizeToIsoMinuteZ_eq, Ht, Hfloor. reflexivity.
  - rewrite normalizeToIsoMinuteZ_eq, Date_parse_minute_string, Hfloor by assumption.
    reflexivity.
  - apply canonical_minute_string.
Qed.

(** X25. For every normalized [startAt] [s], of instant [t], and
    every integer [durationMin]: [computeEndAt] returns the minute-level UTC
    string of the instant [t + durationMin] minutes when that instant is in
    the range of [Date], and throws a RangeError otherwise; the result is
    what [normalizeToIsoMinuteZ] returns on any string denoting that
    instant; and it has the form [YYYY-MM-DDTHH:MM:00Z] exactly when the UTC
    year of the end instant is between 0 and 9999. *)
Theorem computeEndAt_is_minute_canonicalization (s0 s : jsstring) (durationMin : Z) :
  normalizeToIsoMinuteZ s0 = Ok s ->
  exists t,
    Date_parse s = Some t
    /\ computeEndAt s durationMin =
       (if Z.abs (t + durationMin * 60000) <=? 8640000000000000
        then Ok (minute_string (t + durationMin * 60000))
        else Throw RangeError)
    /\ (forall s', Date_parse s' = Some (t + durationMin * 60000) ->
        computeEndAt s durationMin = normalizeToIsoMinuteZ s')
    /\ (canonical_minute_Z (minute_string (t + durationMin * 60000))
        <-> 0 <= YearFromTime (t + durationMin * 60000) <= 9999).
Proof.
  intros Hn. apply normalizeToIsoMinuteZ_Ok in Hn as (t & -> & Hc & Hm & Hp).
  assert (Hm' : (t + durationMin * 60000) mod msPerMinute = 0)
    by (unfold msPerMinute in *; Z.div_mod_to_equations; lia).
  assert (He : computeEndAt (minute_string t) durationMin =
               if Z.abs (t + durationMin * 60000) <=? 8640000000000000
               then Ok (minute_string (t + durationMin * 60000))
               else Throw RangeError).
  { rewrite computeEndAt_eq, Hp. destruct (_ <=? _); [|reflexivity].
    now rewrite replace_iso_string_minute. }
  exists t. split; [assumption|]. split; [exact He|]. split.
  - intros s' Hs'. rewrite He, normalizeToIsoMinuteZ_eq, Hs'.
    apply Date_parse_clip in Hs'.
    destruct (Z.leb_spec (Z.abs (t + durationMin * 60000)) 8640000000000000); [|lia].
    f_equal. f_equal. unfold msPerMinute in Hm'. Z.div_mod_to_equations. lia.
  - apply canonical_minute_string.
Qed.

End Further.

(** * Examples: the claims on concrete requests *)

#[local] Existing Instance sample_platform.

Lemma has_seconds_example : has_seconds (js "2025-09-20T18:00:00Z").
Proof.
  change (js "2025-09-20T18:00:00Z")
    with ((js "2025" ++ js "-" ++ js "09" ++ js "-" ++ js "20" ++ js "T" ++ js "18" ++ js ":"
           ++ js "00") ++ (js ":" ++ js "00") ++ js "Z").
  constructor; [constructor|constructor]; split; reflexivity.
Defined.

Lemma minute_precision_example : minute_precision (js "2025-09-20T18:00Z").
Proof.
  change (js "2025-09-20T18:00Z")
    with ((js "2025" ++ js "-" ++ js "09" ++ js "-" ++ js "20" ++ js "T" ++ js "18" ++ js ":"
           ++ js "00") ++ js "Z").
  constructor; [constructor; split; reflexivity|constructor].
Defined.

Lemma phone_true_fields :
  normalize_fields phone_true =
  (<["startAt" := VString (js "2025-09-20T18:00:00Z")]>
   (<["serviceId" := VNumber (NumInt 1)]>
   (<["clientPhone" := VString (js "true")]>
   (<["clientName" := VString (js "Jane Doe")]> phone_true))), Ok tt).
Proof. reflexivity. Qed.

Lemma phone_padded_fields :
  normalize_fields phone_padded =
  (<["startAt" := VString (js "2025-09-20T18:00:00Z")]>
   (<["serviceId" := VNumber (NumInt 1)]>
   (<["clientPhone" := VString (js "12345")]>
   (<["clientName" := VString (js "Jane Doe")]> phone_padded))), Ok tt).
Proof. reflexivity. Qed.

(** C1 on the sample world, one millisecond before the appointment. *)
Lemma jane_doe_is_accepted_witness :
  w_heap (sample_world jane 1758391199999) !! 1%positive = Some jane
  /\ Date_parse (js "2025-09-20T18:00Z") = Some 1758391200000
  /\ w_clock (sample_world jane 1758391199999) < 1758391200000
  /\ validateAppointment jane = []
  /\ computeEndAt (js "2025-09-20T18:00:00Z") 60 = Ok (js "2025-09-20T19:00:00Z")
  /\ exists w' record,
       post_appointments None 1%positive (sample_world jane 1758391199999)
       = (w', Ok (accepted_reply (sample_world jane 1758391199999), Some record))
       /\ r_status record = js "pending"
       /\ r_startAt record = js "2025-09-20T18:00:00Z"
       /\ r_endAt record = js "2025-09-20T19:00:00Z".
Proof.
  split; [reflexivity|]. split; [vm_compute; reflexivity|]. split; [reflexivity|].
  apply (jane_doe_is_accepted (sample_world jane 1758391199999) 1%positive 1758391200000);
    [reflexivity | vm_compute; reflexivity | reflexivity].
Defined.

(** C3 on "2025-09-20T18:00:00Z" and on "2025-09-20T18:00Z". *)
Lemma startAt_shapes_witness :
  (validateStartAtMinuteOnly (VString (js "2025-09-20T18:00:00Z")) = Some msg_start_not_iso
   /\ In msg_start_not_iso (validateAppointment jane_with_seconds))
  /\ (validateStartAtMinuteOnly (VString (js "2025-09-20T18:00Z")) = None
      /\ ~ In msg_start_not_string (validateAppointment jane)
      /\ ~ In msg_start_not_iso (validateAppointment jane)
      /\ ~ In msg_start_not_date (validateAppointment jane)).
Proof.
  split.
  - apply (startAt_with_seconds_rejected_minutes_accepted jane_with_seconds
             (js "2025-09-20T18:00:00Z")); [reflexivity|exact has_seconds_example].
  - apply (startAt_with_seconds_rejected_minutes_accepted jane (js "2025-09-20T18:00Z"));
      [reflexivity | exact minute_precision_example
      | exists 1758391200000; vm_compute; reflexivity].
Defined.

(** C5 on a start at seven minutes past the hour. *)
Lemma grid_check_witness :
  normalizeToIsoMinuteZ (js "2025-09-20T18:07Z") = Ok (js "2025-09-20T18:07:00Z")
  /\ exists m,
       minute_field (js "2025-09-20T18:07:00Z") = Some m
       /\ getUTCMinutes (Date_parse (js "2025-09-20T18:07:00Z")) = Some m
       /\ (enforceFifteenMinuteGrid (js "2025-09-20T18:07:00Z") = None <-> m mod 15 = 0)
       /\ (enforceFifteenMinuteGrid (js "2025-09-20T18:07:00Z") = None
           \/ enforceFifteenMinuteGrid (js "2025-09-20T18:07:00Z") = Some msg_grid).
Proof.
  split; [vm_compute; reflexivity|].
  apply (grid_check_iff_minute_multiple_of_15 (js "2025-09-20T18:07Z")).
  vm_compute. reflexivity.
Defined.


(** C8 on a request whose phone is "555-123-4567". *)
Lemma normalized_clientPhone_witness :
  validateAppointment phone_plain = []
  /\ ((exists w' e,
         normalizeAppointment 1%positive (sample_world phone_plain 0) = (w', Throw e)
         /\ ToString (prop phone_plain "clientEmail") = Throw TypeError)
      \/ (exists w' d o',
            normalizeAppointment 1%positive (sample_world phone_plain 0) = (w', Ok d)
            /\ w_heap w' !! d = Some o'
            /\ prop o' "clientPhone" = VString (trim (js "555-123-4567"))
            /\ trimmed (trim (js "555-123-4567"))
            /\ strlen (trim (js "555-123-4567")) <= 40
            /\ (trimmed (js "555-123-4567") -> 7 <= strlen (trim (js "555-123-4567"))))).
Proof.
  split; [vm_compute; reflexivity|].
  apply (normalized_clientPhone_of_string (sample_world phone_plain 0) 1%positive phone_plain
           (js "555-123-4567")); [reflexivity | vm_compute; reflexivity | reflexivity | discriminate].
Defined.

(** C9 on the sample request. *)
Lemma normalizeAppointment_input_witness :
  exists w' r,
    normalizeAppointment 1%positive (sample_world jane 0) = (w', r)
    /\ w_heap w' !! 1%positive = Some jane
    /\ (forall l o1, w_heap (sample_world jane 0) !! l = Some o1 -> w_heap w' !! l = Some o1)
    /\ (forall d, r = Ok d ->
        d <> 1%positive /\ w_heap (sample_world jane 0) !! d = None
        /\ exists o', w_heap w' !! d = Some o'
           /\ forall k, k <> "clientName" -> k <> "clientEmail" -> k <> "clientPhone"
                        -> k <> "serviceId" -> k <> "startAt" -> o' !! k = jane !! k).
Proof.
  apply (normalizeAppointment_leaves_its_input (sample_world jane 0) 1%positive jane).
  reflexivity.
Defined.

(** C10 on a request whose phone is the number 5551234. *)
Lemma numeric_clientPhone_passes_validation : validateAppointment phone_number = [].
Proof.
  apply (proj1 (proj2 (proj2 (proj2 (contact_fields_that_are_not_strings phone_number))))
           (NumInt 5551234));
    solve [reflexivity | vm_compute; reflexivity].
Defined.


(** C8 as stated fails on a [clientPhone] that is [true]: it passes
    validation, and is stored as the four letters "true". *)
Lemma boolean_clientPhone_passes_validation :
  validateAppointment phone_true = []
  /\ (exists w' d o',
        normalizeAppointment 1%positive (sample_world phone_true 0) = (w', Ok d)
        /\ w_heap w' !! d = Some o'
        /\ prop o' "clientPhone" = VString (js "true"))
  /\ strlen (js "true") = 4.
Proof.
  split; [vm_compute; reflexivity|]. split; [|reflexivity].
  rewrite normalizeAppointment_run. cbv zeta.
  change (default ∅ (w_heap (sample_world phone_true 0) !! 1%positive)) with phone_true.
  rewrite phone_true_fields.
  eexists _, _, _. split; [reflexivity|]. split; [apply lookup_insert_eq|]. reflexivity.
Qed.

(** A phone padded with white space is measured before it is trimmed:
    "  12345  " passes the validator and is stored as "12345". *)
Lemma padded_clientPhone_is_cut_below_seven :
  validateAppointment phone_padded = []
  /\ (exists w' d o',
        normalizeAppointment 1%positive (sample_world phone_padded 0) = (w', Ok d)
        /\ w_heap w' !! d = Some o'
        /\ prop o' "clientPhone" = VString (js "12345"))
  /\ strlen (js "12345") = 5.
Proof.
  split; [vm_compute; reflexivity|]. split; [|reflexivity].
  rewrite normalizeAppointment_run. cbv zeta.
  change (default ∅ (w_heap (sample_world phone_padded 0) !! 1%positive)) with phone_padded.
  rewrite phone_padded_fields.
  eexists _, _, _. split; [reflexivity|]. split; [apply lookup_insert_eq|]. reflexivity.
Qed.

(** * Examples: the further properties on concrete requests *)

Lemma jane_normalized :
  normalizeAppointment 1%positive jane_world
  = (at_obj jane_world jane_copy_loc jane_copy, Ok jane_copy_loc).
Proof.
  rewrite normalizeAppointment_run. cbv zeta.
  change (default ∅ (w_heap jane_world !! 1%positive)) with jane.
  unfold jane_copy. rewrite jane_fields. reflexivity.
Qed.

Lemma jane_copy_lookup :
  w_heap (at_obj jane_world jane_copy_loc jane_copy) !! jane_copy_loc = Some jane_copy.
Proof. apply at_obj_lookup. Qed.

Lemma jane_validated : validateAppointment jane = [].
Proof. vm_compute. reflexivity. Qed.

(** The sample request is accepted one millisecond before it starts, with
    the grid check or without it. *)
Lemma jane_accepted grid :
  grid = None \/ grid = Some enforceFifteenMinuteGrid ->
  exists w' b rec,
    post_appointments grid 1%positive jane_world = (w', Ok (Json 202 b, Some rec)).
Proof.
  intros Hg. rewrite post_appointments_run.
  change (default ∅ (w_heap jane_world !! 1%positive)) with jane.
  unfold handler_view. cbv zeta.
  rewrite jane_validated. cbn [List.length Z.of_nat Z.ltb Z.compare].
  rewrite jane_fields.
  set (o' := <["startAt" := _]> _).
  assert (Hs : as_string (prop o' "startAt") = js "2025-09-20T18:00:00Z") by reflexivity.
  rewrite Hs.
  assert (Hgrid : match grid with
                  | Some enforce => enforce (js "2025-09-20T18:00:00Z")
                  | None => None
                  end = None).
  { destruct Hg as [-> | ->]; [reflexivity|vm_compute; reflexivity]. }
  rewrite Hgrid.
  assert (Hp : Date_parse (js "2025-09-20T18:00:00Z") = Some 1758391200000)
    by (vm_compute; reflexivity).
  rewrite Hp. change (w_clock jane_world) with 1758391199999.
  destruct (Z.leb_spec 1758391200000 1758391199999); [lia|].
  assert (He : computeEndAt (js "2025-09-20T18:00:00Z") 60 = Ok (js "2025-09-20T19:00:00Z"))
    by (vm_compute; reflexivity).
  rewrite He. unfold accepted_reply. eauto.
Qed.

(** The request with the object for a phone runs into the conversion. *)
Lemma phone_object_forwarded :
  exists w' e r,
    post_appointments None 1%positive (sample_world phone_object 0) = (w', Ok (Next e, r)).
Proof.
  rewrite post_appointments_run.
  change (default ∅ (w_heap (sample_world phone_object 0) !! 1%positive)) with phone_object.
  unfold handler_view. cbv zeta.
  assert (Hv : validateAppointment phone_object = []) by (vm_compute; reflexivity).
  rewrite Hv. cbn [List.length Z.of_nat Z.ltb Z.compare].
  assert (Hn : normalize_fields phone_object
               = (<["clientName" := VString (js "Jane Doe")]> phone_object, Throw TypeError))
    by reflexivity.
  rewrite Hn. eauto.
Qed.

(** X2 on "jane@example.com". *)
Lemma accepted_email_witness :
  count_occ N.eq_dec (js "jane@example.com") 64%N = 1%nat
  /\ no_white_space (js "jane@example.com")
  /\ trim (js "jane@example.com") = js "jane@example.com"
  /\ 5 <= strlen (js "jane@example.com").
Proof. apply accepted_email_has_one_at_and_no_space. vm_compute. reflexivity. Defined.

(** X6 on the copy of the sample request. *)
Lemma normalizeAppointment_caps_witness :
  exists o',
    w_heap (at_obj jane_world jane_copy_loc jane_copy) !! jane_copy_loc = Some o'
    /\ (exists n, prop o' "clientName" = VString n /\ strlen n <= 120)
    /\ (if ToBoolean (prop jane "clientEmail")
        then exists e, prop o' "clientEmail" = VString e /\ strlen e <= 255
        else prop o' "clientEmail" = prop jane "clientEmail")
    /\ (if ToBoolean (prop jane "clientPhone")
        then exists p, prop o' "clientPhone" = VString p /\ strlen p <= 40
        else prop o' "clientPhone" = prop jane "clientPhone")
    /\ (exists n, prop o' "serviceId" = VNumber n)
    /\ (exists t, prop o' "startAt" = VString (minute_string t)
                  /\ t mod 60000 = 0 /\ Date_parse (minute_string t) = Some t).
Proof.
  apply (normalizeAppointment_caps_every_field jane_world (at_obj jane_world jane_copy_loc jane_copy) 1%positive
           jane_copy_loc jane);
    [reflexivity|exact jane_normalized].
Defined.

(** X7 on the sample request. *)
Lemma normalizeAppointment_returns_witness :
  ((exists w' d, normalizeAppointment 1%positive jane_world = (w', Ok d)) <->
   (forall k, In k ["clientName"; "clientEmail"; "clientPhone"; "serviceId"; "startAt"] ->
              prop jane k <> VObject None)
   /\ exists s t, ToString (prop jane "startAt") = Ok s /\ Date_parse s = Some t)
  /\ (forall w' e, normalizeAppointment 1%positive jane_world = (w', Throw e) ->
      (e = TypeError
       /\ exists k, In k ["clientName"; "clientEmail"; "clientPhone"; "serviceId"; "startAt"]
                    /\ prop jane k = VObject None)
      \/ (e = RangeError
          /\ exists s, ToString (prop jane "startAt") = Ok s /\ Date_parse s = None)).
Proof. apply (normalizeAppointment_returns_iff jane_world 1%positive jane). reflexivity. Defined.

(** X8 on the sample request. *)
Lemma validated_request_normal_form_witness :
  exists o' name s t,
    w_heap (at_obj jane_world jane_copy_loc jane_copy) !! jane_copy_loc = Some o'
    /\ prop o' "serviceId" = prop jane "serviceId"
    /\ prop jane "clientName" = VString name
    /\ prop o' "clientName" = VString (trim name)
    /\ 1 <= strlen (trim name) <= 120
    /\ prop jane "startAt" = VString s /\ Date_parse s = Some t
    /\ prop o' "startAt" = VString (minute_string t)
    /\ Date_parse (minute_string t) = Some t
    /\ (forall e, prop jane "clientEmail" = VString e -> e <> [] ->
                  prop o' "clientEmail" = VString (slice (toLowerCase e) 0 255))
    /\ (ToBoolean (prop jane "clientEmail") = false ->
        prop o' "clientEmail" = prop jane "clientEmail").
Proof.
  apply (validated_request_normal_form jane_world (at_obj jane_world jane_copy_loc jane_copy) 1%positive
           jane_copy_loc jane);
    [reflexivity|exact jane_validated|exact jane_normalized].
Defined.

(** X9 on the request without a name. *)
Lemma invalid_request_witness :
  post_appointments (Some enforceFifteenMinuteGrid) 1%positive
    (sample_world past_without_name 1758391200000)
  = (sample_world past_without_name 1758391200000,
     Ok (Json 400 (Errors (validateAppointment past_without_name)), None)).
Proof.
  apply invalid_request_gets_every_message; [reflexivity|vm_compute; discriminate].
Defined.

(** X10 on the sample request, the grid check left out. *)
Lemma post_appointments_accepts_witness :
  (exists w' b r, post_appointments None 1%positive jane_world = (w', Ok (Json 202 b, r)))
  <-> validateAppointment jane = []
      /\ prop jane "clientEmail" <> VObject None
      /\ prop jane "clientPhone" <> VObject None
      /\ exists s t,
           prop jane "startAt" = VString s /\ Date_parse s = Some t
           /\ True
           /\ w_clock jane_world < t.
Proof. apply (post_appointments_accepts_iff None jane_world 1%positive jane). reflexivity. Defined.

(** X11 on the sample request. *)
Lemma accepted_request_record_witness :
  exists w' b r,
    post_appointments None 1%positive jane_world = (w', Ok (Json 202 b, r))
    /\ exists rec name s t,
         r = Some rec
         /\ b = Received msg_received (r_id rec) (r_confirmToken rec) (r_cancelToken rec)
         /\ r_id rec = w_uuid jane_world (w_drawn jane_world)
         /\ r_confirmToken rec = w_uuid jane_world (S (w_drawn jane_world))
         /\ r_cancelToken rec = w_uuid jane_world (S (S (w_drawn jane_world)))
         /\ w_drawn w' = S (S (S (w_drawn jane_world)))
         /\ r_status rec = js "pending"
         /\ prop jane "startAt" = VString s /\ Date_parse s = Some t
         /\ r_startAt rec = minute_string t
         /\ r_endAt rec = minute_string (t + 3600000)
         /\ Date_parse (r_endAt rec) = Some (t + 3600000)
         /\ r_serviceId rec = prop jane "serviceId"
         /\ prop jane "clientName" = VString name
         /\ r_clientName rec = VString (trim name)
         /\ r_clientEmail rec <> VUndefined
         /\ r_clientPhone rec <> VUndefined.
Proof.
  destruct (jane_accepted None (or_introl eq_refl)) as (w' & b & rec & Hr).
  exists w', b, (Some rec). split; [exact Hr|].
  exact (accepted_request_record None jane_world w' 1%positive jane b (Some rec) eq_refl Hr).
Defined.

(** X12 on the request whose phone is an object. *)
Lemma forwarded_error_witness :
  exists w' e r,
    post_appointments None 1%positive (sample_world phone_object 0) = (w', Ok (Next e, r))
    /\ e = TypeError /\ r = None /\ validateAppointment phone_object = []
    /\ exists k, (k = "clientEmail" \/ k = "clientPhone") /\ prop phone_object k = VObject None.
Proof.
  destruct phone_object_forwarded as (w' & e & r & Hr).
  exists w', e, r. split; [exact Hr|].
  exact (forwarded_error_is_a_contact_TypeError None (sample_world phone_object 0) w'
           1%positive phone_object e r eq_refl Hr).
Defined.

(** X16 on 18:00 at +01:00 and 17:00 UTC. *)
Lemma normalizeToIsoMinuteZ_same_minute_witness :
  normalizeToIsoMinuteZ (js "2025-09-20T18:00+01:00")
  = normalizeToIsoMinuteZ (js "2025-09-20T17:00Z")
  <-> 1758387600000 / 60000 = 1758387600000 / 60000.
Proof.
  apply normalizeToIsoMinuteZ_same_minute_iff; vm_compute; reflexivity.
Defined.

(** X18 on the sample start: 60 minutes, then 30 more. *)
Lemma computeEndAt_adds_minutes_witness :
  exists t,
    Date_parse (js "2025-09-20T18:00:00Z") = Some t
    /\ Date_parse (js "2025-09-20T19:00:00Z") = Some (t + 60 * 60000)
    /\ normalizeToIsoMinuteZ (js "2025-09-20T19:00:00Z") = Ok (js "2025-09-20T19:00:00Z")
    /\ computeEndAt (js "2025-09-20T18:00:00Z") 0 = Ok (js "2025-09-20T18:00:00Z")
    /\ computeEndAt (js "2025-09-20T19:00:00Z") 30
       = computeEndAt (js "2025-09-20T18:00:00Z") (60 + 30).
Proof.
  apply (computeEndAt_adds_minutes (js "2025-09-20T18:00Z") (js "2025-09-20T18:00:00Z")
           (js "2025-09-20T19:00:00Z") 60 30); vm_compute; reflexivity.
Defined.

(** X20 on the sample start and four quarter hours. *)
Lemma grid_kept_witness : enforceFifteenMinuteGrid (js "2025-09-20T19:00:00Z") = None.
Proof.
  apply (grid_kept_by_quarter_hours (js "2025-09-20T18:00Z") (js "2025-09-20T18:00:00Z")
           (js "2025-09-20T19:00:00Z") 4);
    vm_compute; reflexivity.
Defined.

(** X21 on the sample request, the grid check wired in. *)
Lemma accepted_on_the_grid_witness :
  exists w' b rec,
    post_appointments (Some enforceFifteenMinuteGrid) 1%positive jane_world
    = (w', Ok (Json 202 b, Some rec))
    /\ exists t,
         Date_parse (r_startAt rec) = Some t
         /\ w_clock jane_world < t
         /\ t mod 900000 = 0
         /\ Date_parse (r_endAt rec) = Some (t + 3600000)
         /\ enforceFifteenMinuteGrid (r_startAt rec) = None
         /\ enforceFifteenMinuteGrid (r_endAt rec) = None.
Proof.
  destruct (jane_accepted (Some enforceFifteenMinuteGrid) (or_intror eq_refl))
    as (w' & b & rec & Hr).
  exists w', b, rec. split; [exact Hr|].
  exact (accepted_appointment_is_on_the_grid jane_world w' 1%positive jane b rec eq_refl Hr).
Defined.

(** X22 on the sample request with and without its notes. *)
Lemma reads_five_fields_witness : validateAppointment jane = validateAppointment jane_with_notes.
Proof.
  apply validateAppointment_reads_five_fields. intros k Hk. simpl in Hk.
  destruct Hk as [<- | [<- | [<- | [<- | [<- | []]]]]]; reflexivity.
Defined.

(** X23 on the copy of the sample request. *)
Lemma normalized_copy_witness :
  validateStartAtMinuteOnly (prop jane_copy "startAt") = Some msg_start_not_iso
  /\ In msg_start_not_iso (validateAppointment jane_copy).
Proof.
  apply (normalized_copy_fails_validation jane_world (at_obj jane_world jane_copy_loc jane_copy) 1%positive
           jane_copy_loc jane jane_copy);
    [reflexivity|exact jane_normalized|exact jane_copy_lookup].
Defined.

(** X24 on "2025-09-20T18:00+01:00". *)
Lemma normalizeToIsoMinuteZ_idempotent_witness :
  validateStartAtMinuteOnly (VString (js "2025-09-20T18:00+01:00")) = None
  /\ exists t,
       Date_parse (js "2025-09-20T18:00+01:00") = Some t
       /\ normalizeToIsoMinuteZ (js "2025-09-20T18:00+01:00") = Ok (minute_string t)
       /\ normalizeToIsoMinuteZ (minute_string t) = Ok (minute_string t)
       /\ (canonical_minute_Z (minute_string t) <-> 0 <= YearFromTime t <= 9999).
Proof.
  split; [vm_compute; reflexivity|].
  apply normalizeToIsoMinuteZ_idempotent. vm_compute. reflexivity.
Defined.

(** X25 on the sample start and the handler's 60 minutes. *)
Lemma computeEndAt_witness :
  normalizeToIsoMinuteZ (js "2025-09-20T18:00Z") = Ok (js "2025-09-20T18:00:00Z")
  /\ exists t,
       Date_parse (js "2025-09-20T18:00:00Z") = Some t
       /\ computeEndAt (js "2025-09-20T18:00:00Z") 60 =
          (if Z.abs (t + 60 * 60000) <=? 8640000000000000
           then Ok (minute_string (t + 60 * 60000))
           else Throw RangeError)
       /\ (forall s', Date_parse s' = Some (t + 60 * 60000) ->
           computeEndAt (js "2025-09-20T18:00:00Z") 60 = normalizeToIsoMinuteZ s')
       /\ (canonical_minute_Z (minute_string (t + 60 * 60000))
           <-> 0 <= YearFromTime (t + 60 * 60000) <= 9999).
Proof.
  split; [vm_compute; reflexivity|].
  apply (computeEndAt_is_minute_canonicalization (js "2025-09-20T18:00Z")).
  vm_compute. reflexivity.
Defined.
